(** * SimpleHttpServer: route table, dispatch and lifecycle

    A shallow embedding of [Source/SimpleHttpServer/Private/SimpleHttpServer.cpp]
    (class [USimpleHttpServer] and the helpers of its anonymous namespace),
    with the properties of its route table, dispatcher and lifecycle.

    Layout: the engine string primitives, the path normaliser and the verb
    test; the request and response records; the transport the server talks
    to; the server object and its member functions; then the theorems. *)

From Stdlib Require Import ZArith Lia Ascii String Bool.
From Equations Require Import Equations.
From stdpp Require Import gmap strings list.

Local Open Scope string_scope.

(** ** FString: the engine's string primitives used by the server

    [FString] is a character array; it is modelled by [string].  The
    member functions below are the ones [NormalizeHttpPath] calls. *)

Module FString.

(** [FChar::IsWhitespace] on the characters of [string]: the C [isspace]
    class (space, and the control characters tab to carriage return). *)
Definition IsWhitespace (c : ascii) : bool :=
  let n := nat_of_ascii c in
  Nat.eqb n 32 || (Nat.leb 9 n && Nat.leb n 13).

(** [TrimStartInline]: drop the leading run of whitespace. *)
Fixpoint TrimStart (s : string) : string :=
  match s with
  | EmptyString => EmptyString
  | String c r => if IsWhitespace c then TrimStart r else s
  end.

(** [TrimEndInline]: drop the trailing run of whitespace. *)
Fixpoint TrimEnd (s : string) : string :=
  match s with
  | EmptyString => EmptyString
  | String c r =>
      match TrimEnd r with
      | EmptyString => if IsWhitespace c then EmptyString else String c EmptyString
      | r' => String c r'
      end
  end.

(** [TrimStartAndEndInline] trims the end, then the start. *)
Definition TrimStartAndEnd (s : string) : string := TrimStart (TrimEnd s).

Definition IsEmpty (s : string) : bool :=
  match s with EmptyString => true | _ => false end.

Definition Len (s : string) : nat := String.length s.

(** [StartsWith]: a non-empty prefix that [s] begins with. *)
Fixpoint IsPrefixOf (pre s : string) : bool :=
  match pre, s with
  | EmptyString, _ => true
  | String a p, String b r => Ascii.eqb a b && IsPrefixOf p r
  | String _ _, EmptyString => false
  end.

Definition StartsWith (s pre : string) : bool :=
  negb (IsEmpty pre) && IsPrefixOf pre s.

(** [EndsWith]: a non-empty suffix that is a tail of [s]. *)
Fixpoint EndsWith (s suf : string) : bool :=
  negb (IsEmpty suf) &&
  (String.eqb s suf ||
   match s with
   | EmptyString => false
   | String _ r => EndsWith r suf
   end).

(** [LeftChopInline(Count)]: remove [Count] characters from the end. *)
Definition LeftChop (s : string) (Count : nat) : string :=
  substring 0 (Len s - Count) s.

(** The last character, when there is one. *)
Fixpoint LastChar (s : string) : option ascii :=
  match s with
  | EmptyString => None
  | String c EmptyString => Some c
  | String _ r => LastChar r
  end.

Definition EndsWithWhitespace (s : string) : bool :=
  match LastChar s with
  | Some c => IsWhitespace c
  | None => false
  end.

End FString.

Import FString.

(** ** The anonymous namespace: [NormalizeHttpPath] and [VerbsMatch] *)

(** The loop condition of [NormalizeHttpPath]:
    [InPath.Len() > 1 && InPath.EndsWith(TEXT("/"))]. *)
Definition strip_cond (InPath : string) : bool :=
  Nat.ltb 1 (Len InPath) && EndsWith InPath "/".

(** [while (InPath.Len() > 1 && InPath.EndsWith("/")) InPath.LeftChopInline(1)]:
    each turn shortens the string, which is the termination argument. *)
Equations? strip_trailing_slashes (InPath : string) : string
  by wf (Len InPath) lt :=
  strip_trailing_slashes InPath with Logic.inspect (strip_cond InPath) := {
    | exist _ true Hc => strip_trailing_slashes (LeftChop InPath 1);
    | exist _ false _ => InPath }.
Proof.
  apply andb_prop in Hc as [Hl _]. apply Nat.ltb_lt in Hl.
  enough (forall n s, (n < String.length s)%nat ->
            String.length (substring 0 n s) = n) as Hsub.
  { unfold LeftChop, Len in *. rewrite Hsub; lia. }
  clear. intros n s. revert n.
  induction s as [|c r IH]; intros [|m] Hm; simpl in *; try lia.
  rewrite IH; lia.
Qed.

Definition NormalizeHttpPath (InPath : string) : string :=
  let InPath := TrimStartAndEnd InPath in
  if IsEmpty InPath then "/"
  else
    let InPath := if negb (StartsWith InPath "/") then "/" ++ InPath else InPath in
    strip_trailing_slashes InPath.

(** [VerbsMatch]: both arguments are cast to [uint8] and tested with a
    bitwise and. *)
Definition to_uint8 (z : Z) : Z := z mod 256.

Definition VerbsMatch (AllowedVerbs RequestVerb : Z) : bool :=
  let AllowedMask := to_uint8 AllowedVerbs in
  let RequestMask := to_uint8 RequestVerb in
  negb (Z.eqb (Z.land AllowedMask RequestMask) 0).

(** ** The normaliser as the specification words it

    Trim; the empty string becomes the root; a missing leading slash is
    prepended; trailing slashes go, one at a time, until one character is
    left or the string no longer ends with a slash.  The last step is
    written by recursion on the characters instead of a loop. *)

Fixpoint drop_trailing_slashes (s : string) : string :=
  match s with
  | EmptyString => EmptyString
  | String c r =>
      match drop_trailing_slashes r with
      | EmptyString => if Ascii.eqb c "/" then EmptyString else String c EmptyString
      | r' => String c r'
      end
  end.

Definition strip_spec (s : string) : string :=
  match s with
  | EmptyString => EmptyString
  | String c r => String c (drop_trailing_slashes r)
  end.

Definition normalize_spec (raw : string) : string :=
  match TrimStartAndEnd raw with
  | EmptyString => "/"
  | String c r as t =>
      if Ascii.eqb c "/" then strip_spec t else strip_spec (String "/" t)
  end.

(** A canonical path: it starts with a slash and has no trailing slash
    unless it is the root itself. *)
Definition IsCanonicalPath (p : string) : bool :=
  StartsWith p "/" && (String.eqb p "/" || negb (EndsWith p "/")).

(** ** Verbs, requests and responses *)

(** Modelled from the spec: the header that declares
    [ENativeHttpServerRequestVerbs] is not among the sources.  The verb mask
    is an unsigned bit field with one bit per verb of the fixed enumeration
    GET, POST, PUT, PATCH, DELETE, ...; the source stores it in a [uint8]. *)
Module Verb.
Definition NONE : Z := 0.
Definition GET : Z := 1.
Definition POST : Z := 2.
Definition PUT : Z := 4.
Definition PATCH : Z := 8.
Definition DELETE : Z := 16.
Definition OPTIONS : Z := 32.
End Verb.

(** The values a [uint8] holds. *)
Definition is_uint8 (z : Z) : Prop := (0 <= z < 256)%Z.

(** [FHttpServerResponse]: what reaches the completion callback. *)
Module FHttpServerResponse.
Record t : Type := mk {
  Code : Z;
  Body : list Byte.byte;
  Headers : gmap string (list string);
  HttpVersion : Z;
}.

(** [EHttpServerResponseCodes::NotFound]. *)
Definition NotFound : Z := 404.

(** Modelled from the spec: [FHttpServerResponse::Error] belongs to the
    transport and is not among the sources.  A Not-Found response has the
    given status and no body. *)
Definition Error (ResponseCode : Z) : t :=
  {| Code := ResponseCode; Body := []; Headers := ∅; HttpVersion := 0 |}.
End FHttpServerResponse.

(** [FNativeHttpServerResponse] wraps the transport response. *)
Module FNativeHttpServerResponse.
Record t : Type := mk { HttpServerResponse : FHttpServerResponse.t }.
End FNativeHttpServerResponse.

(** [FHttpServerRequest]: the request as the transport delivers it. *)
Module FHttpServerRequest.
Record t : Type := mk {
  Verb : Z;
  RelativePath : string;
  Headers : gmap string (list string);
  PathParams : gmap string string;
  QueryParams : gmap string string;
  Body : list Byte.byte;
}.
End FHttpServerRequest.

(** [FNativeHttpServerRequest]: the request as the handlers see it. *)
Module FNativeHttpServerRequest.
Record t : Type := mk {
  Verb : Z;
  RelativePath : string;
  Headers : gmap string string;
  PathParams : gmap string string;
  QueryParams : gmap string string;
  Body : string;
}.

(** A default-constructed request. *)
Definition empty : t :=
  {| Verb := 0; RelativePath := ""; Headers := ∅; PathParams := ∅;
     QueryParams := ∅; Body := "" |}.
End FNativeHttpServerRequest.

(** [FHttpPath::IsRoot]. *)
Definition IsRoot (Path : string) : bool := String.eqb Path "/".

(** [MakeHttpPathForRoute] wraps the string in an [FHttpPath]. *)
Definition MakeHttpPathForRoute (HttpPath : string) : string := HttpPath.

(** ** Handlers

    A callback-style handler is a delegate: it has an identity, and is
    either bound to a function from requests to responses or unbound.  A
    direct-style handler is a function that returns nothing; only its
    identity and the fact that it was called are observable here. *)
Record FHttpServerRequestDelegate : Type := {
  DelegateId : nat;
  BoundFunction : option (FNativeHttpServerRequest.t -> FNativeHttpServerResponse.t);
}.

Definition IsBound (d : FHttpServerRequestDelegate) : bool :=
  match BoundFunction d with Some _ => true | None => false end.

Record FHttpRouteHandler : Type := { HandlerId : nat }.

(** What a dispatch does, in order: a delegate was executed, a direct
    handler was called, the completion callback was called. *)
Inductive Event : Type :=
| Executed (Delegate : nat) (Request : FNativeHttpServerRequest.t)
| Called (Handler : nat) (Request : FNativeHttpServerRequest.t)
| OnComplete (Response : FHttpServerResponse.t).

(** The closures the server hands to the transport: the root preprocessor
    lambda (it captures [this]) and the two route lambdas (they capture
    [this] and the normalised path). *)
Inductive FHttpRequestHandler : Type :=
| RootPreprocessorLambda
| RouteLambda (NormalizedPath : string)
| RouteLambdaNative (NormalizedPath : string).

(** ** The transport

    Modelled from the spec: the listener module and its routers belong to
    the engine and are not among the sources.  A router holds the routes
    bound into it and its request preprocessors; [BindRoute] registers a
    route and returns a fresh handle, [UnbindRoute] removes the route of a
    handle, and likewise for preprocessors; the module keeps one router per
    port and starts and stops all listeners.  Every call is also appended
    to a log. *)
Record FHttpRouteHandleInternal : Type := {
  Handle : nat;
  Path : string;
  Verbs : Z;
  Handler : FHttpRequestHandler;
}.

Record IHttpRouter : Type := {
  Routes : list FHttpRouteHandleInternal;
  RequestPreprocessors : list (nat * FHttpRequestHandler);
}.

Inductive TransportCall : Type :=
| CallGetHttpRouter (Port : Z)
| CallStartAllListeners
| CallStopAllListeners
| CallBindRoute (Port : Z) (Route : FHttpRouteHandleInternal)
| CallUnbindRoute (Port : Z) (RouteHandle : nat)
| CallRegisterRequestPreprocessor (Port : Z) (PreprocessorHandle : nat)
| CallUnregisterRequestPreprocessor (Port : Z) (PreprocessorHandle : nat).

Record FHttpServerModule : Type := {
  Routers : gmap Z IHttpRouter;
  NextHandle : nat;
  bListenersStarted : bool;
  Calls : list TransportCall;
}.

Module Transport.

Definition empty : FHttpServerModule :=
  {| Routers := ∅; NextHandle := 1; bListenersStarted := false; Calls := [] |}.

Definition log (c : TransportCall) (m : FHttpServerModule) : FHttpServerModule :=
  {| Routers := Routers m; NextHandle := NextHandle m;
     bListenersStarted := bListenersStarted m; Calls := Calls m ++ [c] |}.

Definition BindRoute (Port : Z) (HttpPath : string) (HttpVerbs : Z)
    (H : FHttpRequestHandler) (m : FHttpServerModule) : nat * FHttpServerModule :=
  let route := {| Handle := NextHandle m; Path := HttpPath;
                  Verbs := HttpVerbs; Handler := H |} in
  (NextHandle m,
   {| Routers := alter (fun r => {| Routes := Routes r ++ [route];
                                    RequestPreprocessors := RequestPreprocessors r |})
                       Port (Routers m);
      NextHandle := S (NextHandle m);
      bListenersStarted := bListenersStarted m;
      Calls := Calls m ++ [CallBindRoute Port route] |}).

Definition UnbindRoute (Port : Z) (RouteHandle : nat)
    (m : FHttpServerModule) : FHttpServerModule :=
  {| Routers := alter (fun r => {| Routes := filter (fun br => Handle br ≠ RouteHandle) (Routes r);
                                   RequestPreprocessors := RequestPreprocessors r |})
                      Port (Routers m);
     NextHandle := NextHandle m;
     bListenersStarted := bListenersStarted m;
     Calls := Calls m ++ [CallUnbindRoute Port RouteHandle] |}.

Definition RegisterRequestPreprocessor (Port : Z) (H : FHttpRequestHandler)
    (m : FHttpServerModule) : nat * FHttpServerModule :=
  (NextHandle m,
   {| Routers := alter (fun r => {| Routes := Routes r;
                                    RequestPreprocessors :=
                                      RequestPreprocessors r ++ [(NextHandle m, H)] |})
                       Port (Routers m);
      NextHandle := S (NextHandle m);
      bListenersStarted := bListenersStarted m;
      Calls := Calls m ++ [CallRegisterRequestPreprocessor Port (NextHandle m)] |}).

Definition UnregisterRequestPreprocessor (Port : Z) (PreprocessorHandle : nat)
    (m : FHttpServerModule) : FHttpServerModule :=
  {| Routers := alter (fun r => {| Routes := Routes r;
                                   RequestPreprocessors :=
                                     filter (fun ph => ph.1 ≠ PreprocessorHandle)
                                            (RequestPreprocessors r) |})
                      Port (Routers m);
     NextHandle := NextHandle m;
     bListenersStarted := bListenersStarted m;
     Calls := Calls m ++ [CallUnregisterRequestPreprocessor Port PreprocessorHandle] |}.

Definition StartAllListeners (m : FHttpServerModule) : FHttpServerModule :=
  {| Routers := Routers m; NextHandle := NextHandle m;
     bListenersStarted := true; Calls := Calls m ++ [CallStartAllListeners] |}.

Definition StopAllListeners (m : FHttpServerModule) : FHttpServerModule :=
  {| Routers := Routers m; NextHandle := NextHandle m;
     bListenersStarted := false; Calls := Calls m ++ [CallStopAllListeners] |}.

(** [GetHttpRouter]: the router of the port, created when the port has
    none yet; no router when a listener for the port is not to be had. *)
Definition GetHttpRouter (Available : Z -> bool) (Port : Z)
    (m : FHttpServerModule) : option Z * FHttpServerModule :=
  if Available Port then
    (Some Port,
     {| Routers := match Routers m !! Port with
                   | Some _ => Routers m
                   | None => <[Port := {| Routes := []; RequestPreprocessors := [] |}]> (Routers m)
                   end;
        NextHandle := NextHandle m;
        bListenersStarted := bListenersStarted m;
        Calls := Calls m ++ [CallGetHttpRouter Port] |})
  else (None, log (CallGetHttpRouter Port) m).

(** A bound route answers a request on its path for a verb of its mask. *)
Definition RouteMatches (Request : FHttpServerRequest.t)
    (r : FHttpRouteHandleInternal) : bool :=
  String.eqb (Path r) (FHttpServerRequest.RelativePath Request)
  && negb (Z.eqb (Z.land (Verbs r) (FHttpServerRequest.Verb Request)) 0).

End Transport.

(** ** The server object *)

(** A registration call, as the application makes it: [BindRoute] with a
    delegate or [BindRouteNative] with a direct handler. *)
Inductive Registration : Type :=
| ViaBindRoute (HttpPath : string) (Verbs : Z)
    (OnHttpServerRequest : FHttpServerRequestDelegate)
| ViaBindRouteNative (HttpPath : string) (Verbs : Z) (Handler : FHttpRouteHandler).

Definition RegistrationPath (r : Registration) : string :=
  match r with
  | ViaBindRoute HttpPath _ _ | ViaBindRouteNative HttpPath _ _ => HttpPath
  end.

Definition RegistrationVerbs (r : Registration) : Z :=
  match r with
  | ViaBindRoute _ Verbs _ | ViaBindRouteNative _ Verbs _ => Verbs
  end.

(** The members of [USimpleHttpServer].  [HttpRouter] is a shared pointer
    to the router of a port, null when [None].  [ReceiveBindRoutes] is the
    event the application implements to register its routes; its body is
    the list of registration calls it makes. *)
Record USimpleHttpServer : Type := {
  CurrentServerPort : Z;
  HttpRouter : option Z;
  bServerStarted : bool;
  bRootPreprocessorRegistered : bool;
  RootRequestPreprocessorHandle : nat;
  CreatedRouteHandlers : list nat;
  RouteDelegates : gmap string FHttpServerRequestDelegate;
  RouteHandlers : gmap string FHttpRouteHandler;
  RouteVerbs : gmap string Z;
  ReceiveBindRoutes : list Registration;
}.

(** The server together with the transport module it shares. *)
Record World : Type := {
  Server : USimpleHttpServer;
  HttpServerModule : FHttpServerModule;
}.

(** Member updates. *)
Definition set_CurrentServerPort (v : Z) (s : USimpleHttpServer) :=
  {| CurrentServerPort := v; HttpRouter := HttpRouter s;
     bServerStarted := bServerStarted s;
     bRootPreprocessorRegistered := bRootPreprocessorRegistered s;
     RootRequestPreprocessorHandle := RootRequestPreprocessorHandle s;
     CreatedRouteHandlers := CreatedRouteHandlers s;
     RouteDelegates := RouteDelegates s; RouteHandlers := RouteHandlers s;
     RouteVerbs := RouteVerbs s; ReceiveBindRoutes := ReceiveBindRoutes s |}.
Definition set_HttpRouter (v : option Z) (s : USimpleHttpServer) :=
  {| CurrentServerPort := CurrentServerPort s; HttpRouter := v;
     bServerStarted := bServerStarted s;
     bRootPreprocessorRegistered := bRootPreprocessorRegistered s;
     RootRequestPreprocessorHandle := RootRequestPreprocessorHandle s;
     CreatedRouteHandlers := CreatedRouteHandlers s;
     RouteDelegates := RouteDelegates s; RouteHandlers := RouteHandlers s;
     RouteVerbs := RouteVerbs s; ReceiveBindRoutes := ReceiveBindRoutes s |}.
Definition set_bServerStarted (v : bool) (s : USimpleHttpServer) :=
  {| CurrentServerPort := CurrentServerPort s; HttpRouter := HttpRouter s;
     bServerStarted := v;
     bRootPreprocessorRegistered := bRootPreprocessorRegistered s;
     RootRequestPreprocessorHandle := RootRequestPreprocessorHandle s;
     CreatedRouteHandlers := CreatedRouteHandlers s;
     RouteDelegates := RouteDelegates s; RouteHandlers := RouteHandlers s;
     RouteVerbs := RouteVerbs s; ReceiveBindRoutes := ReceiveBindRoutes s |}.
Definition set_RootPreprocessor (registered : bool) (handle : nat) (s : USimpleHttpServer) :=
  {| CurrentServerPort := CurrentServerPort s; HttpRouter := HttpRouter s;
     bServerStarted := bServerStarted s;
     bRootPreprocessorRegistered := registered;
     RootRequestPreprocessorHandle := handle;
     CreatedRouteHandlers := CreatedRouteHandlers s;
     RouteDelegates := RouteDelegates s; RouteHandlers := RouteHandlers s;
     RouteVerbs := RouteVerbs s; ReceiveBindRoutes := ReceiveBindRoutes s |}.
Definition set_CreatedRouteHandlers (v : list nat) (s : USimpleHttpServer) :=
  {| CurrentServerPort := CurrentServerPort s; HttpRouter := HttpRouter s;
     bServerStarted := bServerStarted s;
     bRootPreprocessorRegistered := bRootPreprocessorRegistered s;
     RootRequestPreprocessorHandle := RootRequestPreprocessorHandle s;
     CreatedRouteHandlers := v;
     RouteDelegates := RouteDelegates s; RouteHandlers := RouteHandlers s;
     RouteVerbs := RouteVerbs s; ReceiveBindRoutes := ReceiveBindRoutes s |}.
Definition set_RouteDelegates (v : gmap string FHttpServerRequestDelegate)
    (s : USimpleHttpServer) :=
  {| CurrentServerPort := CurrentServerPort s; HttpRouter := HttpRouter s;
     bServerStarted := bServerStarted s;
     bRootPreprocessorRegistered := bRootPreprocessorRegistered s;
     RootRequestPreprocessorHandle := RootRequestPreprocessorHandle s;
     CreatedRouteHandlers := CreatedRouteHandlers s;
     RouteDelegates := v; RouteHandlers := RouteHandlers s;
     RouteVerbs := RouteVerbs s; ReceiveBindRoutes := ReceiveBindRoutes s |}.
Definition set_RouteHandlers (v : gmap string FHttpRouteHandler) (s : USimpleHttpServer) :=
  {| CurrentServerPort := CurrentServerPort s; HttpRouter := HttpRouter s;
     bServerStarted := bServerStarted s;
     bRootPreprocessorRegistered := bRootPreprocessorRegistered s;
     RootRequestPreprocessorHandle := RootRequestPreprocessorHandle s;
     CreatedRouteHandlers := CreatedRouteHandlers s;
     RouteDelegates := RouteDelegates s; RouteHandlers := v;
     RouteVerbs := RouteVerbs s; ReceiveBindRoutes := ReceiveBindRoutes s |}.
Definition set_RouteVerbs (v : gmap string Z) (s : USimpleHttpServer) :=
  {| CurrentServerPort := CurrentServerPort s; HttpRouter := HttpRouter s;
     bServerStarted := bServerStarted s;
     bRootPreprocessorRegistered := bRootPreprocessorRegistered s;
     RootRequestPreprocessorHandle := RootRequestPreprocessorHandle s;
     CreatedRouteHandlers := CreatedRouteHandlers s;
     RouteDelegates := RouteDelegates s; RouteHandlers := RouteHandlers s;
     RouteVerbs := v; ReceiveBindRoutes := ReceiveBindRoutes s |}.

(** A freshly constructed server, with the application's
    [ReceiveBindRoutes], next to a transport that has no router yet. *)
Definition NewServer (hook : list Registration) : USimpleHttpServer :=
  {| CurrentServerPort := 0; HttpRouter := None; bServerStarted := false;
     bRootPreprocessorRegistered := false; RootRequestPreprocessorHandle := 0;
     CreatedRouteHandlers := []; RouteDelegates := ∅; RouteHandlers := ∅;
     RouteVerbs := ∅; ReceiveBindRoutes := hook |}.

Definition NewWorld (hook : list Registration) : World :=
  {| Server := NewServer hook; HttpServerModule := Transport.empty |}.

(** [TMap::Contains]. *)
Definition Contains {V} (m : gmap string V) (k : string) : bool :=
  match m !! k with Some _ => true | None => false end.

(** ** Request translation: [FillNativeRequst] *)

(** The inner loop: [StrHeaderVals += val + TEXT(" ")] for each value. *)
Definition FlattenHeaderValues (Values : list string) : string :=
  fold_left (fun StrHeaderVals val => StrHeaderVals ++ (val ++ " ")) Values "".

Definition FillNativeRequst (Request : FHttpServerRequest.t)
    (NativeRequest : FNativeHttpServerRequest.t) : FNativeHttpServerRequest.t :=
  {| FNativeHttpServerRequest.Verb := to_uint8 (FHttpServerRequest.Verb Request);
     FNativeHttpServerRequest.RelativePath := FHttpServerRequest.RelativePath Request;
     FNativeHttpServerRequest.Headers :=
       map_fold (fun Key Value acc => <[Key := FlattenHeaderValues Value]> acc)
                (FNativeHttpServerRequest.Headers NativeRequest)
                (FHttpServerRequest.Headers Request);
     FNativeHttpServerRequest.PathParams := FHttpServerRequest.PathParams Request;
     FNativeHttpServerRequest.QueryParams := FHttpServerRequest.QueryParams Request;
     FNativeHttpServerRequest.Body :=
       string_of_list_byte (FHttpServerRequest.Body Request) |}.

(** What the specification says of the headers: the values of a header
    joined with single spaces. *)
Fixpoint join_with_spaces (Values : list string) : string :=
  match Values with
  | [] => ""
  | [v] => v
  | v :: vs => v ++ " " ++ join_with_spaces vs
  end.

(** ** Dispatch: [HandleRequest], [HandleRequestNative] and the lambdas *)

Definition CompleteNotFound : bool * list Event :=
  (true, [OnComplete (FHttpServerResponse.Error FHttpServerResponse.NotFound)]).

Definition HandleRequest (this : USimpleHttpServer) (HttpPath : string)
    (Request : FHttpServerRequest.t) : bool * list Event :=
  let NativeHttpServerRequest := FillNativeRequst Request FNativeHttpServerRequest.empty in
  match RouteDelegates this !! HttpPath with
  | Some HttpServerRequestDelegate =>
      match BoundFunction HttpServerRequestDelegate with
      | Some Execute =>
          let HttpServerResponse :=
            FNativeHttpServerResponse.HttpServerResponse (Execute NativeHttpServerRequest) in
          let Response :=
            {| FHttpServerResponse.Body := FHttpServerResponse.Body HttpServerResponse;
               FHttpServerResponse.Code := FHttpServerResponse.Code HttpServerResponse;
               FHttpServerResponse.Headers := FHttpServerResponse.Headers HttpServerResponse;
               FHttpServerResponse.HttpVersion :=
                 FHttpServerResponse.HttpVersion HttpServerResponse |} in
          (true, [Executed (DelegateId HttpServerRequestDelegate) NativeHttpServerRequest;
                  OnComplete Response])
      | None => CompleteNotFound
      end
  | None => CompleteNotFound
  end.

Definition HandleRequestNative (this : USimpleHttpServer) (HttpPath : string)
    (Request : FHttpServerRequest.t) : bool * list Event :=
  let NativeHttpServerRequest := FillNativeRequst Request FNativeHttpServerRequest.empty in
  match RouteHandlers this !! HttpPath with
  | Some HttpServerRequestDelegate =>
      (true, [Called (HandlerId HttpServerRequestDelegate) NativeHttpServerRequest])
  | None => CompleteNotFound
  end.

(** The lambda registered as request preprocessor for the root path. *)
Definition RootRequestPreprocessor (this : USimpleHttpServer)
    (Request : FHttpServerRequest.t) : bool * list Event :=
  if negb (IsRoot (FHttpServerRequest.RelativePath Request)) then (false, [])
  else if match RouteVerbs this !! "/" with
          | Some AllowedVerbs =>
              negb (VerbsMatch AllowedVerbs (FHttpServerRequest.Verb Request))
          | None => false
          end then (false, [])
  else if Contains (RouteDelegates this) "/" then HandleRequest this "/" Request
  else if Contains (RouteHandlers this) "/" then HandleRequestNative this "/" Request
  else (false, []).

(** Calling one of the closures the server gave to the transport. *)
Definition Invoke (this : USimpleHttpServer) (H : FHttpRequestHandler)
    (Request : FHttpServerRequest.t) : bool * list Event :=
  match H with
  | RootPreprocessorLambda => RootRequestPreprocessor this Request
  | RouteLambda NormalizedPath => HandleRequest this NormalizedPath Request
  | RouteLambdaNative NormalizedPath => HandleRequestNative this NormalizedPath Request
  end.

(** Modelled from the spec: how a router of the transport serves a
    request.  Every preprocessor is offered the request before normal
    route matching; when none handles it, the first bound route that
    matches path and verb is invoked; when there is none, the request is
    unmatched and the transport answers by itself. *)
Fixpoint RunPreprocessors (this : USimpleHttpServer)
    (ps : list (nat * FHttpRequestHandler)) (Request : FHttpServerRequest.t)
    : bool * list Event :=
  match ps with
  | [] => (false, [])
  | p :: ps =>
      let r := Invoke this p.2 Request in
      if r.1 then r
      else let r' := RunPreprocessors this ps Request in (r'.1, (r.2 ++ r'.2)%list)
  end.

Definition ProcessRequest (this : USimpleHttpServer) (router : IHttpRouter)
    (Request : FHttpServerRequest.t) : bool * list Event :=
  let pre := RunPreprocessors this (RequestPreprocessors router) Request in
  if pre.1 then pre
  else match List.find (Transport.RouteMatches Request) (Routes router) with
       | Some route =>
           let r := Invoke this (Handler route) Request in (r.1, (pre.2 ++ r.2)%list)
       | None => (false, pre.2)
       end.

(** ** Registration and lifecycle *)

Section Engine.

(** The two answers of the engine the server depends on:
    [FHttpPath::IsValidPath], and whether the module can provide a
    router for a port. *)
Variable IsValidPath : string -> bool.
Variable RouterAvailable : Z -> bool.

(** The table update of [BindRoute] and [BindRouteNative]: the mask of
    a path already present is or-ed with the new verbs. *)
Definition MergeVerbs (NormalizedPath : string) (Verbs : Z)
    (RouteVerbs : gmap string Z) : gmap string Z :=
  match RouteVerbs !! NormalizedPath with
  | Some ExistingVerbs =>
      <[NormalizedPath := to_uint8 (Z.lor (to_uint8 ExistingVerbs) (to_uint8 Verbs))]>
        RouteVerbs
  | None => <[NormalizedPath := Verbs]> RouteVerbs
  end.

(** The part of [BindRoute] and [BindRouteNative] under
    [if (HttpRouter.IsValid())], the same in both but for the lambda
    that is bound. *)
Definition BindIntoRouter (NormalizedPath : string) (Verbs : Z)
    (Lambda : FHttpRequestHandler) (w : World) : World :=
  match HttpRouter (Server w) with
  | Some Port =>
      if String.eqb NormalizedPath "/" then
        if negb (bRootPreprocessorRegistered (Server w)) then
          let r := Transport.RegisterRequestPreprocessor
                     Port RootPreprocessorLambda (HttpServerModule w) in
          {| Server := set_RootPreprocessor true r.1 (Server w);
             HttpServerModule := r.2 |}
        else w
      else
        let RoutePath := MakeHttpPathForRoute NormalizedPath in
        if negb (IsValidPath RoutePath) then w
        else
          let r := Transport.BindRoute Port RoutePath Verbs Lambda (HttpServerModule w) in
          {| Server := set_CreatedRouteHandlers
                         (CreatedRouteHandlers (Server w) ++ [r.1]) (Server w);
             HttpServerModule := r.2 |}
  | None => w
  end.

Definition BindRoute (HttpPath : string) (Verbs : Z)
    (OnHttpServerRequest : FHttpServerRequestDelegate) (w : World) : World :=
  let NormalizedPath := NormalizeHttpPath HttpPath in
  let this := Server w in
  let this := set_RouteDelegates
                (<[NormalizedPath := OnHttpServerRequest]> (RouteDelegates this)) this in
  let this := set_RouteVerbs (MergeVerbs NormalizedPath Verbs (RouteVerbs this)) this in
  BindIntoRouter NormalizedPath Verbs (RouteLambda NormalizedPath)
    {| Server := this; HttpServerModule := HttpServerModule w |}.

Definition BindRouteNative (HttpPath : string) (Verbs : Z)
    (Handler : FHttpRouteHandler) (w : World) : World :=
  let NormalizedPath := NormalizeHttpPath HttpPath in
  let this := Server w in
  let this := set_RouteHandlers
                (<[NormalizedPath := Handler]> (RouteHandlers this)) this in
  let this := set_RouteVerbs (MergeVerbs NormalizedPath Verbs (RouteVerbs this)) this in
  BindIntoRouter NormalizedPath Verbs (RouteLambdaNative NormalizedPath)
    {| Server := this; HttpServerModule := HttpServerModule w |}.

Definition Register (r : Registration) (w : World) : World :=
  match r with
  | ViaBindRoute HttpPath Verbs d => BindRoute HttpPath Verbs d w
  | ViaBindRouteNative HttpPath Verbs h => BindRouteNative HttpPath Verbs h w
  end.

(** [BindRoutes] raises [ReceiveBindRoutes]. *)
Definition BindRoutes (w : World) : World :=
  fold_left (fun w r => Register r w) (ReceiveBindRoutes (Server w)) w.

Definition StartServer (ServerPort : Z) (w : World) : World :=
  if (ServerPort <=? 0)%Z then w
  else
    let this := set_CurrentServerPort ServerPort (Server w) in
    let r := Transport.GetHttpRouter RouterAvailable
               (CurrentServerPort this) (HttpServerModule w) in
    let this := set_HttpRouter r.1 this in
    match HttpRouter this with
    | Some _ =>
        let w := BindRoutes {| Server := this; HttpServerModule := r.2 |} in
        {| Server := set_bServerStarted true (Server w);
           HttpServerModule := Transport.StartAllListeners (HttpServerModule w) |}
    | None =>
        {| Server := set_bServerStarted false this; HttpServerModule := r.2 |}
    end.

Definition StopServer (w : World) : World :=
  let this := Server w in
  let m := Transport.StopAllListeners (HttpServerModule w) in
  match HttpRouter this with
  | Some Port =>
      let w :=
        if bRootPreprocessorRegistered this then
          {| Server := set_RootPreprocessor false
                         (RootRequestPreprocessorHandle this) this;
             HttpServerModule :=
               Transport.UnregisterRequestPreprocessor
                 Port (RootRequestPreprocessorHandle this) m |}
        else {| Server := this; HttpServerModule := m |} in
      {| Server := Server w;
         HttpServerModule :=
           fold_left (fun m HttpRouteHandle => Transport.UnbindRoute Port HttpRouteHandle m)
                     (CreatedRouteHandlers (Server w)) (HttpServerModule w) |}
  | None => {| Server := this; HttpServerModule := m |}
  end.

(** The worlds the member functions lead to from a new server.  The
    verbs of a registration are values of a [uint8] enumeration. *)
Definition WellTyped (r : Registration) : Prop := is_uint8 (RegistrationVerbs r).

Inductive Reachable : World -> Prop :=
| Reachable_new hook :
    Forall WellTyped hook -> Reachable (NewWorld hook)
| Reachable_Register r w :
    WellTyped r -> Reachable w -> Reachable (Register r w)
| Reachable_StartServer ServerPort w :
    Reachable w -> Reachable (StartServer ServerPort w)
| Reachable_StopServer w :
    Reachable w -> Reachable (StopServer w).

End Engine.

(** ** Notions the properties are stated with *)

(** The two kinds of handler, the dispatch function of each kind and
    whether it finds a handler for a path. *)
Inductive HandlerKind : Type := CallbackStyle | DirectStyle.

Definition Dispatch (kind : HandlerKind) :
    USimpleHttpServer -> string -> FHttpServerRequest.t -> bool * list Event :=
  match kind with
  | CallbackStyle => HandleRequest
  | DirectStyle => HandleRequestNative
  end.

Definition Finds (kind : HandlerKind) (this : USimpleHttpServer) (HttpPath : string) : bool :=
  match kind with
  | CallbackStyle => Contains (RouteDelegates this) HttpPath
  | DirectStyle => Contains (RouteHandlers this) HttpPath
  end.

(** A request with a header of two values. *)
Definition accept_request : FHttpServerRequest.t :=
  {| FHttpServerRequest.Verb := Verb.GET;
     FHttpServerRequest.RelativePath := "/status";
     FHttpServerRequest.Headers := {[ "accept" := ["text/html"; "application/json"] ]};
     FHttpServerRequest.PathParams := ∅;
     FHttpServerRequest.QueryParams := ∅;
     FHttpServerRequest.Body := [] |}.

(** A route is bound at a port; a preprocessor is registered at a port. *)
Definition RouteAt (m : FHttpServerModule) (Port : Z) (br : FHttpRouteHandleInternal) : Prop :=
  exists router, Routers m !! Port = Some router /\ br ∈ Routes router.

Definition PreprocessorAt (m : FHttpServerModule) (Port : Z)
    (ph : nat * FHttpRequestHandler) : Prop :=
  exists router, Routers m !! Port = Some router /\ ph ∈ RequestPreprocessors router.

(** The root path is in the route table: it has a verb mask and a handler
    of at least one kind. *)
Definition RootRegistered (this : USimpleHttpServer) : Prop :=
  is_Some (RouteVerbs this !! "/") /\
  (Contains (RouteDelegates this) "/" || Contains (RouteHandlers this) "/") = true.

(** [v] has no bit outside [mask]. *)
Definition VerbsWithin (v mask : Z) : Prop := Z.land v mask = v.

(** What holds of every route the server has bound: its handle was issued
    by the transport and is kept in [CreatedRouteHandlers]; its path is not
    the root; its closure is one of the two route lambdas, for its own
    path; and its verbs are within the mask the table has for its path. *)
Definition GoodRoute (w : World) (br : FHttpRouteHandleInternal) : Prop :=
  (Handle br < NextHandle (HttpServerModule w))%nat /\
  Handle br ∈ CreatedRouteHandlers (Server w) /\
  Path br <> "/" /\
  (Handler br = RouteLambda (Path br) \/ Handler br = RouteLambdaNative (Path br)) /\
  is_uint8 (Verbs br) /\
  exists mask, RouteVerbs (Server w) !! Path br = Some mask /\ VerbsWithin (Verbs br) mask.

Definition GoodPreprocessor (w : World) (ph : nat * FHttpRequestHandler) : Prop :=
  ph.2 = RootPreprocessorLambda /\ RootRegistered (Server w).

(** The invariant of the reachable worlds. *)
Record Inv (w : World) : Prop := {
  inv_router :
    forall Port, HttpRouter (Server w) = Some Port ->
                 is_Some (Routers (HttpServerModule w) !! Port);
  inv_routes :
    forall Port br, RouteAt (HttpServerModule w) Port br -> GoodRoute w br;
  inv_preprocessors :
    forall Port ph, PreprocessorAt (HttpServerModule w) Port ph -> GoodPreprocessor w ph;
  inv_created :
    forall h, h ∈ CreatedRouteHandlers (Server w) ->
              (h < NextHandle (HttpServerModule w))%nat;
  inv_verbs :
    forall p mask, RouteVerbs (Server w) !! p = Some mask -> is_uint8 mask;
  inv_hook :
    Forall WellTyped (ReceiveBindRoutes (Server w));
}.

(** One table is within another: every path keeps a mask, and the mask
    keeps its bits. *)
Definition VerbsGrow (V V' : gmap string Z) : Prop :=
  forall p mask, V !! p = Some mask ->
                 exists mask', V' !! p = Some mask' /\ VerbsWithin mask mask'.

(** The closure a registration binds, and the route it asks the router
    for: none for the root path and for a path the transport refuses. *)
Definition RegistrationLambda (r : Registration) : FHttpRequestHandler :=
  match r with
  | ViaBindRoute HttpPath _ _ => RouteLambda (NormalizeHttpPath HttpPath)
  | ViaBindRouteNative HttpPath _ _ => RouteLambdaNative (NormalizeHttpPath HttpPath)
  end.

Definition RouteSignature (br : FHttpRouteHandleInternal)
    : string * Z * FHttpRequestHandler :=
  (Path br, Verbs br, Handler br).

Definition BindsRoute (IsValidPath : string -> bool) (r : Registration) : bool :=
  negb (String.eqb (NormalizeHttpPath (RegistrationPath r)) "/")
  && IsValidPath (MakeHttpPathForRoute (NormalizeHttpPath (RegistrationPath r))).

Definition SignatureOf (r : Registration) : string * Z * FHttpRequestHandler :=
  (NormalizeHttpPath (RegistrationPath r), RegistrationVerbs r, RegistrationLambda r).

Definition HookRoutes (IsValidPath : string -> bool) (hook : list Registration)
    : list (string * Z * FHttpRequestHandler) :=
  map SignatureOf (List.filter (BindsRoute IsValidPath) hook).

(** The first step of a registration: the handler goes into the table of
    its kind and the verbs are merged. *)
Definition UpdateTables (r : Registration) (w : World) : World :=
  let p := NormalizeHttpPath (RegistrationPath r) in
  let this :=
    match r with
    | ViaBindRoute _ _ d =>
        set_RouteDelegates (<[p := d]> (RouteDelegates (Server w))) (Server w)
    | ViaBindRouteNative _ _ h =>
        set_RouteHandlers (<[p := h]> (RouteHandlers (Server w))) (Server w)
    end in
  {| Server := set_RouteVerbs (MergeVerbs p (RegistrationVerbs r) (RouteVerbs this)) this;
     HttpServerModule := HttpServerModule w |}.

(** Unbinding a list of handles, as the loop of [StopServer] does. *)
Definition UnbindAll (Port : Z) (hs : list nat) (m : FHttpServerModule)
    : FHttpServerModule :=
  fold_left (fun m HttpRouteHandle => Transport.UnbindRoute Port HttpRouteHandle m) hs m.

(** The routes of a list of signatures serve a request as a router
    serves it with its bound routes: the first one that matches path and
    verb is invoked. *)
Definition SignatureMatches (Request : FHttpServerRequest.t)
    (sig : string * Z * FHttpRequestHandler) : bool :=
  String.eqb sig.1.1 (FHttpServerRequest.RelativePath Request)
  && negb (Z.eqb (Z.land sig.1.2 (FHttpServerRequest.Verb Request)) 0).

Definition DispatchOver (this : USimpleHttpServer)
    (sigs : list (string * Z * FHttpRequestHandler))
    (Request : FHttpServerRequest.t) : bool * list Event :=
  match List.find (SignatureMatches Request) sigs with
  | Some sig => Invoke this sig.2 Request
  | None => (false, [])
  end.

(** ** Concrete inputs

    An engine that accepts every path and has a router for every port, a
    delegate that answers 200, a direct handler, and plain requests. *)
Definition AnyPath : string -> bool := fun _ => true.
Definition AnyPort : Z -> bool := fun _ => true.

Definition Ok200 : FNativeHttpServerResponse.t :=
  {| FNativeHttpServerResponse.HttpServerResponse :=
       {| FHttpServerResponse.Code := 200; FHttpServerResponse.Body := [];
          FHttpServerResponse.Headers := ∅; FHttpServerResponse.HttpVersion := 11 |} |}.

Definition OkDelegate : FHttpServerRequestDelegate :=
  {| DelegateId := 7; BoundFunction := Some (fun _ => Ok200) |}.

Definition DirectHandler : FHttpRouteHandler := {| HandlerId := 9 |}.

Definition MakeRequest (Verb : Z) (RelativePath : string) : FHttpServerRequest.t :=
  {| FHttpServerRequest.Verb := Verb;
     FHttpServerRequest.RelativePath := RelativePath;
     FHttpServerRequest.Headers := ∅;
     FHttpServerRequest.PathParams := ∅;
     FHttpServerRequest.QueryParams := ∅;
     FHttpServerRequest.Body := [] |}.

(** A server started on port 8080 whose application registers the root
    path for GET with a delegate. *)
Definition RootWorld : World :=
  StartServer AnyPath AnyPort 8080
    (NewWorld [ViaBindRoute "/" Verb.GET OkDelegate]).

(** A started server without routes, about to receive two registrations
    of one path. *)
Definition EmptyStartedWorld : World := StartServer AnyPath AnyPort 8080 (NewWorld []).

(** A server started on port 8080 whose application registers one path
    with both kinds of handler: a delegate for GET and a direct handler
    for POST. *)
Definition BothKindsWorld : World :=
  StartServer AnyPath AnyPort 8080
    (NewWorld [ViaBindRoute "/b" Verb.GET OkDelegate;
               ViaBindRouteNative "/b" Verb.POST DirectHandler]).

(** A server whose root path has both kinds of handler. *)
Definition BothKindsAtRoot : USimpleHttpServer :=
  Server (BindRouteNative AnyPath "/" Verb.GET DirectHandler
            (BindRoute AnyPath "/" Verb.GET OkDelegate (NewWorld []))).

(** A route registered before the server is started, and the start. *)
Definition RegisteredThenStarted : World :=
  StartServer AnyPath AnyPort 8080
    (BindRoute AnyPath "/a" Verb.GET OkDelegate (NewWorld [])).

(** A registration of the root path. *)
Definition RegistersRoot (r : Registration) : bool :=
  String.eqb (NormalizeHttpPath (RegistrationPath r)) "/".

(** The routes a port has, none when it has no router. *)
Definition RoutesAt (m : FHttpServerModule) (Port : Z) : list FHttpRouteHandleInternal :=
  match Routers m !! Port with
  | Some router => Routes router
  | None => []
  end.

(** An application that registers a status route and the root path. *)
Definition StatusHook : list Registration :=
  [ViaBindRoute "/status" Verb.GET OkDelegate;
   ViaBindRouteNative "/" Verb.GET DirectHandler].

(** ** The remaining member functions *)

(** [BeginDestroy]: after the engine's own [Super::BeginDestroy], which
    touches none of the members here, the server is stopped. *)
Definition BeginDestroy (w : World) : World := StopServer w.

Section ResponseBuilder.

(** The engine's cast of an [int32] to [EHttpServerResponseCodes]. *)
Variable ResponseCodeOfInt : Z -> Z.


End ResponseBuilder.

(** How often a dispatch called the completion callback. *)
Definition IsCompletion (e : Event) : bool :=
  match e with OnComplete _ => true | _ => false end.

Definition Completions (evs : list Event) : nat :=
  length (List.filter IsCompletion evs).

(** A string of slashes only. *)
Fixpoint AllSlashes (s : string) : bool :=
  match s with
  | EmptyString => true
  | String c r => Ascii.eqb c "/" && AllSlashes r
  end.

(** The routers with their preprocessors only, and with their routes only. *)
Definition PreprocessorsAt (m : FHttpServerModule) (Port : Z)
    : list (nat * FHttpRequestHandler) :=
  match Routers m !! Port with
  | Some router => RequestPreprocessors router
  | None => []
  end.

(** A string of whitespace only. *)
Fixpoint AllWhitespace (s : string) : bool :=
  match s with
  | EmptyString => true
  | String c r => IsWhitespace c && AllWhitespace r
  end.

(** The eight bit positions of a [uint8]. *)
Definition VerbBits : list Z := [0; 1; 2; 3; 4; 5; 6; 7]%Z.

(** A delegate that was never bound. *)
Definition UnboundDelegate : FHttpServerRequestDelegate :=
  {| DelegateId := 8; BoundFunction := None |}.

(** A server whose root path has a direct handler and, registered after
    it, a delegate that is not bound. *)
Definition UnboundAtRoot : USimpleHttpServer :=
  Server (BindRoute AnyPath "/" Verb.GET UnboundDelegate
            (BindRouteNative AnyPath "/" Verb.GET DirectHandler (NewWorld []))).


(** An engine that has a router for port 8080 only. *)
Definition Only8080 : Z -> bool := fun Port => Z.eqb Port 8080.

(** The kind of handler a registration brings. *)
Definition RegistrationKind (r : Registration) : HandlerKind :=
  match r with
  | ViaBindRoute _ _ _ => CallbackStyle
  | ViaBindRouteNative _ _ _ => DirectStyle
  end.

(** What [StopServer] leaves of a router of the port it unbinds at: the
    routes whose handle is not in [CreatedRouteHandlers] and, when the
    root preprocessor was registered, the preprocessors under another
    handle than its own. *)
Definition AfterStop (this : USimpleHttpServer) (router : IHttpRouter) : IHttpRouter :=
  {| Routes := filter (fun br => Handle br ∉ CreatedRouteHandlers this) (Routes router);
     RequestPreprocessors :=
       if bRootPreprocessorRegistered this
       then filter (fun ph => ph.1 ≠ RootRequestPreprocessorHandle this)
                   (RequestPreprocessors router)
       else RequestPreprocessors router |}.

(** A server started on port 8080 by an engine that has no other port. *)
Definition StartedOn8080 : World := StartServer AnyPath Only8080 8080 (NewWorld StatusHook).

(** No path is lost from one server state to another: a path with a
    delegate, a direct handler or a verb mask still has one. *)
Definition KeepsPaths (this this' : USimpleHttpServer) : Prop :=
  forall p,
    (is_Some (RouteDelegates this !! p) -> is_Some (RouteDelegates this' !! p)) /\
    (is_Some (RouteHandlers this !! p) -> is_Some (RouteHandlers this' !! p)) /\
    (is_Some (RouteVerbs this !! p) -> is_Some (RouteVerbs this' !! p)).

(** The route lambda of a kind. *)
Definition LambdaOfKind (kind : HandlerKind) (NormalizedPath : string)
    : FHttpRequestHandler :=
  match kind with
  | CallbackStyle => RouteLambda NormalizedPath
  | DirectStyle => RouteLambdaNative NormalizedPath
  end.

(** A bound route whose lambda is the one of its own path and finds a
    handler of its kind in the table, on a canonical path. *)
Definition RouteFinds (this : USimpleHttpServer) (br : FHttpRouteHandleInternal) : Prop :=
  IsCanonicalPath (Path br) = true /\
  exists kind, Handler br = LambdaOfKind kind (Path br) /\
               Finds kind this (Path br) = true.

(** The tables go together, on canonical paths: a path has a verb mask
    exactly when it has a handler of some kind. *)
Definition TablesAgree (this : USimpleHttpServer) : Prop :=
  forall p,
    (is_Some (RouteVerbs this !! p) <->
     Finds CallbackStyle this p = true \/ Finds DirectStyle this p = true) /\
    (is_Some (RouteVerbs this !! p) -> IsCanonicalPath p = true).

(** The second invariant of the reachable worlds. *)
Record Inv2 (w : World) : Prop := {
  inv2_routes :
    forall Port br, RouteAt (HttpServerModule w) Port br -> RouteFinds (Server w) br;
  inv2_tables : TablesAgree (Server w);
  inv2_created : NoDup (CreatedRouteHandlers (Server w));
}.

(** The calls that bind: [BindRoute] and [RegisterRequestPreprocessor]. *)
Definition IsBindingCall (Port : Z) (c : TransportCall) : bool :=
  match c with
  | CallBindRoute q _ | CallRegisterRequestPreprocessor q _ => Z.eqb q Port
  | _ => false
  end.
(** ** Facts about the string primitives *)

Section StringFacts.

Lemma append_nil_l (s : string) : "" ++ s = s.
Proof. reflexivity. Qed.

Lemma append_cons (c : ascii) (r s : string) : String c r ++ s = String c (r ++ s).
Proof. reflexivity. Qed.

Lemma append_empty_r (s : string) : s ++ "" = s.
Proof.
  induction s as [|c r IH]; [reflexivity | by rewrite append_cons, IH].
Qed.

Lemma append_assoc (s1 s2 s3 : string) : s1 ++ (s2 ++ s3) = (s1 ++ s2) ++ s3.
Proof.
  induction s1 as [|c r IH]; [reflexivity | by rewrite !append_cons, IH].
Qed.

Lemma slash_not_whitespace : IsWhitespace "/" = false.
Proof. reflexivity. Qed.

Lemma EndsWith_slash_LastChar (s : string) :
  EndsWith s "/" = true <-> LastChar s = Some "/"%char.
Proof.
  induction s as [|c [|c' r] IH].
  - simpl. split; discriminate.
  - cbn [EndsWith LastChar IsEmpty negb andb String.eqb].
    destruct (Ascii.eqb_spec c "/") as [->|Hne]; cbn; split; congruence.
  - change (LastChar (String c (String c' r))) with (LastChar (String c' r)).
    rewrite <- IH. cbn [EndsWith IsEmpty negb andb String.eqb].
    destruct (Ascii.eqb c "/"); reflexivity.
Qed.

Lemma EndsWith_slash_false (s : string) :
  EndsWith s "/" = false <-> LastChar s <> Some "/"%char.
Proof.
  rewrite <- EndsWith_slash_LastChar. destruct (EndsWith s "/"); split; congruence.
Qed.

Lemma StartsWith_slash (s : string) :
  StartsWith s "/" = true <-> exists r, s = String "/" r.
Proof.
  unfold StartsWith. destruct s as [|c r]; cbn [IsEmpty negb andb IsPrefixOf].
  - split; [discriminate | intros [? ?]; discriminate].
  - destruct (Ascii.eqb_spec "/" c) as [<-|Hne]; cbn [andb].
    + split; eauto.
    + split; [discriminate | intros [? ?]; congruence].
Qed.

Lemma LeftChop_cons (c : ascii) (r : string) :
  LeftChop (String c r) 1 =
  match r with EmptyString => EmptyString | _ => String c (LeftChop r 1) end.
Proof.
  unfold LeftChop, Len. destruct r as [|c' r]; [reflexivity|].
  cbn [String.length]. rewrite !Nat.sub_succ, !Nat.sub_0_r. reflexivity.
Qed.

Lemma drop_trailing_slashes_id (s : string) :
  LastChar s <> Some "/"%char -> drop_trailing_slashes s = s.
Proof.
  induction s as [|c [|c' r] IH]; intros Hl; [reflexivity| |].
  - cbn. destruct (Ascii.eqb_spec c "/") as [->|]; [by destruct Hl | reflexivity].
  - change (LastChar (String c (String c' r))) with (LastChar (String c' r)) in Hl.
    cbn [drop_trailing_slashes] in *. rewrite (IH Hl). reflexivity.
Qed.

Lemma drop_trailing_slashes_LastChar (s : string) :
  LastChar (drop_trailing_slashes s) <> Some "/"%char.
Proof.
  induction s as [|c r IH]; [discriminate|].
  cbn [drop_trailing_slashes].
  destruct (drop_trailing_slashes r) as [|c' r'] eqn:E.
  - destruct (Ascii.eqb_spec c "/"); cbn; congruence.
  - exact IH.
Qed.

Lemma drop_trailing_slashes_LeftChop (s : string) :
  LastChar s = Some "/"%char ->
  drop_trailing_slashes (LeftChop s 1) = drop_trailing_slashes s.
Proof.
  induction s as [|c [|c' r] IH]; intros Hl; [discriminate| |].
  - injection Hl as ->. reflexivity.
  - change (LastChar (String c (String c' r))) with (LastChar (String c' r)) in Hl.
    rewrite LeftChop_cons.
    change (drop_trailing_slashes (String c (String c' r)))
      with (match drop_trailing_slashes (String c' r) with
            | EmptyString => if Ascii.eqb c "/" then EmptyString else String c EmptyString
            | r' => String c r'
            end).
    rewrite <- (IH Hl). reflexivity.
Qed.

Lemma drop_trailing_slashes_Len (s : string) :
  (Len (drop_trailing_slashes s) <= Len s)%nat.
Proof.
  unfold Len. induction s as [|c r IH]; [reflexivity|].
  cbn [drop_trailing_slashes].
  destruct (drop_trailing_slashes r); [destruct (Ascii.eqb c "/")|]; cbn in *; lia.
Qed.

(** The loop of the source computes what the recursion computes. *)
Lemma strip_trailing_slashes_spec (s : string) :
  strip_trailing_slashes s = strip_spec s.
Proof.
  funelim (strip_trailing_slashes s).
  - (* one more turn of the loop *)
    match goal with IH : strip_trailing_slashes _ = strip_spec _ |- _ => rewrite IH end.
    pose proof Hc as Hc'. apply andb_prop in Hc' as [Hl He].
    apply Nat.ltb_lt in Hl. apply EndsWith_slash_LastChar in He.
    clear - Hl He. destruct InPath as [|c [|c' r]]; cbn in Hl; try lia.
    change (LastChar (String c (String c' r))) with (LastChar (String c' r)) in He.
    rewrite LeftChop_cons. cbn [strip_spec].
    by rewrite drop_trailing_slashes_LeftChop.
  - (* the loop exits *)
    match goal with H : strip_cond _ = false |- _ => pose proof H as Hc end.
    clear - Hc. destruct InPath as [|c [|c' r]]; [reflexivity..|].
    unfold strip_cond in Hc. cbn [Len String.length Nat.ltb Nat.leb andb] in Hc.
    apply EndsWith_slash_false in Hc.
    change (LastChar (String c (String c' r))) with (LastChar (String c' r)) in Hc.
    cbn [strip_spec]. by rewrite drop_trailing_slashes_id.
Qed.

Lemma TrimEnd_id (s : string) :
  EndsWithWhitespace s = false -> TrimEnd s = s.
Proof.
  unfold EndsWithWhitespace.
  induction s as [|c [|c' r] IH]; intros Hl; [reflexivity| |].
  - cbn in *. by rewrite Hl.
  - change (LastChar (String c (String c' r))) with (LastChar (String c' r)) in Hl.
    cbn [TrimEnd] in *. rewrite (IH Hl). reflexivity.
Qed.

Lemma TrimEnd_Len (s : string) : (Len (TrimEnd s) <= Len s)%nat.
Proof.
  unfold Len. induction s as [|c r IH]; [reflexivity|].
  cbn [TrimEnd]. destruct (TrimEnd r); [destruct (IsWhitespace c)|]; cbn in *; lia.
Qed.

Lemma TrimEnd_Len_lt (s : string) :
  EndsWithWhitespace s = true -> (Len (TrimEnd s) < Len s)%nat.
Proof.
  unfold EndsWithWhitespace, Len.
  induction s as [|c [|c' r] IH]; intros Hl; [discriminate| |].
  - cbn in *. rewrite Hl. cbn. lia.
  - change (LastChar (String c (String c' r))) with (LastChar (String c' r)) in Hl.
    specialize (IH Hl). cbn [TrimEnd] in *.
    destruct (match TrimEnd r with
              | EmptyString => if IsWhitespace c' then EmptyString else String c' EmptyString
              | String a s0 => String c' (String a s0)
              end); [destruct (IsWhitespace c)|]; cbn in *; lia.
Qed.

Lemma TrimEnd_cons (c : ascii) (r : string) :
  IsWhitespace c = false -> exists r', TrimEnd (String c r) = String c r'.
Proof.
  intros Hc. cbn [TrimEnd]. rewrite Hc. destruct (TrimEnd r); eauto.
Qed.

Lemma TrimStart_Len (s : string) : (Len (TrimStart s) <= Len s)%nat.
Proof.
  unfold Len. induction s as [|c r IH]; [reflexivity|].
  cbn. destruct (IsWhitespace c); cbn; lia.
Qed.

End StringFacts.

(** ** The path normaliser *)

Section Normalizer.

Lemma NormalizeHttpPath_normalize_spec (s : string) :
  NormalizeHttpPath s = normalize_spec s.
Proof.
  unfold NormalizeHttpPath, normalize_spec.
  destruct (TrimStartAndEnd s) as [|c r]; [reflexivity|].
  cbn [IsEmpty]. unfold StartsWith. cbn [IsEmpty negb andb IsPrefixOf].
  rewrite andb_true_r, (Ascii.eqb_sym "/" c).
  destruct (Ascii.eqb c "/"); cbn [negb]; apply strip_trailing_slashes_spec.
Qed.

(** The shape of every normalised path: a slash, then a string that no
    longer loses anything when its trailing slashes are dropped. *)
Lemma NormalizeHttpPath_shape (s : string) :
  exists x, NormalizeHttpPath s = String "/" x /\ drop_trailing_slashes x = x.
Proof.
  rewrite NormalizeHttpPath_normalize_spec. unfold normalize_spec.
  destruct (TrimStartAndEnd s) as [|c r].
  - exists "". split; reflexivity.
  - destruct (Ascii.eqb_spec c "/") as [->|_]; cbn [strip_spec];
      eexists; (split; [reflexivity|]);
      apply drop_trailing_slashes_id, drop_trailing_slashes_LastChar.
Qed.

Lemma NormalizeHttpPath_canonical (s : string) :
  IsCanonicalPath (NormalizeHttpPath s) = true.
Proof.
  destruct (NormalizeHttpPath_shape s) as (x & -> & Hx).
  unfold IsCanonicalPath. apply andb_true_intro. split.
  - apply StartsWith_slash. eauto.
  - destruct x as [|c x]; [reflexivity|].
    apply orb_true_intro. right. apply negb_true_iff, EndsWith_slash_false.
    change (LastChar (String "/" (String c x))) with (LastChar (String c x)).
    rewrite <- Hx. apply drop_trailing_slashes_LastChar.
Qed.

Lemma NormalizeHttpPath_of_canonical (x : string) :
  drop_trailing_slashes x = x ->
  EndsWithWhitespace (String "/" x) = false ->
  NormalizeHttpPath (String "/" x) = String "/" x.
Proof.
  intros Hx Hws. rewrite NormalizeHttpPath_normalize_spec. unfold normalize_spec.
  unfold TrimStartAndEnd. rewrite (TrimEnd_id _ Hws).
  cbn [TrimStart]. rewrite slash_not_whitespace.
  change (Ascii.eqb "/" "/") with true. cbn [strip_spec]. by rewrite Hx.
Qed.

Lemma strip_spec_Len (s : string) : (Len (strip_spec s) <= Len s)%nat.
Proof.
  destruct s as [|c r]; [reflexivity|].
  pose proof (drop_trailing_slashes_Len r). unfold Len in *. cbn. lia.
Qed.

(** Where the hypothesis of the idempotence theorem fails, so does
    idempotence: the second pass trims what the first one uncovered. *)
Lemma NormalizeHttpPath_shrinks_trailing_whitespace (s : string) :
  EndsWithWhitespace (NormalizeHttpPath s) = true ->
  NormalizeHttpPath (NormalizeHttpPath s) <> NormalizeHttpPath s.
Proof.
  destruct (NormalizeHttpPath_shape s) as (x & -> & _). intros Hws Heq.
  assert (Len (NormalizeHttpPath (String "/" x)) < Len (String "/" x))%nat as Hlt;
    [|rewrite Heq in Hlt; lia].
  clear Heq. rewrite NormalizeHttpPath_normalize_spec. unfold normalize_spec, TrimStartAndEnd.
  pose proof (TrimEnd_Len_lt _ Hws) as Hlt.
  destruct (TrimEnd_cons "/" x slash_not_whitespace) as [x' Hx'].
  rewrite Hx' in *. cbn [TrimStart]. rewrite slash_not_whitespace.
  change (Ascii.eqb "/" "/") with true.
  pose proof (strip_spec_Len (String "/" x')). lia.
Qed.

End Normalizer.

(** C7, as amended.  Normalising twice gives what normalising once gives,
    for every string whose normalised form does not end in a whitespace
    character. *)
Theorem NormalizeHttpPath_idempotent (s : string) :
  EndsWithWhitespace (NormalizeHttpPath s) = false ->
  NormalizeHttpPath (NormalizeHttpPath s) = NormalizeHttpPath s.
Proof.
  destruct (NormalizeHttpPath_shape s) as (x & -> & Hx).
  apply NormalizeHttpPath_of_canonical, Hx.
Qed.

Lemma NormalizeHttpPath_idempotent_witness :
  EndsWithWhitespace (NormalizeHttpPath "/foo//") = false /\
  NormalizeHttpPath (NormalizeHttpPath "/foo//") = NormalizeHttpPath "/foo//".
Proof.
  split; [reflexivity | apply (NormalizeHttpPath_idempotent "/foo//"); reflexivity].
Defined.

(** C7, as stated, fails: whitespace in front of a trailing slash is
    uncovered by the first pass and trimmed by the second. *)
Lemma NormalizeHttpPath_not_idempotent :
  NormalizeHttpPath "a /" = "/a " /\
  NormalizeHttpPath (NormalizeHttpPath "a /") = "/a" /\
  NormalizeHttpPath (NormalizeHttpPath "a /") <> NormalizeHttpPath "a /".
Proof.
  repeat split; [reflexivity..|]. vm_compute. discriminate.
Qed.


(** ** The route table under registration *)

Section RouteTable.

Variable IsValidPath : string -> bool.

Lemma BindIntoRouter_tables p v L w :
  RouteDelegates (Server (BindIntoRouter IsValidPath p v L w)) = RouteDelegates (Server w) /\
  RouteHandlers (Server (BindIntoRouter IsValidPath p v L w)) = RouteHandlers (Server w) /\
  RouteVerbs (Server (BindIntoRouter IsValidPath p v L w)) = RouteVerbs (Server w).
Proof.
  unfold BindIntoRouter. by repeat case_match.
Qed.

Lemma BindRoute_RouteDelegates p v d w :
  RouteDelegates (Server (BindRoute IsValidPath p v d w))
  = <[NormalizeHttpPath p := d]> (RouteDelegates (Server w)).
Proof. unfold BindRoute. by rewrite (proj1 (BindIntoRouter_tables _ _ _ _)). Qed.

Lemma BindRoute_RouteHandlers p v d w :
  RouteHandlers (Server (BindRoute IsValidPath p v d w)) = RouteHandlers (Server w).
Proof.
  unfold BindRoute. by rewrite (proj1 (proj2 (BindIntoRouter_tables _ _ _ _))).
Qed.

Lemma BindRouteNative_RouteHandlers p v h w :
  RouteHandlers (Server (BindRouteNative IsValidPath p v h w))
  = <[NormalizeHttpPath p := h]> (RouteHandlers (Server w)).
Proof.
  unfold BindRouteNative. by rewrite (proj1 (proj2 (BindIntoRouter_tables _ _ _ _))).
Qed.

Lemma BindRouteNative_RouteDelegates p v h w :
  RouteDelegates (Server (BindRouteNative IsValidPath p v h w)) = RouteDelegates (Server w).
Proof. unfold BindRouteNative. by rewrite (proj1 (BindIntoRouter_tables _ _ _ _)). Qed.

Lemma Register_RouteVerbs r w :
  RouteVerbs (Server (Register IsValidPath r w))
  = MergeVerbs (NormalizeHttpPath (RegistrationPath r)) (RegistrationVerbs r)
               (RouteVerbs (Server w)).
Proof.
  destruct r; cbn [Register RegistrationPath RegistrationVerbs];
    unfold BindRoute, BindRouteNative;
    by rewrite (proj2 (proj2 (BindIntoRouter_tables _ _ _ _))).
Qed.

(** C6.  [BindRoute] puts its delegate in the place of whatever delegate
    the path had and leaves every direct handler as it was;
    [BindRouteNative] puts its handler in the place of whatever direct
    handler the path had and leaves every delegate as it was.  So of two
    registrations of one kind the last one wins, and a handler of the
    other kind registered in between or before stays. *)
Theorem registration_overwrites_same_kind_only
    (w : World) (HttpPath : string) (Verbs Verbs' : Z)
    (d d' : FHttpServerRequestDelegate) (h h' : FHttpRouteHandler) :
  let p := NormalizeHttpPath HttpPath in
  (* BindRoute *)
  RouteDelegates (Server (BindRoute IsValidPath HttpPath Verbs d w)) !! p = Some d /\
  delete p (RouteDelegates (Server (BindRoute IsValidPath HttpPath Verbs d w)))
    = delete p (RouteDelegates (Server w)) /\
  RouteHandlers (Server (BindRoute IsValidPath HttpPath Verbs d w))
    = RouteHandlers (Server w) /\
  (* BindRouteNative *)
  RouteHandlers (Server (BindRouteNative IsValidPath HttpPath Verbs h w)) !! p = Some h /\
  delete p (RouteHandlers (Server (BindRouteNative IsValidPath HttpPath Verbs h w)))
    = delete p (RouteHandlers (Server w)) /\
  RouteDelegates (Server (BindRouteNative IsValidPath HttpPath Verbs h w))
    = RouteDelegates (Server w) /\
  (* twice the same kind, the other kind in between *)
  (let w' := BindRoute IsValidPath HttpPath Verbs' d'
               (BindRouteNative IsValidPath HttpPath Verbs h
                  (BindRoute IsValidPath HttpPath Verbs d w)) in
   RouteDelegates (Server w') !! p = Some d' /\
   RouteHandlers (Server w') !! p = Some h) /\
  (let w' := BindRouteNative IsValidPath HttpPath Verbs' h'
               (BindRoute IsValidPath HttpPath Verbs d
                  (BindRouteNative IsValidPath HttpPath Verbs h w)) in
   RouteHandlers (Server w') !! p = Some h' /\
   RouteDelegates (Server w') !! p = Some d).
Proof.
  intros p. subst p. cbv zeta.
  rewrite !BindRoute_RouteDelegates, !BindRoute_RouteHandlers,
    !BindRouteNative_RouteHandlers, !BindRouteNative_RouteDelegates,
    ?BindRoute_RouteDelegates, ?BindRoute_RouteHandlers.
  rewrite !lookup_insert_eq, !delete_insert_eq.
  repeat split; reflexivity.
Qed.

End RouteTable.

(** ** Requests that find no handler *)

(** C4.  When the dispatch function of a kind finds no handler of its kind
    for the path, it returns after calling the completion callback once and
    doing nothing else, and the response it completes with is the
    Not-Found response: status 404 and an empty body. *)
Theorem not_found_completes_once
    (kind : HandlerKind) (this : USimpleHttpServer) (HttpPath : string)
    (Request : FHttpServerRequest.t) :
  Finds kind this HttpPath = false ->
  let Response := FHttpServerResponse.Error FHttpServerResponse.NotFound in
  Dispatch kind this HttpPath Request = (true, [OnComplete Response]) /\
  FHttpServerResponse.Code Response = 404%Z /\
  FHttpServerResponse.Body Response = [].
Proof.
  intros Hnone Response.
  split; [|split; reflexivity].
  destruct kind; cbn [Dispatch Finds] in *; unfold Contains in Hnone.
  - unfold HandleRequest. by destruct (RouteDelegates this !! HttpPath).
  - unfold HandleRequestNative. by destruct (RouteHandlers this !! HttpPath).
Qed.

(** A delegate that is found but not bound is answered the same way. *)
Lemma unbound_delegate_completes_not_found this HttpPath Request d :
  RouteDelegates this !! HttpPath = Some d -> IsBound d = false ->
  HandleRequest this HttpPath Request = CompleteNotFound.
Proof.
  intros Hd Hb. unfold HandleRequest, IsBound in *. rewrite Hd.
  by destruct (BoundFunction d).
Qed.

(** ** Request translation *)

Lemma FlattenHeaderValues_fold (acc : string) (Values : list string) :
  fold_left (fun StrHeaderVals val => StrHeaderVals ++ (val ++ " ")) Values acc
  = acc ++ FlattenHeaderValues Values.
Proof.
  unfold FlattenHeaderValues. revert acc.
  induction Values as [|v vs IH]; intros acc; cbn [fold_left].
  - by rewrite append_empty_r.
  - rewrite IH, (IH ("" ++ (v ++ " "))), append_nil_l.
    symmetry. apply append_assoc.
Qed.

Lemma FlattenHeaderValues_cons (v : string) (vs : list string) :
  FlattenHeaderValues (v :: vs) = v ++ " " ++ FlattenHeaderValues vs.
Proof.
  unfold FlattenHeaderValues at 1. cbn [fold_left].
  rewrite FlattenHeaderValues_fold, append_nil_l.
  symmetry. apply append_assoc.
Qed.

(** Every value is followed by a space, the last one too. *)
Lemma FlattenHeaderValues_join (Values : list string) :
  Values <> [] -> FlattenHeaderValues Values = join_with_spaces Values ++ " ".
Proof.
  induction Values as [|v [|v' vs] IH]; intros Hne; [done| |].
  - reflexivity.
  - rewrite FlattenHeaderValues_cons, IH by done.
    change (join_with_spaces (v :: v' :: vs))
      with (v ++ " " ++ join_with_spaces (v' :: vs)).
    rewrite <- (append_assoc v), <- (append_assoc " "). reflexivity.
Qed.

Lemma FillNativeRequst_Headers (Request : FHttpServerRequest.t) :
  FNativeHttpServerRequest.Headers (FillNativeRequst Request FNativeHttpServerRequest.empty)
  = FlattenHeaderValues <$> FHttpServerRequest.Headers Request.
Proof.
  cbn [FillNativeRequst FNativeHttpServerRequest.Headers FNativeHttpServerRequest.empty].
  generalize (FHttpServerRequest.Headers Request). intros m.
  induction m as [|k vs m Hk Hfold IH] using map_first_key_ind.
  - by rewrite map_fold_empty, fmap_empty.
  - rewrite map_fold_insert_first_key by done. by rewrite IH, fmap_insert.
Qed.

(** C9, on the code.  The string a header name is mapped to is the
    space-joined values followed by one more space. *)
Theorem FillNativeRequst_header_trailing_space
    (Request : FHttpServerRequest.t) (Name : string) (Values : list string) :
  FHttpServerRequest.Headers Request !! Name = Some Values ->
  Values <> [] ->
  FNativeHttpServerRequest.Headers
    (FillNativeRequst Request FNativeHttpServerRequest.empty) !! Name
  = Some (join_with_spaces Values ++ " ").
Proof.
  intros HName Hne.
  rewrite FillNativeRequst_Headers, lookup_fmap, HName. cbn.
  by rewrite FlattenHeaderValues_join.
Qed.

Lemma FillNativeRequst_header_trailing_space_witness :
  FNativeHttpServerRequest.Headers
    (FillNativeRequst accept_request FNativeHttpServerRequest.empty) !! "accept"
  = Some "text/html application/json " /\
  join_with_spaces ["text/html"; "application/json"] = "text/html application/json".
Proof.
  split; [|reflexivity].
  apply (FillNativeRequst_header_trailing_space accept_request "accept"
           ["text/html"; "application/json"]); [reflexivity | discriminate].
Defined.

Lemma not_found_completes_once_witness :
  Finds DirectStyle (NewServer []) "/missing" = false /\
  Dispatch DirectStyle (NewServer []) "/missing" (MakeRequest Verb.GET "/missing")
  = (true, [OnComplete (FHttpServerResponse.Error 404)]).
Proof.
  split; [reflexivity|].
  apply (not_found_completes_once DirectStyle (NewServer []) "/missing"
           (MakeRequest Verb.GET "/missing") eq_refl).
Defined.

(** ** Facts about the transport *)

Section TransportFacts.

Implicit Types (m : FHttpServerModule) (q Port : Z).

Local Ltac open_at H :=
  let router := fresh "router" in
  let router0 := fresh "router" in
  let Hl := fresh "Hl" in
  let Hin := fresh "Hin" in
  let Hne := fresh "Hne" in
  destruct H as (router & Hl & Hin); cbn in Hl;
  rewrite lookup_alter in Hl;
  match type of Hl with
  | context [decide (?a = ?b)] =>
      destruct (decide (a = b)) as [->|Hne];
      [apply fmap_Some in Hl as (router0 & Hl & ->); cbn in Hin|]
  end.

Lemma filter_all {A} (P : A -> Prop) `{!forall x, Decision (P x)} (l : list A) :
  (forall x, x ∈ l -> P x) -> filter P l = l.
Proof.
  induction l as [|a l IH]; intros Hall; [done|].
  rewrite filter_cons_True by (apply Hall; left).
  rewrite IH; [done|]. intros x Hx. apply Hall. by right.
Qed.

Lemma filter_none {A} (P : A -> Prop) `{!forall x, Decision (P x)} (l : list A) :
  (forall x, x ∈ l -> ~ P x) -> filter P l = [].
Proof.
  induction l as [|a l IH]; intros Hall; [done|].
  rewrite filter_cons_False by (apply Hall; left).
  apply IH. intros x Hx. apply Hall. by right.
Qed.

Lemma RouteAt_BindRoute Port p v L m q br :
  RouteAt (Transport.BindRoute Port p v L m).2 q br ->
  RouteAt m q br \/
  (q = Port /\ br = {| Handle := NextHandle m; Path := p; Verbs := v; Handler := L |}).
Proof.
  intros H. open_at H.
  - apply elem_of_app in Hin as [Hin|Hin].
    + left. eexists; eauto.
    + right. apply list_elem_of_singleton in Hin. auto.
  - left. eexists; eauto.
Qed.

Lemma PreprocessorAt_BindRoute Port p v L m q ph :
  PreprocessorAt (Transport.BindRoute Port p v L m).2 q ph -> PreprocessorAt m q ph.
Proof. intros H. open_at H; eexists; eauto. Qed.

Lemma RouteAt_UnbindRoute Port h m q br :
  RouteAt (Transport.UnbindRoute Port h m) q br -> RouteAt m q br.
Proof.
  intros H. open_at H; [apply list_elem_of_filter in Hin as [_ Hin]|]; eexists; eauto.
Qed.

Lemma PreprocessorAt_UnbindRoute Port h m q ph :
  PreprocessorAt (Transport.UnbindRoute Port h m) q ph -> PreprocessorAt m q ph.
Proof. intros H. open_at H; eexists; eauto. Qed.

Lemma RouteAt_RegisterRequestPreprocessor Port H m q br :
  RouteAt (Transport.RegisterRequestPreprocessor Port H m).2 q br -> RouteAt m q br.
Proof. intros Hat. open_at Hat; eexists; eauto. Qed.

Lemma PreprocessorAt_RegisterRequestPreprocessor Port H m q ph :
  PreprocessorAt (Transport.RegisterRequestPreprocessor Port H m).2 q ph ->
  PreprocessorAt m q ph \/ ph = (NextHandle m, H).
Proof.
  intros Hat. open_at Hat.
  - apply elem_of_app in Hin as [Hin|Hin].
    + left. eexists; eauto.
    + right. by apply list_elem_of_singleton in Hin.
  - left. eexists; eauto.
Qed.

Lemma RouteAt_UnregisterRequestPreprocessor Port h m q br :
  RouteAt (Transport.UnregisterRequestPreprocessor Port h m) q br -> RouteAt m q br.
Proof. intros H. open_at H; eexists; eauto. Qed.

Lemma PreprocessorAt_UnregisterRequestPreprocessor Port h m q ph :
  PreprocessorAt (Transport.UnregisterRequestPreprocessor Port h m) q ph ->
  PreprocessorAt m q ph.
Proof.
  intros H. open_at H; [apply list_elem_of_filter in Hin as [_ Hin]|]; eexists; eauto.
Qed.

Lemma GetHttpRouter_lookup Available Port m q :
  Routers (Transport.GetHttpRouter Available Port m).2 !! q =
  match Routers m !! q with
  | Some router => Some router
  | None => if Available Port && bool_decide (q = Port)
            then Some {| Routes := []; RequestPreprocessors := [] |} else None
  end.
Proof.
  unfold Transport.GetHttpRouter. destruct (Available Port); cbn.
  - destruct (Routers m !! Port) eqn:E.
    + destruct (Routers m !! q) eqn:E'; [done|].
      case_bool_decide; congruence.
    + rewrite lookup_insert. case_decide; subst.
      * rewrite E. by rewrite bool_decide_eq_true_2.
      * destruct (Routers m !! q); [done|]. by rewrite bool_decide_eq_false_2.
  - by destruct (Routers m !! q).
Qed.

Lemma RouteAt_GetHttpRouter Available Port m q br :
  RouteAt (Transport.GetHttpRouter Available Port m).2 q br -> RouteAt m q br.
Proof.
  intros (router & Hl & Hin). rewrite GetHttpRouter_lookup in Hl.
  destruct (Routers m !! q) eqn:E; simplify_eq; [eexists; eauto|].
  case_match; simplify_eq. cbn in Hin. by apply elem_of_nil in Hin.
Qed.

Lemma PreprocessorAt_GetHttpRouter Available Port m q ph :
  PreprocessorAt (Transport.GetHttpRouter Available Port m).2 q ph ->
  PreprocessorAt m q ph.
Proof.
  intros (router & Hl & Hin). rewrite GetHttpRouter_lookup in Hl.
  destruct (Routers m !! q) eqn:E; simplify_eq; [eexists; eauto|].
  case_match; simplify_eq. cbn in Hin. by apply elem_of_nil in Hin.
Qed.

Lemma GetHttpRouter_Some Available Port m :
  Available Port = true ->
  (Transport.GetHttpRouter Available Port m).1 = Some Port /\
  is_Some (Routers (Transport.GetHttpRouter Available Port m).2 !! Port) /\
  NextHandle (Transport.GetHttpRouter Available Port m).2 = NextHandle m.
Proof.
  intros Ha. split; [|split].
  - unfold Transport.GetHttpRouter. by rewrite Ha.
  - rewrite GetHttpRouter_lookup, Ha, bool_decide_eq_true_2 by done.
    destruct (Routers m !! Port); eauto.
  - unfold Transport.GetHttpRouter. by rewrite Ha.
Qed.

Lemma GetHttpRouter_None Available Port m :
  Available Port = false ->
  (Transport.GetHttpRouter Available Port m).1 = None /\
  Routers (Transport.GetHttpRouter Available Port m).2 = Routers m /\
  NextHandle (Transport.GetHttpRouter Available Port m).2 = NextHandle m.
Proof. intros Ha. unfold Transport.GetHttpRouter. by rewrite Ha. Qed.

Lemma UnbindAll_NextHandle Port hs m :
  NextHandle (UnbindAll Port hs m) = NextHandle m.
Proof.
  unfold UnbindAll. revert m. induction hs as [|h hs IH]; intros m; cbn; [done|].
  by rewrite IH.
Qed.

Lemma UnbindAll_Calls Port hs m :
  Calls (UnbindAll Port hs m) = (Calls m ++ map (CallUnbindRoute Port) hs)%list.
Proof.
  unfold UnbindAll. revert m. induction hs as [|h hs IH]; intros m; cbn.
  - by rewrite app_nil_r.
  - rewrite IH. cbn. by rewrite <- app_assoc.
Qed.

Lemma UnbindAll_lookup Port hs m q :
  Routers (UnbindAll Port hs m) !! q =
  (fun router =>
     if decide (Port = q)
     then {| Routes := filter (fun br => Handle br ∉ hs) (Routes router);
             RequestPreprocessors := RequestPreprocessors router |}
     else router) <$> Routers m !! q.
Proof.
  unfold UnbindAll. revert m. induction hs as [|h hs IH]; intros m; cbn [fold_left].
  - destruct (Routers m !! q) as [[rs ps]|]; cbn; [|done].
    case_decide; [|done]. do 2 f_equal. cbn.
    rewrite filter_all; [done|]. intros br _. apply not_elem_of_nil.
  - rewrite IH. cbn. rewrite lookup_alter. case_decide; subst.
    + destruct (Routers m !! q) as [[rs ps]|]; cbn; [|done]. do 2 f_equal.
      rewrite list_filter_filter. apply list_filter_iff. intros br. cbn.
      rewrite not_elem_of_cons. tauto.
    + done.
Qed.

Lemma RouteAt_UnbindAll Port hs m q br :
  RouteAt (UnbindAll Port hs m) q br ->
  RouteAt m q br /\ (q = Port -> Handle br ∉ hs).
Proof.
  intros (router & Hl & Hin). rewrite UnbindAll_lookup in Hl.
  destruct (Routers m !! q) as [router0|] eqn:E; simplify_eq/=.
  case_decide; subst; cbn in Hin.
  - apply list_elem_of_filter in Hin as [Hh Hin]. split; [eexists; eauto | done].
  - split; [eexists; eauto | congruence].
Qed.

Lemma PreprocessorAt_UnbindAll Port hs m q ph :
  PreprocessorAt (UnbindAll Port hs m) q ph -> PreprocessorAt m q ph.
Proof.
  intros (router & Hl & Hin). rewrite UnbindAll_lookup in Hl.
  destruct (Routers m !! q) as [router0|] eqn:E; simplify_eq/=.
  case_decide; subst; cbn in Hin; eexists; eauto.
Qed.

End TransportFacts.

(** ** Verb masks *)

Section VerbMasks.

Lemma to_uint8_land (z : Z) : to_uint8 z = Z.land z (Z.ones 8).
Proof. unfold to_uint8. by rewrite Z.land_ones. Qed.

Lemma to_uint8_id (z : Z) : is_uint8 z -> to_uint8 z = z.
Proof. unfold is_uint8, to_uint8. intros. by apply Z.mod_small. Qed.

Lemma is_uint8_to_uint8 (z : Z) : is_uint8 (to_uint8 z).
Proof. unfold is_uint8, to_uint8. apply Z.mod_pos_bound. lia. Qed.

Lemma to_uint8_lor (a b : Z) :
  to_uint8 (Z.lor a b) = Z.lor (to_uint8 a) (to_uint8 b).
Proof. rewrite !to_uint8_land. apply Z.land_lor_distr_l. Qed.

Lemma is_uint8_lor (a b : Z) : is_uint8 a -> is_uint8 b -> is_uint8 (Z.lor a b).
Proof.
  intros Ha Hb. rewrite <- (to_uint8_id a Ha), <- (to_uint8_id b Hb), <- to_uint8_lor.
  apply is_uint8_to_uint8.
Qed.

Lemma VerbsWithin_refl (a : Z) : VerbsWithin a a.
Proof. apply Z.land_diag. Qed.

Lemma VerbsWithin_lor_l (a b : Z) : VerbsWithin a (Z.lor a b).
Proof.
  unfold VerbsWithin. apply Z.bits_inj'. intros n _.
  rewrite Z.land_spec, Z.lor_spec. by destruct (Z.testbit a n), (Z.testbit b n).
Qed.

Lemma VerbsWithin_lor_r (a b : Z) : VerbsWithin b (Z.lor a b).
Proof. rewrite Z.lor_comm. apply VerbsWithin_lor_l. Qed.

Lemma VerbsWithin_trans (a b c : Z) :
  VerbsWithin a b -> VerbsWithin b c -> VerbsWithin a c.
Proof.
  unfold VerbsWithin. intros Hab Hbc.
  rewrite <- Hab at 1. rewrite <- Z.land_assoc, Hbc. exact Hab.
Qed.

(** A verb that meets a mask within another meets the other. *)
Lemma VerbsWithin_land_0 (v mask r : Z) :
  VerbsWithin v mask -> Z.land mask r = 0%Z -> Z.land v r = 0%Z.
Proof.
  unfold VerbsWithin. intros Hv H0.
  rewrite <- Hv, <- Z.land_assoc, H0. apply Z.land_0_r.
Qed.

Lemma VerbsMatch_uint8 (mask r : Z) :
  is_uint8 mask -> VerbsMatch mask r = negb (Z.eqb (Z.land mask r) 0).
Proof.
  intros Hm. unfold VerbsMatch. cbv zeta.
  rewrite (to_uint8_land r), (Z.land_comm r), Z.land_assoc, <- !to_uint8_land.
  rewrite !(to_uint8_id mask Hm). reflexivity.
Qed.

Lemma MergeVerbs_lookup_ne (p p' : string) (v : Z) (V : gmap string Z) :
  p <> p' -> MergeVerbs p v V !! p' = V !! p'.
Proof.
  intros Hne. unfold MergeVerbs. destruct (V !! p); by rewrite lookup_insert_ne.
Qed.

Lemma MergeVerbs_lookup_eq (p : string) (v : Z) (V : gmap string Z) :
  is_uint8 v ->
  (forall mask, V !! p = Some mask -> is_uint8 mask) ->
  MergeVerbs p v V !! p = Some (Z.lor (default 0%Z (V !! p)) v).
Proof.
  intros Hv HV. unfold MergeVerbs. destruct (V !! p) as [mask|] eqn:E.
  - rewrite lookup_insert_eq. cbn. f_equal.
    rewrite (to_uint8_id mask), (to_uint8_id v) by auto.
    apply to_uint8_id, is_uint8_lor; auto.
  - by rewrite lookup_insert_eq.
Qed.

Lemma MergeVerbs_grow (p : string) (v : Z) (V : gmap string Z) :
  is_uint8 v ->
  (forall p' mask, V !! p' = Some mask -> is_uint8 mask) ->
  VerbsGrow V (MergeVerbs p v V).
Proof.
  intros Hv HV p' mask Hp'. destruct (decide (p = p')) as [<-|Hne].
  - rewrite MergeVerbs_lookup_eq by eauto. rewrite Hp'. cbn.
    eexists; split; [done|]. apply VerbsWithin_lor_l.
  - rewrite MergeVerbs_lookup_ne by done. eexists; split; [done|].
    apply VerbsWithin_refl.
Qed.

Lemma MergeVerbs_uint8 (p : string) (v : Z) (V : gmap string Z) :
  is_uint8 v ->
  (forall p' mask, V !! p' = Some mask -> is_uint8 mask) ->
  forall p' mask, MergeVerbs p v V !! p' = Some mask -> is_uint8 mask.
Proof.
  intros Hv HV p' mask. destruct (decide (p = p')) as [<-|Hne].
  - rewrite MergeVerbs_lookup_eq by eauto. intros [= <-].
    destruct (V !! p) as [m0|] eqn:E; cbn; [|done].
    apply is_uint8_lor; eauto.
  - rewrite MergeVerbs_lookup_ne by done. eauto.
Qed.

Lemma MergeVerbs_within (p : string) (v : Z) (V : gmap string Z) :
  is_uint8 v ->
  (forall mask, V !! p = Some mask -> is_uint8 mask) ->
  exists mask, MergeVerbs p v V !! p = Some mask /\ VerbsWithin v mask.
Proof.
  intros Hv HV. rewrite MergeVerbs_lookup_eq by done.
  eexists; split; [done|]. apply VerbsWithin_lor_r.
Qed.

End VerbMasks.

(** ** The invariant of the reachable worlds *)

Section Invariant.

Variable IsValidPath : string -> bool.
Variable RouterAvailable : Z -> bool.

Lemma Contains_true {V} (m : gmap string V) (k : string) :
  Contains m k = true <-> is_Some (m !! k).
Proof.
  unfold Contains. destruct (m !! k) eqn:E; split; intros Hk; eauto; try done;
    by destruct Hk.
Qed.

Lemma Contains_insert {V} (m : gmap string V) (k : string) (v : V) :
  Contains (<[k := v]> m) k = true.
Proof. apply Contains_true. rewrite lookup_insert_eq. eauto. Qed.

Lemma Contains_insert_mono {V} (m : gmap string V) (k k' : string) (v : V) :
  Contains m k' = true -> Contains (<[k := v]> m) k' = true.
Proof.
  rewrite !Contains_true. intros Hk. destruct (decide (k = k')) as [->|Hne].
  - rewrite lookup_insert_eq. eauto.
  - by rewrite lookup_insert_ne.
Qed.

Lemma is_Some_alter {A} (f : A -> A) (m : gmap Z A) (i j : Z) :
  is_Some (alter f i m !! j) <-> is_Some (m !! j).
Proof.
  rewrite lookup_alter. case_decide; subst; [|done].
  by rewrite fmap_is_Some.
Qed.

Lemma is_Some_UnbindAll Port hs m q :
  is_Some (Routers (UnbindAll Port hs m) !! q) <-> is_Some (Routers m !! q).
Proof. rewrite UnbindAll_lookup. by rewrite fmap_is_Some. Qed.

Lemma GoodRoute_mono (w w' : World) (br : FHttpRouteHandleInternal) :
  GoodRoute w br ->
  (NextHandle (HttpServerModule w) <= NextHandle (HttpServerModule w'))%nat ->
  CreatedRouteHandlers (Server w) ⊆ CreatedRouteHandlers (Server w') ->
  VerbsGrow (RouteVerbs (Server w)) (RouteVerbs (Server w')) ->
  GoodRoute w' br.
Proof.
  intros (Hh & Hc & Hp & HL & Hv & mask & Hm & Hw) Hn Hs Hg.
  split; [lia|]. split; [by apply Hs|]. do 3 (split; [done|]).
  destruct (Hg _ _ Hm) as (mask' & Hm' & Hw').
  exists mask'. split; [done|]. by eapply VerbsWithin_trans.
Qed.

Lemma Inv_mono (w w' : World) :
  Inv w ->
  (NextHandle (HttpServerModule w) <= NextHandle (HttpServerModule w'))%nat ->
  CreatedRouteHandlers (Server w) ⊆ CreatedRouteHandlers (Server w') ->
  (forall h, h ∈ CreatedRouteHandlers (Server w') ->
             (h < NextHandle (HttpServerModule w'))%nat) ->
  VerbsGrow (RouteVerbs (Server w)) (RouteVerbs (Server w')) ->
  (forall p mask, RouteVerbs (Server w') !! p = Some mask -> is_uint8 mask) ->
  (RootRegistered (Server w) -> RootRegistered (Server w')) ->
  ReceiveBindRoutes (Server w') = ReceiveBindRoutes (Server w) ->
  (forall Port, HttpRouter (Server w') = Some Port ->
                is_Some (Routers (HttpServerModule w') !! Port)) ->
  (forall q br, RouteAt (HttpServerModule w') q br ->
                RouteAt (HttpServerModule w) q br \/ GoodRoute w' br) ->
  (forall q ph, PreprocessorAt (HttpServerModule w') q ph ->
                PreprocessorAt (HttpServerModule w) q ph \/ GoodPreprocessor w' ph) ->
  Inv w'.
Proof.
  intros [Ir Irs Ips Ic Iv Ih] Hn Hs Hc Hg Hu Hroot Hhook Hrouter Hroutes Hpre.
  split; try done.
  - intros q br Hat. destruct (Hroutes _ _ Hat) as [Hold|]; [|done].
    eapply GoodRoute_mono; eauto.
  - intros q ph Hat. destruct (Hpre _ _ Hat) as [Hold|]; [|done].
    destruct (Ips _ _ Hold) as [HL HR]. split; auto.
  - by rewrite Hhook.
Qed.

(** A change that touches none of what the invariant reads. *)
Lemma Inv_same (w w' : World) :
  Inv w ->
  HttpRouter (Server w') = HttpRouter (Server w) ->
  CreatedRouteHandlers (Server w') = CreatedRouteHandlers (Server w) ->
  RouteDelegates (Server w') = RouteDelegates (Server w) ->
  RouteHandlers (Server w') = RouteHandlers (Server w) ->
  RouteVerbs (Server w') = RouteVerbs (Server w) ->
  ReceiveBindRoutes (Server w') = ReceiveBindRoutes (Server w) ->
  Routers (HttpServerModule w') = Routers (HttpServerModule w) ->
  NextHandle (HttpServerModule w') = NextHandle (HttpServerModule w) ->
  Inv w'.
Proof.
  intros I Hr Hc Hd Hh Hv Hk HR Hn.
  apply (Inv_mono w w' I).
  - lia.
  - by rewrite Hc.
  - rewrite Hc, Hn. apply I.
  - rewrite Hv. intros p mask Hp. eexists; split; [done|]. apply VerbsWithin_refl.
  - rewrite Hv. apply I.
  - unfold RootRegistered. by rewrite Hd, Hh, Hv.
  - done.
  - rewrite Hr, HR. apply I.
  - intros q br Hat. left. unfold RouteAt in *. by rewrite <- HR.
  - intros q ph Hat. left. unfold PreprocessorAt in *. by rewrite <- HR.
Qed.

Lemma VerbsGrow_refl (V : gmap string Z) : VerbsGrow V V.
Proof. intros p mask Hp. eexists; split; [done|]. apply VerbsWithin_refl. Qed.

Lemma Inv_NewWorld (hook : list Registration) :
  Forall WellTyped hook -> Inv (NewWorld hook).
Proof.
  intros Hh. split; cbn; try done.
  - intros q br (router & Hl & _). cbn in Hl. by rewrite lookup_empty in Hl.
  - intros q ph (router & Hl & _). cbn in Hl. by rewrite lookup_empty in Hl.
  - intros h Hin. by apply elem_of_nil in Hin.
Qed.

Lemma Register_decompose (r : Registration) (w : World) :
  Register IsValidPath r w
  = BindIntoRouter IsValidPath (NormalizeHttpPath (RegistrationPath r))
      (RegistrationVerbs r) (RegistrationLambda r) (UpdateTables r w).
Proof. by destruct r. Qed.

Lemma UpdateTables_RouteVerbs (r : Registration) (w : World) :
  RouteVerbs (Server (UpdateTables r w))
  = MergeVerbs (NormalizeHttpPath (RegistrationPath r)) (RegistrationVerbs r)
      (RouteVerbs (Server w)).
Proof. by destruct r. Qed.

Lemma UpdateTables_Contains (r : Registration) (w : World) :
  (Contains (RouteDelegates (Server (UpdateTables r w)))
            (NormalizeHttpPath (RegistrationPath r))
   || Contains (RouteHandlers (Server (UpdateTables r w)))
               (NormalizeHttpPath (RegistrationPath r))) = true.
Proof.
  destruct r; cbn; rewrite Contains_insert; [done|]. apply orb_true_r.
Qed.

Lemma UpdateTables_Contains_mono (r : Registration) (w : World) (p : string) :
  (Contains (RouteDelegates (Server w)) p || Contains (RouteHandlers (Server w)) p) = true ->
  (Contains (RouteDelegates (Server (UpdateTables r w))) p
   || Contains (RouteHandlers (Server (UpdateTables r w))) p) = true.
Proof.
  intros [H|H]%orb_true_iff; apply orb_true_iff; destruct r; cbn;
    auto using Contains_insert_mono.
Qed.

Lemma Inv_UpdateTables (r : Registration) (w : World) :
  WellTyped r -> Inv w -> Inv (UpdateTables r w).
Proof.
  intros Hr I. pose proof (inv_verbs w I) as Hu.
  apply (Inv_mono w _ I).
  - done.
  - by destruct r.
  - destruct r; apply I.
  - rewrite UpdateTables_RouteVerbs. by apply MergeVerbs_grow.
  - rewrite UpdateTables_RouteVerbs. by apply MergeVerbs_uint8.
  - intros [[mask Hm] Hc]. split.
    + rewrite UpdateTables_RouteVerbs.
      destruct (MergeVerbs_grow (NormalizeHttpPath (RegistrationPath r))
                  (RegistrationVerbs r) _ Hr Hu _ _ Hm) as (mask' & -> & _). eauto.
    + by apply UpdateTables_Contains_mono.
  - by destruct r.
  - destruct r; apply I.
  - auto.
  - auto.
Qed.

Lemma Inv_BindIntoRouter (p : string) (v : Z) (L : FHttpRequestHandler) (w : World) :
  Inv w ->
  is_uint8 v ->
  (exists mask, RouteVerbs (Server w) !! p = Some mask /\ VerbsWithin v mask) ->
  (Contains (RouteDelegates (Server w)) p || Contains (RouteHandlers (Server w)) p) = true ->
  (L = RouteLambda p \/ L = RouteLambdaNative p) ->
  Inv (BindIntoRouter IsValidPath p v L w).
Proof.
  intros I Hv Hmask Hcont HL. unfold BindIntoRouter.
  destruct (HttpRouter (Server w)) as [Port|] eqn:Hrouter; [|done].
  destruct (String.eqb_spec p "/") as [->|Hp].
  - destruct (bRootPreprocessorRegistered (Server w)); cbn [negb]; [done|].
    apply (Inv_mono w _ I); cbn.
    + lia.
    + done.
    + intros h Hh. pose proof (inv_created w I h Hh). lia.
    + apply VerbsGrow_refl.
    + apply I.
    + done.
    + done.
    + intros q Hq. apply is_Some_alter. apply I. congruence.
    + intros q br Hat. left.
      exact (RouteAt_RegisterRequestPreprocessor Port RootPreprocessorLambda _ q br Hat).
    + intros q ph Hat.
      apply (PreprocessorAt_RegisterRequestPreprocessor Port RootPreprocessorLambda)
        in Hat as [Hat| ->]; [by left|].
      right. split; [done|]. split; cbn; [|done].
      destruct Hmask as (mask & -> & _). eauto.
  - destruct (IsValidPath (MakeHttpPathForRoute p)); cbn [negb]; [|done].
    apply (Inv_mono w _ I); cbn.
    + lia.
    + intros h Hh. apply elem_of_app. by left.
    + intros h [Hh|Hh%list_elem_of_singleton]%elem_of_app.
      * pose proof (inv_created w I h Hh). lia.
      * lia.
    + apply VerbsGrow_refl.
    + apply I.
    + done.
    + done.
    + intros q Hq. apply is_Some_alter. apply I. congruence.
    + intros q br Hat.
      apply (RouteAt_BindRoute Port (MakeHttpPathForRoute p) v L) in Hat
        as [Hat|[-> ->]]; [by left|].
      right. unfold GoodRoute; cbn.
      split; [lia|]. split; [apply elem_of_app; right; by apply list_elem_of_singleton|].
      done.
    + intros q ph Hat. left.
      exact (PreprocessorAt_BindRoute Port (MakeHttpPathForRoute p) v L _ q ph Hat).
Qed.

Lemma Inv_Register (r : Registration) (w : World) :
  WellTyped r -> Inv w -> Inv (Register IsValidPath r w).
Proof.
  intros Hr I. rewrite Register_decompose.
  apply Inv_BindIntoRouter.
  - by apply Inv_UpdateTables.
  - done.
  - rewrite UpdateTables_RouteVerbs. apply MergeVerbs_within; [done|].
    intros mask. apply I.
  - apply UpdateTables_Contains.
  - destruct r; cbn; auto.
Qed.

Lemma Inv_fold_Register (rs : list Registration) (w : World) :
  Forall WellTyped rs -> Inv w ->
  Inv (fold_left (fun w r => Register IsValidPath r w) rs w).
Proof.
  intros Hrs. revert w. induction Hrs as [|r rs Hr _ IH]; intros w I; cbn; [done|].
  apply IH. by apply Inv_Register.
Qed.

Lemma Inv_StartServer (ServerPort : Z) (w : World) :
  Inv w -> Inv (StartServer IsValidPath RouterAvailable ServerPort w).
Proof.
  intros I. unfold StartServer. destruct (ServerPort <=? 0)%Z; [done|].
  cbn [CurrentServerPort set_CurrentServerPort].
  set (r := Transport.GetHttpRouter RouterAvailable ServerPort (HttpServerModule w)).
  assert (NextHandle r.2 = NextHandle (HttpServerModule w)) as Hn.
  { subst r. unfold Transport.GetHttpRouter. by destruct (RouterAvailable ServerPort). }
  assert (Inv {| Server := set_HttpRouter r.1 (set_CurrentServerPort ServerPort (Server w));
                 HttpServerModule := r.2 |}) as I0.
  { apply (Inv_mono w _ I); cbn.
    - lia.
    - done.
    - rewrite Hn. apply I.
    - apply VerbsGrow_refl.
    - apply I.
    - done.
    - done.
    - intros q Hq. subst r. destruct (RouterAvailable ServerPort) eqn:Ha.
      + destruct (GetHttpRouter_Some RouterAvailable ServerPort (HttpServerModule w) Ha)
          as (H1 & H2 & _). rewrite H1 in Hq. by simplify_eq.
      + destruct (GetHttpRouter_None RouterAvailable ServerPort (HttpServerModule w) Ha)
          as (H1 & _). rewrite H1 in Hq. done.
    - intros q br Hat. left. by eapply RouteAt_GetHttpRouter.
    - intros q ph Hat. left. by eapply PreprocessorAt_GetHttpRouter. }
  cbn [HttpRouter set_HttpRouter]. destruct r.1 eqn:Hr1.
  - match goal with
    | |- Inv {| Server := set_bServerStarted true (Server ?w1); HttpServerModule := _ |} =>
        assert (Inv w1) as I1
    end.
    { unfold BindRoutes. apply Inv_fold_Register; [apply I | exact I0]. }
    by apply (Inv_same _ _ I1).
  - by apply (Inv_same _ _ I0).
Qed.

Lemma StopServer_unfold (w : World) :
  StopServer w =
  match HttpRouter (Server w) with
  | Some Port =>
      {| Server :=
           if bRootPreprocessorRegistered (Server w)
           then set_RootPreprocessor false (RootRequestPreprocessorHandle (Server w))
                  (Server w)
           else Server w;
         HttpServerModule :=
           UnbindAll Port (CreatedRouteHandlers (Server w))
             (if bRootPreprocessorRegistered (Server w)
              then Transport.UnregisterRequestPreprocessor Port
                     (RootRequestPreprocessorHandle (Server w))
                     (Transport.StopAllListeners (HttpServerModule w))
              else Transport.StopAllListeners (HttpServerModule w)) |}
  | None =>
      {| Server := Server w;
         HttpServerModule := Transport.StopAllListeners (HttpServerModule w) |}
  end.
Proof.
  unfold StopServer, UnbindAll.
  destruct (HttpRouter (Server w)); [|done].
  by destruct (bRootPreprocessorRegistered (Server w)).
Qed.

Lemma Inv_StopServer (w : World) : Inv w -> Inv (StopServer w).
Proof.
  intros I. rewrite StopServer_unfold.
  destruct (HttpRouter (Server w)) as [Port|] eqn:Hrouter.
  - apply (Inv_mono w _ I); cbn [Server HttpServerModule];
      rewrite ?UnbindAll_NextHandle.
    + by destruct (bRootPreprocessorRegistered (Server w)).
    + by destruct (bRootPreprocessorRegistered (Server w)).
    + destruct (bRootPreprocessorRegistered (Server w)); apply I.
    + destruct (bRootPreprocessorRegistered (Server w)); apply VerbsGrow_refl.
    + destruct (bRootPreprocessorRegistered (Server w)); apply I.
    + by destruct (bRootPreprocessorRegistered (Server w)).
    + by destruct (bRootPreprocessorRegistered (Server w)).
    + intros q Hq. apply is_Some_UnbindAll.
      assert (q = Port) as ->
        by (destruct (bRootPreprocessorRegistered (Server w)); cbn in Hq; congruence).
      destruct (bRootPreprocessorRegistered (Server w)); cbn;
        rewrite ?is_Some_alter; by apply I.
    + intros q br [Hat _]%RouteAt_UnbindAll. left.
      destruct (bRootPreprocessorRegistered (Server w)); [|done].
      by apply RouteAt_UnregisterRequestPreprocessor in Hat.
    + intros q ph Hat%PreprocessorAt_UnbindAll. left.
      destruct (bRootPreprocessorRegistered (Server w)); [|done].
      by apply PreprocessorAt_UnregisterRequestPreprocessor in Hat.
  - by apply (Inv_same _ _ I).
Qed.

(** Every reachable world satisfies the invariant. *)
Lemma Reachable_Inv (w : World) :
  Reachable IsValidPath RouterAvailable w -> Inv w.
Proof.
  induction 1 as [hook Hh|r w Hr _ IH|ServerPort w _ IH|w _ IH].
  - by apply Inv_NewWorld.
  - by apply Inv_Register.
  - by apply Inv_StartServer.
  - by apply Inv_StopServer.
Qed.

End Invariant.

(** ** Stopping the server *)

Section Stop.

Variable IsValidPath : string -> bool.
Variable RouterAvailable : Z -> bool.

Lemma BindIntoRouter_Created p v L w :
  CreatedRouteHandlers (Server w)
    `prefix_of` CreatedRouteHandlers (Server (BindIntoRouter IsValidPath p v L w)).
Proof.
  unfold BindIntoRouter. repeat case_match; try done. cbn. by apply prefix_app_r.
Qed.

Lemma Register_Created r w :
  CreatedRouteHandlers (Server w)
    `prefix_of` CreatedRouteHandlers (Server (Register IsValidPath r w)).
Proof.
  rewrite Register_decompose.
  etrans; [|apply BindIntoRouter_Created]. by destruct r.
Qed.

Lemma fold_Register_Created rs w :
  CreatedRouteHandlers (Server w)
    `prefix_of`
    CreatedRouteHandlers (Server (fold_left (fun w r => Register IsValidPath r w) rs w)).
Proof.
  revert w. induction rs as [|r rs IH]; intros w; cbn; [done|].
  etrans; [apply Register_Created | apply IH].
Qed.

Lemma StartServer_Created ServerPort w :
  CreatedRouteHandlers (Server w)
    `prefix_of`
    CreatedRouteHandlers (Server (StartServer IsValidPath RouterAvailable ServerPort w)).
Proof.
  unfold StartServer. destruct (ServerPort <=? 0)%Z; [done|].
  cbn [HttpRouter set_HttpRouter]. case_match; [|done].
  cbn [Server CreatedRouteHandlers set_bServerStarted]. unfold BindRoutes.
  etrans; [|apply fold_Register_Created]. done.
Qed.

Lemma StopServer_members (w : World) :
  HttpRouter (Server (StopServer w)) = HttpRouter (Server w) /\
  CreatedRouteHandlers (Server (StopServer w)) = CreatedRouteHandlers (Server w) /\
  bServerStarted (Server (StopServer w)) = bServerStarted (Server w) /\
  RootRequestPreprocessorHandle (Server (StopServer w))
    = RootRequestPreprocessorHandle (Server w) /\
  bRootPreprocessorRegistered (Server (StopServer w))
    = match HttpRouter (Server w) with
      | Some _ => false
      | None => bRootPreprocessorRegistered (Server w)
      end.
Proof. rewrite StopServer_unfold. by repeat case_match. Qed.

Lemma StopServer_Calls (w : World) (Port : Z) :
  HttpRouter (Server w) = Some Port ->
  Calls (HttpServerModule (StopServer w))
  = (Calls (HttpServerModule w)
     ++ [CallStopAllListeners]
     ++ (if bRootPreprocessorRegistered (Server w)
         then [CallUnregisterRequestPreprocessor Port
                 (RootRequestPreprocessorHandle (Server w))]
         else [])
     ++ map (CallUnbindRoute Port) (CreatedRouteHandlers (Server w)))%list.
Proof.
  intros Hrouter. rewrite StopServer_unfold, Hrouter. cbn [HttpServerModule].
  rewrite UnbindAll_Calls.
  destruct (bRootPreprocessorRegistered (Server w)); cbn; by rewrite <- !app_assoc.
Qed.

(** C10.  [StopServer] leaves [CreatedRouteHandlers] and [bServerStarted]
    as they are: of the members of the server it changes
    [bRootPreprocessorRegistered] alone, and that only when the router is
    valid.  With a valid router one stop asks the router to unbind every
    handle of the list, and the next stop asks for the same handles
    again.  No registration and no start takes a handle out of the list
    either, so the list holds every handle added since construction. *)
Theorem StopServer_keeps_created_handles (w : World) :
  CreatedRouteHandlers (Server (StopServer w)) = CreatedRouteHandlers (Server w) /\
  bServerStarted (Server (StopServer w)) = bServerStarted (Server w) /\
  Server (StopServer w)
    = set_RootPreprocessor
        (match HttpRouter (Server w) with
         | Some _ => false
         | None => bRootPreprocessorRegistered (Server w)
         end)
        (RootRequestPreprocessorHandle (Server w)) (Server w) /\
  match HttpRouter (Server w) with
  | Some Port =>
      Calls (HttpServerModule (StopServer w))
      = (Calls (HttpServerModule w)
         ++ [CallStopAllListeners]
         ++ (if bRootPreprocessorRegistered (Server w)
             then [CallUnregisterRequestPreprocessor Port
                     (RootRequestPreprocessorHandle (Server w))]
             else [])
         ++ map (CallUnbindRoute Port) (CreatedRouteHandlers (Server w)))%list /\
      Calls (HttpServerModule (StopServer (StopServer w)))
      = (Calls (HttpServerModule (StopServer w))
         ++ [CallStopAllListeners]
         ++ map (CallUnbindRoute Port) (CreatedRouteHandlers (Server w)))%list
  | None =>
      Calls (HttpServerModule (StopServer w))
      = (Calls (HttpServerModule w) ++ [CallStopAllListeners])%list
  end /\
  (forall r, CreatedRouteHandlers (Server w)
               `prefix_of` CreatedRouteHandlers (Server (Register IsValidPath r w))) /\
  (forall ServerPort,
      CreatedRouteHandlers (Server w)
        `prefix_of`
        CreatedRouteHandlers
          (Server (StartServer IsValidPath RouterAvailable ServerPort w))).
Proof.
  split; [|split; [|split; [|split; [|split]]]].
  - rewrite StopServer_unfold. by repeat case_match.
  - rewrite StopServer_unfold. by repeat case_match.
  - rewrite StopServer_unfold. destruct w as [[] m]; cbn.
    by repeat case_match.
  - destruct (HttpRouter (Server w)) as [Port|] eqn:Hrouter.
    + destruct (StopServer_members w) as (Hr & Hc & _ & _ & Hf).
      rewrite Hrouter in Hr, Hf. split.
      * by apply StopServer_Calls.
      * rewrite (StopServer_Calls (StopServer w) Port Hr), Hf, Hc. done.
    + by rewrite StopServer_unfold, Hrouter.
  - intros r. apply Register_Created.
  - intros ServerPort. apply StartServer_Created.
Qed.

End Stop.

(** ** Dispatch in the reachable worlds *)

Section DispatchFacts.

Lemma HandleRequest_handled this p Request : (HandleRequest this p Request).1 = true.
Proof. unfold HandleRequest. by repeat case_match. Qed.

Lemma HandleRequestNative_handled this p Request :
  (HandleRequestNative this p Request).1 = true.
Proof. unfold HandleRequestNative. by repeat case_match. Qed.

Lemma IsRoot_true (p : string) : IsRoot p = true <-> p = "/".
Proof. unfold IsRoot. apply String.eqb_eq. Qed.

Lemma RootRequestPreprocessor_not_root this Request :
  IsRoot (FHttpServerRequest.RelativePath Request) = false ->
  RootRequestPreprocessor this Request = (false, []).
Proof. intros H. unfold RootRequestPreprocessor. by rewrite H. Qed.

Lemma RootRequestPreprocessor_verb_refused this Request AllowedVerbs :
  RouteVerbs this !! "/" = Some AllowedVerbs ->
  VerbsMatch AllowedVerbs (FHttpServerRequest.Verb Request) = false ->
  RootRequestPreprocessor this Request = (false, []).
Proof.
  intros Hv Hm. unfold RootRequestPreprocessor. rewrite Hv, Hm.
  by destruct (IsRoot _).
Qed.

Lemma RunPreprocessors_none this ps Request :
  (forall ph, ph ∈ ps -> Invoke this ph.2 Request = (false, [])) ->
  RunPreprocessors this ps Request = (false, []).
Proof.
  induction ps as [|ph ps IH]; intros Hall; [done|].
  cbn [RunPreprocessors]. rewrite (Hall ph) by left. cbn.
  rewrite IH; [done|]. intros ph' Hin. apply Hall. by right.
Qed.

Lemma find_none_intro {A} (f : A -> bool) (l : list A) :
  (forall x, x ∈ l -> f x = false) -> List.find f l = None.
Proof.
  induction l as [|a l IH]; intros Hall; [done|].
  cbn. rewrite (Hall a) by left. apply IH. intros x Hx. apply Hall. by right.
Qed.

Lemma find_map {A B} (f : B -> bool) (g : A -> B) (l : list A) :
  List.find f (map g l) = g <$> List.find (fun a => f (g a)) l.
Proof.
  induction l as [|a l IH]; [done|]. cbn. by destruct (f (g a)).
Qed.

Lemma VerbsMatch_lor (a b r : Z) :
  VerbsMatch (Z.lor a b) r = VerbsMatch a r || VerbsMatch b r.
Proof.
  unfold VerbsMatch. cbv zeta.
  rewrite to_uint8_lor, Z.land_lor_distr_l, <- negb_andb. f_equal.
  destruct (Z.eqb_spec (Z.lor (Z.land (to_uint8 a) (to_uint8 r))
                              (Z.land (to_uint8 b) (to_uint8 r))) 0) as [H0|Hn].
  - apply Z.lor_eq_0_iff in H0 as [-> ->]. done.
  - symmetry. apply andb_false_iff.
    destruct (Z.eqb_spec (Z.land (to_uint8 a) (to_uint8 r)) 0) as [Ha|]; [|by left].
    destruct (Z.eqb_spec (Z.land (to_uint8 b) (to_uint8 r)) 0) as [Hb|]; [|by right].
    destruct Hn. rewrite Ha, Hb. done.
Qed.

(** In a world that satisfies the invariant, a request whose verb is
    outside the mask the table has for its path is served by no
    preprocessor and matches no bound route. *)
Lemma ProcessRequest_unmatched (w : World) (Port : Z) (router : IHttpRouter)
    (Request : FHttpServerRequest.t) (mask : Z) :
  Inv w ->
  Routers (HttpServerModule w) !! Port = Some router ->
  RouteVerbs (Server w) !! FHttpServerRequest.RelativePath Request = Some mask ->
  VerbsMatch mask (FHttpServerRequest.Verb Request) = false ->
  ProcessRequest (Server w) router Request = (false, []).
Proof.
  intros I Hrouter Hmask Hno. unfold ProcessRequest.
  rewrite RunPreprocessors_none; cbn.
  - rewrite find_none_intro; [done|]. intros br Hbr.
    unfold Transport.RouteMatches.
    destruct (String.eqb_spec (Path br) (FHttpServerRequest.RelativePath Request))
      as [Hp|]; [|done]. cbn.
    destruct (inv_routes w I Port br) as (_ & _ & _ & _ & _ & mask' & Hm' & Hw).
    { eexists; eauto. }
    rewrite Hp, Hmask in Hm'. injection Hm' as <-.
    rewrite VerbsMatch_uint8 in Hno by (eapply inv_verbs; eauto).
    apply negb_false_iff, Z.eqb_eq in Hno.
    rewrite (VerbsWithin_land_0 _ _ _ Hw Hno). done.
  - intros ph Hph.
    destruct (inv_preprocessors w I Port ph) as [-> _]; [eexists; eauto|].
    cbn [Invoke].
    destruct (IsRoot (FHttpServerRequest.RelativePath Request)) eqn:Hroot.
    + apply IsRoot_true in Hroot. rewrite Hroot in Hmask.
      by eapply RootRequestPreprocessor_verb_refused.
    + by apply RootRequestPreprocessor_not_root.
Qed.

(** In a world that satisfies the invariant, a request away from the
    root that matches a bound route is handled. *)
Lemma ProcessRequest_handled (w : World) (Port : Z) (router : IHttpRouter)
    (Request : FHttpServerRequest.t) (br : FHttpRouteHandleInternal) :
  Inv w ->
  Routers (HttpServerModule w) !! Port = Some router ->
  IsRoot (FHttpServerRequest.RelativePath Request) = false ->
  br ∈ Routes router ->
  Transport.RouteMatches Request br = true ->
  (ProcessRequest (Server w) router Request).1 = true.
Proof.
  intros I Hrouter Hroot Hbr Hmatch. unfold ProcessRequest.
  rewrite RunPreprocessors_none.
  - cbn. destruct (List.find (Transport.RouteMatches Request) (Routes router))
      as [br'|] eqn:Hfind.
    + cbn. apply find_some in Hfind as [Hin _]. apply list_elem_of_In in Hin.
      destruct (inv_routes w I Port br') as (_ & _ & _ & [-> | ->] & _);
        [eexists; eauto| |].
      * apply HandleRequest_handled.
      * apply HandleRequestNative_handled.
    + apply list_elem_of_In in Hbr.
      pose proof (find_none _ _ Hfind br Hbr). congruence.
  - intros ph Hph.
    destruct (inv_preprocessors w I Port ph) as [-> _]; [eexists; eauto|].
    by apply RootRequestPreprocessor_not_root.
Qed.

End DispatchFacts.

Section Dispatch.

Variable IsValidPath : string -> bool.
Variable RouterAvailable : Z -> bool.

(** C5.  In every reachable world, whatever is registered as a request
    preprocessor is the root lambda.  It returns "not handled" at once,
    with nothing done, for a request whose path is not the root.  The
    root has a verb mask in the table; for a root request whose verb is
    not in the mask it returns "not handled" with nothing done; for a
    root request whose verb is in the mask it returns "handled" after
    dispatching to the handler registered for the root (the delegate
    when there is one, the direct handler otherwise).  And no route of
    any router is bound on the root path. *)
Theorem root_preprocessor_contract
    (w : World) (Port : Z) (router : IHttpRouter)
    (ph : nat * FHttpRequestHandler) (Request : FHttpServerRequest.t) :
  Reachable IsValidPath RouterAvailable w ->
  Routers (HttpServerModule w) !! Port = Some router ->
  ph ∈ RequestPreprocessors router ->
  let this := Server w in
  let result := Invoke this ph.2 Request in
  ph.2 = RootPreprocessorLambda /\
  (IsRoot (FHttpServerRequest.RelativePath Request) = false -> result = (false, [])) /\
  (exists AllowedVerbs,
      RouteVerbs this !! "/" = Some AllowedVerbs /\
      (IsRoot (FHttpServerRequest.RelativePath Request) = true ->
       VerbsMatch AllowedVerbs (FHttpServerRequest.Verb Request) = false ->
       result = (false, [])) /\
      (IsRoot (FHttpServerRequest.RelativePath Request) = true ->
       VerbsMatch AllowedVerbs (FHttpServerRequest.Verb Request) = true ->
       result.1 = true /\
       ((Contains (RouteDelegates this) "/" = true /\
         result = HandleRequest this "/" Request) \/
        (Contains (RouteDelegates this) "/" = false /\
         exists h, RouteHandlers this !! "/" = Some h /\
                   result = HandleRequestNative this "/" Request /\
                   result = (true, [Called (HandlerId h)
                                      (FillNativeRequst Request
                                         FNativeHttpServerRequest.empty)]))))) /\
  (forall q r br, Routers (HttpServerModule w) !! q = Some r -> br ∈ Routes r ->
                  Path br <> "/").
Proof.
  intros Hreach Hrouter Hph this result.
  pose proof (Reachable_Inv _ _ _ Hreach) as I.
  destruct (inv_preprocessors w I Port ph) as [HL [[mask Hmask] Hcont]];
    [eexists; eauto|].
  subst result. rewrite HL. cbn [Invoke]. fold this in Hmask, Hcont.
  split; [done|]. split; [apply RootRequestPreprocessor_not_root|]. split.
  - exists mask. split; [done|]. split.
    + intros _. by apply RootRequestPreprocessor_verb_refused.
    + intros Hroot Hm. unfold RootRequestPreprocessor.
      rewrite Hroot, Hmask, Hm. cbn [negb].
      destruct (Contains (RouteDelegates this) "/") eqn:Hd.
      * split; [apply HandleRequest_handled | by left].
      * cbn in Hcont. rewrite Hcont.
        split; [apply HandleRequestNative_handled|]. right. split; [done|].
        apply Contains_true in Hcont as [h Hh]. exists h.
        split; [done|]. split; [done|].
        unfold HandleRequestNative. by rewrite Hh.
  - intros q r br Hr Hbr.
    destruct (inv_routes w I q br) as (_ & _ & Hp & _); [eexists; eauto | done].
Qed.

End Dispatch.

(** ** The theorems above at concrete inputs *)

Lemma WellTyped_GET_POST :
  is_uint8 Verb.GET /\ is_uint8 Verb.POST.
Proof. unfold is_uint8, Verb.GET, Verb.POST. lia. Qed.

Lemma root_preprocessor_contract_witness :
  Reachable AnyPath AnyPort RootWorld /\
  Routers (HttpServerModule RootWorld) !! 8080%Z
    = Some {| Routes := []; RequestPreprocessors := [(1%nat, RootPreprocessorLambda)] |} /\
  Invoke (Server RootWorld) RootPreprocessorLambda (MakeRequest Verb.GET "/a") = (false, []) /\
  Invoke (Server RootWorld) RootPreprocessorLambda (MakeRequest Verb.POST "/") = (false, []) /\
  (Invoke (Server RootWorld) RootPreprocessorLambda (MakeRequest Verb.GET "/")).1 = true.
Proof.
  assert (Reachable AnyPath AnyPort RootWorld) as Hreach.
  { apply Reachable_StartServer, Reachable_new.
    repeat constructor; apply WellTyped_GET_POST. }
  assert (Routers (HttpServerModule RootWorld) !! 8080%Z
          = Some {| Routes := [];
                    RequestPreprocessors := [(1%nat, RootPreprocessorLambda)] |}) as Hrouter
    by (vm_compute; reflexivity).
  split; [exact Hreach|]. split; [exact Hrouter|].
  split; [|split].
  - apply (root_preprocessor_contract AnyPath AnyPort RootWorld 8080 _
             (1%nat, RootPreprocessorLambda) (MakeRequest Verb.GET "/a")
             Hreach Hrouter (list_elem_of_here _ _)).
    reflexivity.
  - destruct (root_preprocessor_contract AnyPath AnyPort RootWorld 8080 _
                (1%nat, RootPreprocessorLambda) (MakeRequest Verb.POST "/")
                Hreach Hrouter (list_elem_of_here _ _))
      as (_ & _ & (AllowedVerbs & Hmask & Hrefused & _) & _).
    apply Hrefused; [reflexivity|].
    vm_compute in Hmask. injection Hmask as <-. reflexivity.
  - destruct (root_preprocessor_contract AnyPath AnyPort RootWorld 8080 _
                (1%nat, RootPreprocessorLambda) (MakeRequest Verb.GET "/")
                Hreach Hrouter (list_elem_of_here _ _))
      as (_ & _ & (AllowedVerbs & Hmask & _ & Hallowed) & _).
    apply Hallowed; [reflexivity|].
    vm_compute in Hmask. injection Hmask as <-. reflexivity.
Defined.


(** ** Which handler a request reaches *)

Lemma RootRequestPreprocessor_direct_only_without_delegate
    (this : USimpleHttpServer) (Request : FHttpServerRequest.t)
    (id : nat) (req : FNativeHttpServerRequest.t) :
  Called id req ∈ (RootRequestPreprocessor this Request).2 ->
  RouteDelegates this !! "/" = None.
Proof.
  unfold RootRequestPreprocessor.
  destruct (negb (IsRoot _)); [by intros ?%elem_of_nil|].
  case_match; [by intros ?%elem_of_nil|].
  unfold Contains at 1. destruct (RouteDelegates this !! "/") as [d|] eqn:Hd; [|done].
  unfold HandleRequest, CompleteNotFound. rewrite Hd.
  destruct (BoundFunction d); cbn; intros Hin;
    repeat (apply elem_of_cons in Hin as [Hin|Hin]; [discriminate|]);
    by apply elem_of_nil in Hin.
Qed.

(** C2, as amended.  Let a path have a delegate that is bound and a
    direct handler.  The route lambda that [BindRoute] binds for the path
    executes the delegate only, and the response the delegate returns is
    what the completion callback gets; the route lambda that
    [BindRouteNative] binds for the path calls the direct handler.  When
    the path is the root, the root preprocessor, for a root request whose
    verb is in the mask, executes the delegate only and completes with its
    response; and whenever the root preprocessor calls a direct handler,
    the root has no delegate. *)
Theorem callback_precedence_at_root
    (this : USimpleHttpServer) (p : string) (Request : FHttpServerRequest.t)
    (d : FHttpServerRequestDelegate)
    (Execute : FNativeHttpServerRequest.t -> FNativeHttpServerResponse.t)
    (h : FHttpRouteHandler) :
  RouteDelegates this !! p = Some d ->
  BoundFunction d = Some Execute ->
  RouteHandlers this !! p = Some h ->
  let NativeRequest := FillNativeRequst Request FNativeHttpServerRequest.empty in
  let ByDelegate :=
    (true, [Executed (DelegateId d) NativeRequest;
            OnComplete (FNativeHttpServerResponse.HttpServerResponse
                          (Execute NativeRequest))]) in
  Invoke this (RouteLambda p) Request = ByDelegate /\
  Invoke this (RouteLambdaNative p) Request
    = (true, [Called (HandlerId h) NativeRequest]) /\
  (p = "/" ->
   forall AllowedVerbs,
     IsRoot (FHttpServerRequest.RelativePath Request) = true ->
     RouteVerbs this !! "/" = Some AllowedVerbs ->
     VerbsMatch AllowedVerbs (FHttpServerRequest.Verb Request) = true ->
     Invoke this RootPreprocessorLambda Request = ByDelegate) /\
  (forall (this' : USimpleHttpServer) (Request' : FHttpServerRequest.t) id req,
      Called id req ∈ (Invoke this' RootPreprocessorLambda Request').2 ->
      RouteDelegates this' !! "/" = None).
Proof.
  intros Hd He Hh NativeRequest ByDelegate.
  assert (HandleRequest this p Request = ByDelegate) as Hcallback.
  { unfold HandleRequest. rewrite Hd, He. subst ByDelegate NativeRequest.
    by destruct (FNativeHttpServerResponse.HttpServerResponse _). }
  split; [exact Hcallback|]. split.
  { cbn [Invoke]. unfold HandleRequestNative. by rewrite Hh. }
  split.
  - intros -> AllowedVerbs Hroot Hmask Hm. cbn [Invoke].
    unfold RootRequestPreprocessor. rewrite Hroot, Hmask, Hm. cbn [negb].
    unfold Contains at 1. by rewrite Hd.
  - intros this' Request' id req. apply RootRequestPreprocessor_direct_only_without_delegate.
Qed.

Lemma callback_precedence_at_root_witness :
  RouteDelegates BothKindsAtRoot !! "/" = Some OkDelegate /\
  RouteHandlers BothKindsAtRoot !! "/" = Some DirectHandler /\
  Invoke BothKindsAtRoot RootPreprocessorLambda (MakeRequest Verb.GET "/")
  = (true, [Executed 7 (FillNativeRequst (MakeRequest Verb.GET "/")
                          FNativeHttpServerRequest.empty);
            OnComplete (FNativeHttpServerResponse.HttpServerResponse Ok200)]).
Proof.
  split; [reflexivity|]. split; [reflexivity|].
  apply (callback_precedence_at_root BothKindsAtRoot "/" (MakeRequest Verb.GET "/")
           OkDelegate (fun _ => Ok200) DirectHandler eq_refl eq_refl eq_refl);
    reflexivity.
Defined.

(** C2, as stated, fails away from the root.  The path [/b] has a bound
    delegate and a direct handler, the merged mask holds GET and POST, and a
    POST request to [/b] is served by calling the direct handler: the
    delegate is not executed and nothing reaches the completion callback. *)
Lemma direct_handler_reached_despite_delegate :
  RouteDelegates (Server BothKindsWorld) !! "/b" = Some OkDelegate /\
  IsBound OkDelegate = true /\
  RouteHandlers (Server BothKindsWorld) !! "/b" = Some DirectHandler /\
  RouteVerbs (Server BothKindsWorld) !! "/b" = Some 3%Z /\
  VerbsMatch 3 Verb.POST = true /\
  exists router,
    Routers (HttpServerModule BothKindsWorld) !! 8080%Z = Some router /\
    ProcessRequest (Server BothKindsWorld) router (MakeRequest Verb.POST "/b")
    = (true, [Called 9 (FillNativeRequst (MakeRequest Verb.POST "/b")
                          FNativeHttpServerRequest.empty)]).
Proof.
  do 5 (split; [reflexivity|]).
  eexists. split; reflexivity.
Qed.

(** ** Starting and restarting the server *)

Section Start.

Variable IsValidPath : string -> bool.
Variable RouterAvailable : Z -> bool.


Lemma HookRoutes_cons r rs :
  HookRoutes IsValidPath (r :: rs)
  = ((if BindsRoute IsValidPath r then [SignatureOf r] else [])
     ++ HookRoutes IsValidPath rs)%list.
Proof. unfold HookRoutes. cbn. by destruct (BindsRoute IsValidPath r). Qed.

Lemma BindIntoRouter_live p v L w Port router :
  HttpRouter (Server w) = Some Port ->
  Routers (HttpServerModule w) !! Port = Some router ->
  let w' := BindIntoRouter IsValidPath p v L w in
  HttpRouter (Server w') = Some Port /\
  (NextHandle (HttpServerModule w) <= NextHandle (HttpServerModule w'))%nat /\
  exists router',
    Routers (HttpServerModule w') !! Port = Some router' /\
    Routes router'
    = (Routes router
       ++ (if negb (String.eqb p "/") && IsValidPath (MakeHttpPathForRoute p)
           then [{| Handle := NextHandle (HttpServerModule w);
                    Path := p; Verbs := v; Handler := L |}]
           else []))%list /\
    (forall ph, ph ∈ RequestPreprocessors router -> ph ∈ RequestPreprocessors router') /\
    (String.eqb p "/" = true -> bRootPreprocessorRegistered (Server w) = false ->
     (NextHandle (HttpServerModule w), RootPreprocessorLambda)
       ∈ RequestPreprocessors router') /\
    (String.eqb p "/" = false ->
     bRootPreprocessorRegistered (Server w')
     = bRootPreprocessorRegistered (Server w)).
Proof.
  intros Hrouter Hlookup. unfold BindIntoRouter. rewrite Hrouter.
  destruct (String.eqb p "/") eqn:Hp; cbn [negb andb].
  - destruct (bRootPreprocessorRegistered (Server w)) eqn:Hflag; cbn [negb].
    + split; [done|]. split; [done|]. exists router.
      rewrite app_nil_r. by repeat split.
    + cbn. split; [done|]. split; [lia|].
      rewrite lookup_alter_eq, Hlookup. cbn. eexists. split; [done|]. cbn.
      rewrite app_nil_r. split; [done|]. split; [|split; [|done]].
      * intros ph Hph. apply elem_of_app. by left.
      * intros _ _. apply elem_of_app. right. by apply list_elem_of_singleton.
  - destruct (IsValidPath (MakeHttpPathForRoute p)); cbn [negb].
    + cbn. split; [done|]. split; [lia|].
      rewrite lookup_alter_eq, Hlookup. cbn. eexists. split; [done|]. cbn.
      by repeat split.
    + split; [done|]. split; [done|]. exists router.
      rewrite app_nil_r. by repeat split.
Qed.

Lemma Register_live r w Port router :
  HttpRouter (Server w) = Some Port ->
  Routers (HttpServerModule w) !! Port = Some router ->
  let w' := Register IsValidPath r w in
  HttpRouter (Server w') = Some Port /\
  (NextHandle (HttpServerModule w) <= NextHandle (HttpServerModule w'))%nat /\
  exists router',
    Routers (HttpServerModule w') !! Port = Some router' /\
    Routes router'
    = (Routes router
       ++ (if BindsRoute IsValidPath r
           then [{| Handle := NextHandle (HttpServerModule w);
                    Path := NormalizeHttpPath (RegistrationPath r);
                    Verbs := RegistrationVerbs r;
                    Handler := RegistrationLambda r |}]
           else []))%list /\
    (forall ph, ph ∈ RequestPreprocessors router -> ph ∈ RequestPreprocessors router') /\
    (RegistersRoot r = true -> bRootPreprocessorRegistered (Server w) = false ->
     (NextHandle (HttpServerModule w), RootPreprocessorLambda)
       ∈ RequestPreprocessors router') /\
    (RegistersRoot r = false ->
     bRootPreprocessorRegistered (Server w')
     = bRootPreprocessorRegistered (Server w)).
Proof.
  intros Hrouter Hlookup w'. subst w'. rewrite Register_decompose.
  assert (HttpRouter (Server (UpdateTables r w)) = Some Port) as Hr' by by destruct r.
  assert (bRootPreprocessorRegistered (Server (UpdateTables r w))
          = bRootPreprocessorRegistered (Server w)) as Hf by by destruct r.
  pose proof (BindIntoRouter_live (NormalizeHttpPath (RegistrationPath r))
                (RegistrationVerbs r) (RegistrationLambda r)
                (UpdateTables r w) Port router Hr' Hlookup) as H.
  cbv zeta in H. rewrite Hf in H. exact H.
Qed.

Lemma fold_Register_live rs w Port router :
  HttpRouter (Server w) = Some Port ->
  Routers (HttpServerModule w) !! Port = Some router ->
  let w' := fold_left (fun w r => Register IsValidPath r w) rs w in
  HttpRouter (Server w') = Some Port /\
  (NextHandle (HttpServerModule w) <= NextHandle (HttpServerModule w'))%nat /\
  exists router' new,
    Routers (HttpServerModule w') !! Port = Some router' /\
    Routes router' = (Routes router ++ new)%list /\
    map RouteSignature new = HookRoutes IsValidPath rs /\
    Forall (fun br => (NextHandle (HttpServerModule w) <= Handle br)%nat) new /\
    (forall ph, ph ∈ RequestPreprocessors router -> ph ∈ RequestPreprocessors router') /\
    (bRootPreprocessorRegistered (Server w) = false ->
     existsb RegistersRoot rs = true ->
     exists h, (h, RootPreprocessorLambda) ∈ RequestPreprocessors router').
Proof.
  revert w router. induction rs as [|r rs IH]; intros w router Hrouter Hlookup.
  - cbn. split; [done|]. split; [done|]. exists router, [].
    rewrite app_nil_r. repeat split; try done.
  - cbn [fold_left].
    destruct (Register_live r w Port router Hrouter Hlookup)
      as (Hr1 & Hn1 & router1 & Hl1 & Hroutes1 & Hpre1 & Hroot1 & Hflag1).
    destruct (IH _ router1 Hr1 Hl1)
      as (Hr2 & Hn2 & router2 & new & Hl2 & Hroutes2 & Hsig & Hfresh & Hpre2 & Hroot2).
    split; [done|]. split; [lia|].
    eexists router2, (_ ++ new)%list.
    split; [done|]. split; [by rewrite Hroutes2, Hroutes1, <- app_assoc|].
    split; [|split; [|split]].
    + rewrite HookRoutes_cons, map_app, Hsig.
      by destruct (BindsRoute IsValidPath r).
    + apply Forall_app. split.
      * destruct (BindsRoute IsValidPath r); repeat constructor.
      * eapply Forall_impl; [exact Hfresh|]. cbn. intros br Hbr. lia.
    + auto.
    + intros Hflag Hex. cbn in Hex.
      destruct (RegistersRoot r) eqn:Hrr.
      * eexists. apply Hpre2, Hroot1; done.
      * apply Hroot2; [|done]. by rewrite Hflag1.
Qed.

Lemma StartServer_live ServerPort w :
  (0 < ServerPort)%Z -> RouterAvailable ServerPort = true ->
  let w1 := StartServer IsValidPath RouterAvailable ServerPort w in
  HttpRouter (Server w1) = Some ServerPort /\
  bServerStarted (Server w1) = true /\
  (NextHandle (HttpServerModule w) <= NextHandle (HttpServerModule w1))%nat /\
  exists router1 new,
    Routers (HttpServerModule w1) !! ServerPort = Some router1 /\
    Routes router1 = (RoutesAt (HttpServerModule w) ServerPort ++ new)%list /\
    map RouteSignature new = HookRoutes IsValidPath (ReceiveBindRoutes (Server w)) /\
    Forall (fun br => (NextHandle (HttpServerModule w) <= Handle br)%nat) new /\
    (bRootPreprocessorRegistered (Server w) = false ->
     existsb RegistersRoot (ReceiveBindRoutes (Server w)) = true ->
     exists h, (h, RootPreprocessorLambda) ∈ RequestPreprocessors router1).
Proof.
  intros Hpos Havail. unfold StartServer.
  destruct (Z.leb_spec ServerPort 0) as [|_]; [lia|].
  cbn [CurrentServerPort set_CurrentServerPort HttpRouter set_HttpRouter].
  destruct (GetHttpRouter_Some RouterAvailable ServerPort (HttpServerModule w) Havail)
    as (Hfst & _ & Hnext).
  rewrite Hfst.
  set (w0 := {| Server := set_HttpRouter (Some ServerPort)
                            (set_CurrentServerPort ServerPort (Server w));
                HttpServerModule :=
                  (Transport.GetHttpRouter RouterAvailable ServerPort
                     (HttpServerModule w)).2 |}).
  assert (exists router0, Routers (HttpServerModule w0) !! ServerPort = Some router0 /\
                          Routes router0 = RoutesAt (HttpServerModule w) ServerPort)
    as (router0 & Hl0 & Hroutes0).
  { subst w0. cbn [HttpServerModule]. rewrite GetHttpRouter_lookup. unfold RoutesAt.
    destruct (Routers (HttpServerModule w) !! ServerPort) as [router|]; [eauto|].
    rewrite Havail, bool_decide_eq_true_2 by done. eauto. }
  destruct (fold_Register_live (ReceiveBindRoutes (Server w)) w0 ServerPort router0
              eq_refl Hl0)
    as (Hr & Hn & router1 & new & Hl1 & Hroutes1 & Hsig & Hfresh & _ & Hroot).
  unfold BindRoutes. cbn [Server HttpServerModule ReceiveBindRoutes set_HttpRouter
                            set_CurrentServerPort HttpRouter bServerStarted
                            set_bServerStarted].
  change (ReceiveBindRoutes (Server w0)) with (ReceiveBindRoutes (Server w)) in *.
  unfold w0 in Hn, Hfresh. cbn [HttpServerModule] in Hn, Hfresh.
  rewrite Hnext in Hn, Hfresh.
  split; [exact Hr|]. split; [done|]. split; [exact Hn|].
  exists router1, new. split; [exact Hl1|]. split; [by rewrite Hroutes1, Hroutes0|].
  split; [done|]. split; [done|]. exact Hroot.
Qed.

Lemma StopServer_clears w Port :
  Inv w -> HttpRouter (Server w) = Some Port ->
  exists router', Routers (HttpServerModule (StopServer w)) !! Port = Some router' /\
                  Routes router' = [].
Proof.
  intros I Hrouter. destruct (inv_router w I Port Hrouter) as [router Hlookup].
  rewrite StopServer_unfold, Hrouter. cbn [HttpServerModule].
  rewrite UnbindAll_lookup.
  assert (exists router0,
             Routers (if bRootPreprocessorRegistered (Server w)
                      then Transport.UnregisterRequestPreprocessor Port
                             (RootRequestPreprocessorHandle (Server w))
                             (Transport.StopAllListeners (HttpServerModule w))
                      else Transport.StopAllListeners (HttpServerModule w)) !! Port
             = Some router0 /\ Routes router0 = Routes router)
    as (router0 & -> & Hroutes0).
  { destruct (bRootPreprocessorRegistered (Server w)); cbn.
    - rewrite lookup_alter_eq, Hlookup. cbn. eauto.
    - eauto. }
  cbn. rewrite decide_True by done. eexists. split; [done|]. cbn.
  rewrite Hroutes0. apply filter_none. intros br Hbr Hnot. apply Hnot.
  destruct (inv_routes w I Port br) as (_ & Hin & _); [eexists; eauto | done].
Qed.

End Start.

Section Restart.

Variable IsValidPath : string -> bool.
Variable RouterAvailable : Z -> bool.


Lemma BindIntoRouter_hook p v L w :
  ReceiveBindRoutes (Server (BindIntoRouter IsValidPath p v L w))
  = ReceiveBindRoutes (Server w).
Proof. unfold BindIntoRouter. by repeat case_match. Qed.

Lemma Register_hook r w :
  ReceiveBindRoutes (Server (Register IsValidPath r w)) = ReceiveBindRoutes (Server w).
Proof. rewrite Register_decompose, BindIntoRouter_hook. by destruct r. Qed.

Lemma fold_Register_hook rs w :
  ReceiveBindRoutes (Server (fold_left (fun w r => Register IsValidPath r w) rs w))
  = ReceiveBindRoutes (Server w).
Proof.
  revert w. induction rs as [|r rs IH]; intros w; cbn; [done|].
  by rewrite IH, Register_hook.
Qed.

Lemma StartServer_hook ServerPort w :
  ReceiveBindRoutes (Server (StartServer IsValidPath RouterAvailable ServerPort w)) = ReceiveBindRoutes (Server w).
Proof.
  unfold StartServer. destruct (ServerPort <=? 0)%Z; [done|].
  cbn [HttpRouter set_HttpRouter]. case_match; [|done].
  cbn [Server ReceiveBindRoutes set_bServerStarted]. unfold BindRoutes.
  by rewrite fold_Register_hook.
Qed.

Lemma StopServer_hook w :
  ReceiveBindRoutes (Server (StopServer w)) = ReceiveBindRoutes (Server w).
Proof. rewrite StopServer_unfold. by repeat case_match. Qed.

Lemma SignatureOf_in_HookRoutes r hook :
  r ∈ hook -> BindsRoute IsValidPath r = true ->
  SignatureOf r ∈ HookRoutes IsValidPath hook.
Proof.
  intros Hin Hb. unfold HookRoutes. apply list_elem_of_fmap. exists r.
  split; [done|]. apply list_elem_of_In, filter_In. split; [|done].
  by apply list_elem_of_In.
Qed.

(** With only root preprocessors registered, a request away from the
    root is served by the bound routes, by their signatures alone. *)
Lemma ProcessRequest_by_signatures (w : World) (Port : Z) (router : IHttpRouter)
    (Request : FHttpServerRequest.t) :
  Inv w ->
  Routers (HttpServerModule w) !! Port = Some router ->
  IsRoot (FHttpServerRequest.RelativePath Request) = false ->
  ProcessRequest (Server w) router Request
  = DispatchOver (Server w) (map RouteSignature (Routes router)) Request.
Proof.
  intros I Hrouter Hroot. unfold ProcessRequest, DispatchOver.
  rewrite RunPreprocessors_none.
  - cbn. rewrite find_map.
    change (fun a => SignatureMatches Request (RouteSignature a))
      with (Transport.RouteMatches Request).
    destruct (List.find (Transport.RouteMatches Request) (Routes router)) as [br|];
      cbn; [|done].
    by destruct (Invoke (Server w) (Handler br) Request).
  - intros ph Hph.
    destruct (inv_preprocessors w I Port ph) as [-> _]; [eexists; eauto|].
    by apply RootRequestPreprocessor_not_root.
Qed.

(** C1, as amended.  A start on a port that is greater than zero and
    has a router raises [ReceiveBindRoutes] with the router attached:
    the server is started, and every registration the event makes for a
    path that is not the root and that the transport accepts is a route
    bound in the router, with the verbs of the registration and the
    lambda of its kind, under a handle kept in [CreatedRouteHandlers].
    After a stop and a second start on the port the routes bound in the
    router are exactly the ones the event registers, in its order; each
    is bound under a handle issued after the stop, so none of the
    handles created up to the stop is bound any more; the root
    preprocessor is registered again when the event registers the root;
    and a request away from the root is served by these routes alone. *)
Theorem start_binds_hook_routes (w : World) (ServerPort : Z) :
  Reachable IsValidPath RouterAvailable w ->
  (0 < ServerPort)%Z ->
  RouterAvailable ServerPort = true ->
  let hook := ReceiveBindRoutes (Server w) in
  let w1 := StartServer IsValidPath RouterAvailable ServerPort w in
  let w2 := StopServer w1 in
  let w3 := StartServer IsValidPath RouterAvailable ServerPort w2 in
  (bServerStarted (Server w1) = true /\
   exists router1,
     Routers (HttpServerModule w1) !! ServerPort = Some router1 /\
     forall r, r ∈ hook -> BindsRoute IsValidPath r = true ->
               exists br, br ∈ Routes router1 /\
                          RouteSignature br = SignatureOf r /\
                          Handle br ∈ CreatedRouteHandlers (Server w1)) /\
  (bServerStarted (Server w3) = true /\
   exists router3,
     Routers (HttpServerModule w3) !! ServerPort = Some router3 /\
     map RouteSignature (Routes router3) = HookRoutes IsValidPath hook /\
     (forall br, br ∈ Routes router3 ->
                 (Handle br ∉ CreatedRouteHandlers (Server w2)) /\
                 (NextHandle (HttpServerModule w2) <= Handle br)%nat) /\
     (existsb RegistersRoot hook = true ->
      exists h, (h, RootPreprocessorLambda) ∈ RequestPreprocessors router3) /\
     (forall Request,
         IsRoot (FHttpServerRequest.RelativePath Request) = false ->
         ProcessRequest (Server w3) router3 Request
         = DispatchOver (Server w3) (HookRoutes IsValidPath hook) Request)).
Proof.
  intros Hreach Hpos Havail hook w1 w2 w3.
  assert (Reachable IsValidPath RouterAvailable w1) as Hreach1 by by constructor.
  assert (Reachable IsValidPath RouterAvailable w2) as Hreach2 by by constructor.
  assert (Reachable IsValidPath RouterAvailable w3) as Hreach3 by by constructor.
  pose proof (Reachable_Inv _ _ _ Hreach1) as I1.
  pose proof (Reachable_Inv _ _ _ Hreach2) as I2.
  pose proof (Reachable_Inv _ _ _ Hreach3) as I3.
  destruct (StartServer_live IsValidPath RouterAvailable ServerPort w Hpos Havail)
    as (Hr1 & Hs1 & _ & router1 & new1 & Hl1 & Hroutes1 & Hsig1 & _ & _).
  fold w1 in Hr1, Hs1, Hl1. fold hook in Hsig1.
  split.
  { split; [exact Hs1|]. exists router1. split; [exact Hl1|].
    intros r Hin Hb.
    pose proof (SignatureOf_in_HookRoutes r hook Hin Hb) as Hsig.
    rewrite <- Hsig1 in Hsig. apply list_elem_of_fmap in Hsig as (br & Hbr & Hnew).
    exists br. assert (br ∈ Routes router1) as Hbr1.
    { rewrite Hroutes1. apply elem_of_app. by right. }
    split; [done|]. split; [done|].
    destruct (inv_routes w1 I1 ServerPort br) as (_ & Hc & _); [eexists; eauto | done]. }
  destruct (StopServer_members w1) as (Hr2 & _ & _ & _ & Hf2).
  fold w2 in Hr2, Hf2. rewrite Hr1 in Hr2, Hf2.
  destruct (StopServer_clears w1 ServerPort I1 Hr1) as (router2 & Hl2 & Hroutes2).
  fold w2 in Hl2.
  destruct (StartServer_live IsValidPath RouterAvailable ServerPort w2 Hpos Havail)
    as (Hr3 & Hs3 & _ & router3 & new3 & Hl3 & Hroutes3 & Hsig3 & Hfresh3 & Hroot3).
  fold w3 in Hr3, Hs3, Hl3.
  assert (ReceiveBindRoutes (Server w2) = hook) as Hhook.
  { subst w2 w1 hook. by rewrite StopServer_hook, StartServer_hook. }
  rewrite Hhook in Hsig3, Hroot3.
  unfold RoutesAt in Hroutes3. rewrite Hl2, Hroutes2 in Hroutes3. cbn in Hroutes3.
  split; [exact Hs3|]. exists router3. split; [exact Hl3|].
  split; [by rewrite Hroutes3|]. split; [|split].
  - intros br Hbr. rewrite Hroutes3 in Hbr.
    rewrite Forall_forall in Hfresh3. specialize (Hfresh3 br Hbr).
    split; [|done]. intros Hc. pose proof (inv_created w2 I2 _ Hc). lia.
  - intros Hex. by apply Hroot3.
  - intros Request Hroot.
    rewrite (ProcessRequest_by_signatures w3 ServerPort router3 Request I3 Hl3 Hroot).
    by rewrite Hroutes3, Hsig3.
Qed.

End Restart.

Lemma start_binds_hook_routes_witness :
  Reachable AnyPath AnyPort (NewWorld StatusHook) /\
  (0 < 8080)%Z /\
  AnyPort 8080 = true /\
  let w3 := StartServer AnyPath AnyPort 8080
              (StopServer (StartServer AnyPath AnyPort 8080 (NewWorld StatusHook))) in
  exists router3,
    Routers (HttpServerModule w3) !! 8080%Z = Some router3 /\
    map RouteSignature (Routes router3) = [("/status", Verb.GET, RouteLambda "/status")] /\
    (exists h, (h, RootPreprocessorLambda) ∈ RequestPreprocessors router3) /\
    ProcessRequest (Server w3) router3 (MakeRequest Verb.GET "/status")
    = (true, [Executed 7 (FillNativeRequst (MakeRequest Verb.GET "/status")
                            FNativeHttpServerRequest.empty);
              OnComplete (FNativeHttpServerResponse.HttpServerResponse Ok200)]).
Proof.
  assert (Reachable AnyPath AnyPort (NewWorld StatusHook)) as Hreach.
  { apply Reachable_new. repeat constructor; apply WellTyped_GET_POST. }
  split; [exact Hreach|]. split; [lia|]. split; [reflexivity|].
  destruct (start_binds_hook_routes AnyPath AnyPort (NewWorld StatusHook) 8080
              Hreach eq_refl eq_refl)
    as (_ & _ & router3 & Hl3 & Hsig3 & _ & Hroot3 & Hserve3).
  exists router3. split; [exact Hl3|]. split; [exact Hsig3|].
  split; [apply Hroot3; reflexivity|].
  rewrite Hserve3 by reflexivity. reflexivity.
Defined.

(** C1, as stated, fails: a route registered while no router is attached
    is in the route table, and a later successful start does not bind it.
    The router of the port has no route, and a GET request to [/a] is
    unmatched. *)
Lemma start_leaves_table_route_unbound :
  bServerStarted (Server RegisteredThenStarted) = true /\
  RouteDelegates (Server RegisteredThenStarted) !! "/a" = Some OkDelegate /\
  RouteVerbs (Server RegisteredThenStarted) !! "/a" = Some Verb.GET /\
  Routers (HttpServerModule RegisteredThenStarted) !! 8080%Z
    = Some {| Routes := []; RequestPreprocessors := [] |} /\
  ProcessRequest (Server RegisteredThenStarted)
    {| Routes := []; RequestPreprocessors := [] |} (MakeRequest Verb.GET "/a")
  = (false, []).
Proof. repeat split; reflexivity. Qed.

(** ** Merging the verbs of a path *)

Section Merge.

Variable IsValidPath : string -> bool.
Variable RouterAvailable : Z -> bool.

(** C3.  Two registrations of one path, by either mechanism, leave in
    the table the bitwise or of the mask the path had, if any, and the
    two masks: every verb of each registration is in it and none that
    was there is lost.  A verb matches the merged mask exactly when it
    matches one of the parts, and a request to the path with a verb that
    does not match it is unmatched: no preprocessor handles it and it
    matches no bound route, in any router.  When the server has a router
    and the path is one a route is bound for, a request to the path with
    a verb of either registration is handled. *)
Theorem verb_masks_merge (w : World) (r1 r2 : Registration) :
  Reachable IsValidPath RouterAvailable w ->
  WellTyped r1 -> WellTyped r2 ->
  NormalizeHttpPath (RegistrationPath r1) = NormalizeHttpPath (RegistrationPath r2) ->
  let p := NormalizeHttpPath (RegistrationPath r1) in
  let w' := Register IsValidPath r2 (Register IsValidPath r1 w) in
  let old := default 0%Z (RouteVerbs (Server w) !! p) in
  let merged := Z.lor (Z.lor old (RegistrationVerbs r1)) (RegistrationVerbs r2) in
  RouteVerbs (Server w') !! p = Some merged /\
  VerbsWithin old merged /\
  VerbsWithin (RegistrationVerbs r1) merged /\
  VerbsWithin (RegistrationVerbs r2) merged /\
  (forall RequestVerb,
      VerbsMatch merged RequestVerb
      = VerbsMatch old RequestVerb
        || VerbsMatch (RegistrationVerbs r1) RequestVerb
        || VerbsMatch (RegistrationVerbs r2) RequestVerb) /\
  (forall Port router Request,
      Routers (HttpServerModule w') !! Port = Some router ->
      FHttpServerRequest.RelativePath Request = p ->
      VerbsMatch merged (FHttpServerRequest.Verb Request) = false ->
      ProcessRequest (Server w') router Request = (false, [])) /\
  (forall Port Request,
      HttpRouter (Server w) = Some Port ->
      BindsRoute IsValidPath r1 = true ->
      FHttpServerRequest.RelativePath Request = p ->
      VerbsMatch (RegistrationVerbs r1) (FHttpServerRequest.Verb Request)
      || VerbsMatch (RegistrationVerbs r2) (FHttpServerRequest.Verb Request) = true ->
      exists router,
        Routers (HttpServerModule w') !! Port = Some router /\
        (ProcessRequest (Server w') router Request).1 = true).
Proof.
  intros Hreach H1 H2 Hsame p w' old merged.
  pose proof (Reachable_Inv _ _ _ Hreach) as I.
  pose proof (Inv_Register IsValidPath r1 w H1 I) as I1.
  pose proof (Inv_Register IsValidPath r2 _ H2 I1) as I2.
  assert (RouteVerbs (Server w') !! p = Some merged) as Hmerged.
  { subst w' merged old p. rewrite !Register_RouteVerbs, <- Hsame.
    rewrite MergeVerbs_lookup_eq.
    - rewrite MergeVerbs_lookup_eq; [done|done|]. intros mask. apply I.
    - done.
    - intros mask. apply (MergeVerbs_uint8 _ _ _ H1). apply I. }
  split; [done|].
  split; [eapply VerbsWithin_trans; apply VerbsWithin_lor_l|].
  split; [eapply VerbsWithin_trans; [apply VerbsWithin_lor_r | apply VerbsWithin_lor_l]|].
  split; [apply VerbsWithin_lor_r|].
  split; [intros v; subst merged; by rewrite !VerbsMatch_lor|].
  split.
  { intros Port router Request Hrouter Hpath Hno.
    apply (ProcessRequest_unmatched w' Port router Request merged I2 Hrouter); [|done].
    by rewrite Hpath. }
  intros Port Request Hlive Hbinds1 Hpath Hverb.
  assert (BindsRoute IsValidPath r2 = true) as Hbinds2
    by (unfold BindsRoute in *; by rewrite <- Hsame).
  destruct (inv_router w I Port Hlive) as [router Hrouter].
  destruct (Register_live IsValidPath r1 w Port router Hlive Hrouter)
    as (Hlive1 & _ & router1 & Hrouter1 & Hroutes1 & _).
  destruct (Register_live IsValidPath r2 _ Port router1 Hlive1 Hrouter1)
    as (_ & _ & router2 & Hrouter2 & Hroutes2 & _).
  rewrite Hbinds1 in Hroutes1. rewrite Hbinds2, Hroutes1, <- Hsame in Hroutes2.
  fold p in Hroutes2. exists router2. split; [exact Hrouter2|].
  assert (IsRoot (FHttpServerRequest.RelativePath Request) = false) as Hroot.
  { rewrite Hpath. unfold BindsRoute in Hbinds1.
    apply andb_prop in Hbinds1 as [Hne _]. by apply negb_true_iff in Hne. }
  apply orb_prop in Hverb as [Hv|Hv];
    rewrite VerbsMatch_uint8 in Hv by done;
    (eapply (ProcessRequest_handled w' Port router2 Request); [exact I2|exact Hrouter2|exact Hroot| |]);
    [ rewrite Hroutes2; apply elem_of_app; left; apply elem_of_app; right;
      apply list_elem_of_singleton; reflexivity
    | unfold Transport.RouteMatches; cbn [Path Verbs]; rewrite Hpath, String.eqb_refl; exact Hv
    | rewrite Hroutes2; apply elem_of_app; right;
      apply list_elem_of_singleton; reflexivity
    | unfold Transport.RouteMatches; cbn [Path Verbs]; rewrite Hpath, String.eqb_refl; exact Hv ].
Qed.


End Merge.

Lemma verb_masks_merge_witness :
  Reachable AnyPath AnyPort EmptyStartedWorld /\
  let w' := Register AnyPath (ViaBindRouteNative "/a/" Verb.POST DirectHandler)
              (Register AnyPath (ViaBindRoute "a" Verb.GET OkDelegate) EmptyStartedWorld) in
  RouteVerbs (Server w') !! "/a" = Some 3%Z /\
  VerbsMatch 3 Verb.GET = true /\
  VerbsMatch 3 Verb.POST = true /\
  VerbsMatch 3 Verb.DELETE = false /\
  exists router,
    Routers (HttpServerModule w') !! 8080%Z = Some router /\
    (ProcessRequest (Server w') router (MakeRequest Verb.GET "/a")).1 = true /\
    (ProcessRequest (Server w') router (MakeRequest Verb.POST "/a")).1 = true /\
    ProcessRequest (Server w') router (MakeRequest Verb.DELETE "/a") = (false, []).
Proof.
  assert (Reachable AnyPath AnyPort EmptyStartedWorld) as Hreach.
  { apply Reachable_StartServer, Reachable_new. constructor. }
  split; [exact Hreach|].
  destruct (verb_masks_merge AnyPath AnyPort EmptyStartedWorld
              (ViaBindRoute "a" Verb.GET OkDelegate)
              (ViaBindRouteNative "/a/" Verb.POST DirectHandler)
              Hreach (proj1 WellTyped_GET_POST) (proj2 WellTyped_GET_POST) eq_refl)
    as (Hmerged & _ & _ & _ & _ & Hunmatched & Haccepted).
  split; [exact Hmerged|]. split; [reflexivity|]. split; [reflexivity|].
  split; [reflexivity|].
  destruct (Haccepted 8080%Z (MakeRequest Verb.GET "/a") eq_refl eq_refl eq_refl eq_refl)
    as (router & Hrouter & Hget).
  destruct (Haccepted 8080%Z (MakeRequest Verb.POST "/a") eq_refl eq_refl eq_refl eq_refl)
    as (router' & Hrouter' & Hpost).
  rewrite Hrouter in Hrouter'. injection Hrouter' as <-.
  exists router. split; [exact Hrouter|]. split; [exact Hget|]. split; [exact Hpost|].
  apply (Hunmatched 8080%Z router _ Hrouter); reflexivity.
Defined.

(** ** More on the normaliser and the verb test *)

Section NormalizerMore.

Lemma LastChar_snoc (s : string) (c : ascii) : LastChar (s ++ String c "") = Some c.
Proof.
  induction s as [|a r IH]; [reflexivity|].
  rewrite append_cons. destruct r as [|b r]; [reflexivity|].
  rewrite append_cons in *. exact IH.
Qed.

Lemma TrimEnd_snoc_whitespace (s : string) (c : ascii) :
  IsWhitespace c = true -> TrimEnd (s ++ String c "") = TrimEnd s.
Proof.
  intros Hc. induction s as [|a r IH].
  - rewrite append_nil_l. cbn. by rewrite Hc.
  - rewrite append_cons. cbn [TrimEnd]. by rewrite IH.
Qed.

Lemma TrimEnd_append_whitespace (s post : string) :
  AllWhitespace post = true -> TrimEnd (s ++ post) = TrimEnd s.
Proof.
  revert s. induction post as [|c p IH]; intros s Hp.
  - by rewrite append_empty_r.
  - cbn in Hp. apply andb_prop in Hp as [Hc Hp].
    change (String c p) with (String c "" ++ p). rewrite append_assoc.
    rewrite (IH _ Hp). by apply TrimEnd_snoc_whitespace.
Qed.

Lemma TrimStartAndEnd_cons_whitespace (c : ascii) (s : string) :
  IsWhitespace c = true -> TrimStartAndEnd (String c s) = TrimStartAndEnd s.
Proof.
  intros Hc. unfold TrimStartAndEnd. cbn [TrimEnd].
  destruct (TrimEnd s) as [|a r]; rewrite ?Hc; cbn [TrimStart]; by rewrite ?Hc.
Qed.

Lemma TrimStartAndEnd_surrounded (pre s post : string) :
  AllWhitespace pre = true -> AllWhitespace post = true ->
  TrimStartAndEnd (pre ++ s ++ post) = TrimStartAndEnd s.
Proof.
  intros Hpre Hpost. induction pre as [|c p IH].
  - rewrite append_nil_l. unfold TrimStartAndEnd.
    by rewrite TrimEnd_append_whitespace.
  - cbn in Hpre. apply andb_prop in Hpre as [Hc Hp].
    rewrite append_cons, TrimStartAndEnd_cons_whitespace by done. by apply IH.
Qed.

Lemma TrimStart_empty (s : string) :
  TrimStart s = "" -> s = "" \/ EndsWithWhitespace s = true.
Proof.
  unfold EndsWithWhitespace.
  induction s as [|c [|c' r] IH]; intros Ht; [by left| |].
  - right. cbn in *. by destruct (IsWhitespace c).
  - right. change (LastChar (String c (String c' r))) with (LastChar (String c' r)).
    cbn [TrimStart] in Ht. destruct (IsWhitespace c); [|done].
    by destruct (IH Ht).
Qed.

Lemma TrimStart_append (s x : string) :
  TrimStart s <> "" -> TrimStart (s ++ x) = TrimStart s ++ x.
Proof.
  induction s as [|c r IH]; intros Hne; [done|].
  rewrite append_cons. cbn [TrimStart] in *.
  destruct (IsWhitespace c); [by apply IH | by rewrite append_cons].
Qed.

Lemma drop_trailing_slashes_snoc (s : string) :
  drop_trailing_slashes (s ++ "/") = drop_trailing_slashes s.
Proof.
  induction s as [|c r IH]; [reflexivity|].
  rewrite append_cons. cbn [drop_trailing_slashes]. by rewrite IH.
Qed.

Lemma drop_trailing_slashes_empty (s : string) :
  drop_trailing_slashes s = "" <-> AllSlashes s = true.
Proof.
  induction s as [|c r IH]; [done|].
  cbn [drop_trailing_slashes AllSlashes].
  destruct (drop_trailing_slashes r) as [|a x] eqn:E.
  - destruct (Ascii.eqb c "/"); cbn [andb]; [|done].
    split; intros _; [by apply IH | done].
  - split; [done|]. intros [_ Hr]%andb_prop. by apply IH in Hr.
Qed.

End NormalizerMore.

(** X1.  Whitespace around a path does not count: a path between two
    strings of whitespace is normalised as the path alone. *)
Theorem NormalizeHttpPath_ignores_surrounding_whitespace (pre s post : string) :
  AllWhitespace pre = true ->
  AllWhitespace post = true ->
  NormalizeHttpPath (pre ++ s ++ post) = NormalizeHttpPath s.
Proof.
  intros Hpre Hpost. unfold NormalizeHttpPath.
  by rewrite TrimStartAndEnd_surrounded.
Qed.

Lemma NormalizeHttpPath_ignores_surrounding_whitespace_witness :
  AllWhitespace "  " = true /\
  NormalizeHttpPath ("  " ++ "status" ++ "  ") = NormalizeHttpPath "status".
Proof.
  split; [reflexivity|].
  by apply (NormalizeHttpPath_ignores_surrounding_whitespace "  " "status" "  ").
Defined.

(** X2.  One more trailing slash does not count, as long as the path does
    not end in whitespace: [s/] is normalised as [s]. *)
Theorem NormalizeHttpPath_ignores_trailing_slash (s : string) :
  EndsWithWhitespace s = false ->
  NormalizeHttpPath (s ++ "/") = NormalizeHttpPath s.
Proof.
  intros Hws. rewrite !NormalizeHttpPath_normalize_spec. unfold normalize_spec.
  unfold TrimStartAndEnd. rewrite (TrimEnd_id s Hws).
  rewrite TrimEnd_id
    by (unfold EndsWithWhitespace; by rewrite LastChar_snoc).
  destruct (TrimStart s) as [|c r] eqn:Ht.
  - destruct (TrimStart_empty s Ht) as [->|Hw]; [reflexivity | congruence].
  - rewrite TrimStart_append by (rewrite Ht; done). rewrite Ht, append_cons.
    destruct (Ascii.eqb c "/"); cbn [strip_spec].
    + by rewrite drop_trailing_slashes_snoc.
    + by rewrite <- append_cons, drop_trailing_slashes_snoc.
Qed.

Lemma NormalizeHttpPath_ignores_trailing_slash_witness :
  EndsWithWhitespace "/api/v1" = false /\
  NormalizeHttpPath ("/api/v1" ++ "/") = NormalizeHttpPath "/api/v1".
Proof.
  split; [reflexivity|].
  by apply (NormalizeHttpPath_ignores_trailing_slash "/api/v1").
Defined.

(** X3.  The paths that are normalised to the root are exactly the ones
    that, once trimmed, are empty or made of slashes only. *)
Theorem NormalizeHttpPath_root_iff (s : string) :
  NormalizeHttpPath s = "/" <-> AllSlashes (TrimStartAndEnd s) = true.
Proof.
  rewrite NormalizeHttpPath_normalize_spec. unfold normalize_spec.
  destruct (TrimStartAndEnd s) as [|c r]; [done|].
  cbn [AllSlashes]. destruct (Ascii.eqb_spec c "/") as [->|Hc]; cbn [andb strip_spec].
  - rewrite <- drop_trailing_slashes_empty. split; [by intros [= ->] | by intros ->].
  - split; [|done]. intros [= Hd].
    assert (AllSlashes (String c r) = true) as Hall
      by by apply drop_trailing_slashes_empty.
    cbn in Hall. apply andb_prop in Hall as [Hc' _].
    by apply Ascii.eqb_eq in Hc'.
Qed.

(** X4.  [VerbsMatch] holds exactly when the mask and the verb share one
    of the eight low bits: a zero mask matches no verb, a zero verb matches
    no mask, and bits from the ninth on do not count. *)
Theorem VerbsMatch_shares_low_bit (AllowedVerbs RequestVerb k : Z) :
  VerbsMatch AllowedVerbs RequestVerb
  = existsb (fun i => Z.testbit AllowedVerbs i && Z.testbit RequestVerb i) VerbBits /\
  VerbsMatch 0 RequestVerb = false /\
  VerbsMatch AllowedVerbs 0 = false /\
  VerbsMatch AllowedVerbs RequestVerb = VerbsMatch RequestVerb AllowedVerbs /\
  VerbsMatch AllowedVerbs (RequestVerb + 256 * k) = VerbsMatch AllowedVerbs RequestVerb.
Proof.
  assert (forall m r, VerbsMatch m r
            = existsb (fun i => Z.testbit m i && Z.testbit r i) VerbBits) as Hbits.
  { intros m r. unfold VerbsMatch. cbv zeta.
    set (x := Z.land (to_uint8 m) (to_uint8 r)).
    assert (forall i, (0 <= i < 8)%Z ->
                      Z.testbit x i = Z.testbit m i && Z.testbit r i) as Hlow.
    { intros i Hi. subst x. unfold to_uint8. change 256%Z with (2 ^ 8)%Z.
      rewrite Z.land_spec, !Z.mod_pow2_bits_low by lia. done. }
    assert (forall i, (8 <= i)%Z -> Z.testbit x i = false) as Hhigh.
    { intros i Hi. subst x. unfold to_uint8. change 256%Z with (2 ^ 8)%Z.
      rewrite Z.land_spec, !Z.mod_pow2_bits_high by lia. done. }
    unfold VerbBits. cbn [existsb].
    rewrite <- !Hlow by lia.
    destruct (Z.eqb_spec x 0) as [H0|Hn]; cbn [negb].
    - rewrite H0, !Z.bits_0. done.
    - destruct (Z.testbit x 0) eqn:B0, (Z.testbit x 1) eqn:B1,
        (Z.testbit x 2) eqn:B2, (Z.testbit x 3) eqn:B3,
        (Z.testbit x 4) eqn:B4, (Z.testbit x 5) eqn:B5,
        (Z.testbit x 6) eqn:B6, (Z.testbit x 7) eqn:B7; try done.
      destruct Hn. apply Z.bits_inj_0. intros n.
      destruct (Z.lt_ge_cases n 0) as [Hneg|Hpos]; [by apply Z.testbit_neg_r|].
      destruct (Z.lt_ge_cases n 8) as [Hlt|Hge]; [|by apply Hhigh].
      assert (n = 0 \/ n = 1 \/ n = 2 \/ n = 3 \/ n = 4 \/ n = 5 \/ n = 6 \/ n = 7)%Z
        as Hcases by lia.
      by destruct Hcases as [->|[->|[->|[->|[->|[->|[->| ->]]]]]]]. }
  split; [apply Hbits|].
  split; [reflexivity|].
  split; [unfold VerbsMatch; cbv zeta; by rewrite Z.land_0_r|].
  split.
  - unfold VerbsMatch. cbv zeta. by rewrite Z.land_comm.
  - unfold VerbsMatch, to_uint8. cbv zeta.
    by rewrite (Z.mul_comm 256 k), Z.mod_add.
Qed.

(** ** More on dispatch and translation *)

(** X5.  A delegate that is registered but not bound is answered with
    Not-Found by the route lambda of its path.  At the root it also hides
    the direct handler: for a root request the verb check lets through, the
    root preprocessor completes with Not-Found and calls no handler. *)
Theorem unbound_delegate_answers_not_found
    (this : USimpleHttpServer) (p : string) (Request : FHttpServerRequest.t)
    (d : FHttpServerRequestDelegate) :
  RouteDelegates this !! p = Some d ->
  IsBound d = false ->
  Invoke this (RouteLambda p) Request = CompleteNotFound /\
  (p = "/" ->
   IsRoot (FHttpServerRequest.RelativePath Request) = true ->
   match RouteVerbs this !! "/" with
   | Some AllowedVerbs => VerbsMatch AllowedVerbs (FHttpServerRequest.Verb Request)
   | None => true
   end = true ->
   Invoke this RootPreprocessorLambda Request = CompleteNotFound).
Proof.
  intros Hd Hb.
  pose proof (unbound_delegate_completes_not_found this p Request d Hd Hb) as Hnf.
  split; [exact Hnf|].
  intros -> Hroot Hallowed. cbn [Invoke]. unfold RootRequestPreprocessor.
  rewrite Hroot. cbn [negb].
  destruct (RouteVerbs this !! "/"); [rewrite Hallowed|]; cbn [negb];
    unfold Contains at 1; by rewrite Hd.
Qed.

Lemma unbound_delegate_answers_not_found_witness :
  RouteDelegates UnboundAtRoot !! "/" = Some UnboundDelegate /\
  RouteHandlers UnboundAtRoot !! "/" = Some DirectHandler /\
  Invoke UnboundAtRoot RootPreprocessorLambda (MakeRequest Verb.GET "/")
  = (true, [OnComplete (FHttpServerResponse.Error 404)]).
Proof.
  split; [reflexivity|]. split; [reflexivity|].
  by apply (unbound_delegate_answers_not_found UnboundAtRoot "/"
              (MakeRequest Verb.GET "/") UnboundDelegate eq_refl eq_refl).
Defined.

(** X6.  [HandleRequest] reports the request as handled and calls the
    completion callback exactly once, whatever the tables hold.
    [HandleRequestNative] reports it as handled too, but calls the
    completion callback only when it finds no handler: once it has called
    a direct handler it completes nothing itself. *)
Theorem completions_per_request
    (this : USimpleHttpServer) (HttpPath : string) (Request : FHttpServerRequest.t) :
  (HandleRequest this HttpPath Request).1 = true /\
  Completions (HandleRequest this HttpPath Request).2 = 1%nat /\
  (HandleRequestNative this HttpPath Request).1 = true /\
  Completions (HandleRequestNative this HttpPath Request).2
  = (if Contains (RouteHandlers this) HttpPath then 0 else 1)%nat.
Proof.
  unfold HandleRequest, HandleRequestNative, Contains, CompleteNotFound.
  destruct (RouteDelegates this !! HttpPath) as [d|];
    [destruct (BoundFunction d)|];
    by destruct (RouteHandlers this !! HttpPath).
Qed.





(** ** More on the lifecycle *)

Section LifecycleMore.

Variable IsValidPath : string -> bool.
Variable RouterAvailable : Z -> bool.

(** X9.  A start that fails binds nothing and raises no event: the
    tables, the created handles, the root-preprocessor flag, the routers
    and the listeners are as before.  With a port that is not greater than
    zero nothing at all changes; with a port the module has no router for,
    the port is recorded, the router pointer becomes null and the server is
    marked as not started. *)
Theorem StartServer_failure (w : World) (ServerPort : Z) :
  (ServerPort <= 0)%Z \/ RouterAvailable ServerPort = false ->
  let w' := StartServer IsValidPath RouterAvailable ServerPort w in
  ((ServerPort <= 0)%Z -> w' = w) /\
  ((0 < ServerPort)%Z ->
   bServerStarted (Server w') = false /\
   HttpRouter (Server w') = None /\
   CurrentServerPort (Server w') = ServerPort /\
   Calls (HttpServerModule w')
   = (Calls (HttpServerModule w) ++ [CallGetHttpRouter ServerPort])%list) /\
  RouteDelegates (Server w') = RouteDelegates (Server w) /\
  RouteHandlers (Server w') = RouteHandlers (Server w) /\
  RouteVerbs (Server w') = RouteVerbs (Server w) /\
  CreatedRouteHandlers (Server w') = CreatedRouteHandlers (Server w) /\
  bRootPreprocessorRegistered (Server w') = bRootPreprocessorRegistered (Server w) /\
  Routers (HttpServerModule w') = Routers (HttpServerModule w) /\
  NextHandle (HttpServerModule w') = NextHandle (HttpServerModule w) /\
  bListenersStarted (HttpServerModule w') = bListenersStarted (HttpServerModule w).
Proof.
  intros Hfail w'. subst w'. unfold StartServer.
  destruct (Z.leb_spec ServerPort 0) as [Hle|Hlt].
  - split; [done|]. split; [lia|]. by repeat split.
  - destruct Hfail as [|Hno]; [lia|].
    cbn [CurrentServerPort set_CurrentServerPort HttpRouter set_HttpRouter].
    unfold Transport.GetHttpRouter. rewrite Hno. cbn.
    split; [lia|]. by repeat split.
Qed.

Lemma StopServer_lookup (w : World) (q : Z) :
  Routers (HttpServerModule (StopServer w)) !! q
  = match HttpRouter (Server w) with
    | Some Port =>
        if decide (q = Port)
        then AfterStop (Server w) <$> Routers (HttpServerModule w) !! q
        else Routers (HttpServerModule w) !! q
    | None => Routers (HttpServerModule w) !! q
    end.
Proof.
  rewrite StopServer_unfold.
  destruct (HttpRouter (Server w)) as [Port|]; [|done].
  cbn [HttpServerModule]. rewrite UnbindAll_lookup. unfold AfterStop.
  destruct (bRootPreprocessorRegistered (Server w));
    cbn [Routers Transport.UnregisterRequestPreprocessor Transport.StopAllListeners];
    rewrite ?lookup_alter;
    destruct (decide (q = Port)) as [->|Hne];
    repeat case_decide; try congruence;
    destruct (Routers (HttpServerModule w) !! _) as [router|]; cbn;
    repeat case_decide; try congruence; done.
Qed.

Lemma StopServer_module (w : World) :
  NextHandle (HttpServerModule (StopServer w)) = NextHandle (HttpServerModule w) /\
  bListenersStarted (HttpServerModule (StopServer w)) = false.
Proof.
  rewrite StopServer_unfold.
  destruct (HttpRouter (Server w)) as [Port|]; [|done].
  cbn [HttpServerModule]. rewrite UnbindAll_NextHandle.
  split; [by destruct (bRootPreprocessorRegistered (Server w))|].
  unfold UnbindAll.
  generalize (CreatedRouteHandlers (Server w)). intros hs.
  assert (forall m, bListenersStarted m = false ->
             bListenersStarted
               (fold_left (fun m h => Transport.UnbindRoute Port h m) hs m) = false) as Hfold.
  { induction hs as [|h hs IH]; intros m Hm; cbn; [done|]. by apply IH. }
  apply Hfold. by destruct (bRootPreprocessorRegistered (Server w)).
Qed.

(** X10.  [StopServer] changes the router its pointer is on and no
    other.  Of that router it removes the routes whose handle is in
    [CreatedRouteHandlers] and, when the root preprocessor was registered,
    the preprocessor under the handle it kept; every other route and
    preprocessor stays, in its order.  Without a router nothing is
    unbound. *)
Theorem StopServer_unbinds_only_own (w : World) (q : Z) :
  Routers (HttpServerModule (StopServer w)) !! q
  = match HttpRouter (Server w) with
    | Some Port =>
        if decide (q = Port)
        then AfterStop (Server w) <$> Routers (HttpServerModule w) !! q
        else Routers (HttpServerModule w) !! q
    | None => Routers (HttpServerModule w) !! q
    end /\
  NextHandle (HttpServerModule (StopServer w)) = NextHandle (HttpServerModule w) /\
  bListenersStarted (HttpServerModule (StopServer w)) = false.
Proof.
  split; [apply StopServer_lookup | apply StopServer_module].
Qed.

Lemma AfterStop_idem (this this' : USimpleHttpServer) (router : IHttpRouter) :
  CreatedRouteHandlers this' = CreatedRouteHandlers this ->
  bRootPreprocessorRegistered this' = false ->
  AfterStop this' (AfterStop this router) = AfterStop this router.
Proof.
  intros Hc Hf. unfold AfterStop. rewrite Hc, Hf. cbn. f_equal.
  rewrite list_filter_filter. apply list_filter_iff. intros br. tauto.
Qed.

(** X11.  Stopping twice is stopping once: the second [StopServer] leaves
    the server and every router as the first one left them. *)
Theorem StopServer_idempotent (w : World) :
  Server (StopServer (StopServer w)) = Server (StopServer w) /\
  Routers (HttpServerModule (StopServer (StopServer w)))
  = Routers (HttpServerModule (StopServer w)) /\
  NextHandle (HttpServerModule (StopServer (StopServer w)))
  = NextHandle (HttpServerModule (StopServer w)).
Proof.
  destruct (StopServer_members w) as (Hr & Hc & _ & _ & Hf).
  split; [|split].
  - rewrite (StopServer_unfold (StopServer w)), Hr.
    destruct (HttpRouter (Server w)) as [Port|]; [|done].
    rewrite Hf. done.
  - apply map_eq. intros q. rewrite (StopServer_lookup (StopServer w)), Hr.
    destruct (HttpRouter (Server w)) as [Port|] eqn:Hrouter; [|done].
    case_decide; [|done]. subst q.
    rewrite (StopServer_lookup w), Hrouter, decide_True by done.
    destruct (Routers (HttpServerModule w) !! Port) as [router|]; [|done].
    cbn. f_equal. by apply AfterStop_idem.
  - apply StopServer_module.
Qed.

End LifecycleMore.

Lemma StartServer_failure_witness :
  ((9090 <= 0)%Z \/ Only8080 9090 = false) /\
  let w' := StartServer AnyPath Only8080 9090 (NewWorld StatusHook) in
  HttpRouter (Server w') = None /\
  bServerStarted (Server w') = false /\
  Routers (HttpServerModule w') = ∅.
Proof.
  split; [by right|].
  destruct (StartServer_failure AnyPath Only8080 (NewWorld StatusHook) 9090
              (or_intror eq_refl))
    as (_ & Hlate & _ & _ & _ & _ & _ & Hrouters & _).
  destruct (Hlate eq_refl) as (Hs & Hr & _).
  split; [exact Hr|]. split; [exact Hs | exact Hrouters].
Defined.

Section TeardownMore.

Variable IsValidPath : string -> bool.
Variable RouterAvailable : Z -> bool.

(** X12.  A start that finds no router makes the router pointer null, so
    the [StopServer] that follows unbinds nothing: the routers, with the
    routes an earlier session bound, are as they were before the failed
    start, and so are the created handles and the root-preprocessor flag. *)
Theorem stop_after_failed_start_unbinds_nothing (w : World) (ServerPort : Z) :
  (0 < ServerPort)%Z ->
  RouterAvailable ServerPort = false ->
  let w' := StopServer (StartServer IsValidPath RouterAvailable ServerPort w) in
  Routers (HttpServerModule w') = Routers (HttpServerModule w) /\
  CreatedRouteHandlers (Server w') = CreatedRouteHandlers (Server w) /\
  bRootPreprocessorRegistered (Server w') = bRootPreprocessorRegistered (Server w) /\
  HttpRouter (Server w') = None.
Proof.
  intros Hpos Hno w'. subst w'. rewrite StopServer_unfold.
  unfold StartServer. destruct (Z.leb_spec ServerPort 0) as [|_]; [lia|].
  cbn [CurrentServerPort set_CurrentServerPort HttpRouter set_HttpRouter].
  unfold Transport.GetHttpRouter. rewrite Hno. done.
Qed.

(** X13.  [BeginDestroy] of a reachable server that has a router leaves
    the router of its port without a single bound route, so that a request
    away from the root is unmatched there. *)
Theorem BeginDestroy_unbinds_every_route (w : World) (Port : Z) :
  Reachable IsValidPath RouterAvailable w ->
  HttpRouter (Server w) = Some Port ->
  exists router,
    Routers (HttpServerModule (BeginDestroy w)) !! Port = Some router /\
    Routes router = [] /\
    forall Request,
      IsRoot (FHttpServerRequest.RelativePath Request) = false ->
      ProcessRequest (Server (BeginDestroy w)) router Request = (false, []).
Proof.
  intros Hreach Hrouter. unfold BeginDestroy.
  pose proof (Reachable_Inv _ _ _ Hreach) as I.
  pose proof (Inv_StopServer w I) as I'.
  destruct (StopServer_clears w Port I Hrouter) as (router & Hl & Hroutes).
  exists router. split; [exact Hl|]. split; [exact Hroutes|].
  intros Request Hroot.
  rewrite (ProcessRequest_by_signatures (StopServer w) Port router Request I' Hl Hroot).
  by rewrite Hroutes.
Qed.

(** X14.  A registration made without a router, or for a path the
    transport refuses, goes into the tables and nowhere else: the path has
    a handler of the kind and a verb mask, while the transport module, the
    created handles and the root-preprocessor flag are untouched. *)
Theorem registration_without_binding (r : Registration) (w : World) :
  HttpRouter (Server w) = None \/
  (RegistersRoot r = false /\ BindsRoute IsValidPath r = false) ->
  let p := NormalizeHttpPath (RegistrationPath r) in
  let w' := Register IsValidPath r w in
  HttpServerModule w' = HttpServerModule w /\
  CreatedRouteHandlers (Server w') = CreatedRouteHandlers (Server w) /\
  bRootPreprocessorRegistered (Server w') = bRootPreprocessorRegistered (Server w) /\
  Finds (RegistrationKind r) (Server w') p = true /\
  is_Some (RouteVerbs (Server w') !! p).
Proof.
  intros Hwhy p w'.
  assert (BindIntoRouter IsValidPath p (RegistrationVerbs r) (RegistrationLambda r)
            (UpdateTables r w) = UpdateTables r w) as Hsame.
  { unfold BindIntoRouter.
    assert (HttpRouter (Server (UpdateTables r w)) = HttpRouter (Server w)) as ->
      by by destruct r.
    destruct Hwhy as [-> | [Hroot Hbinds]]; [done|].
    destruct (HttpRouter (Server w)); [|done].
    unfold RegistersRoot, BindsRoute in *. fold p in Hroot, Hbinds.
    rewrite Hroot in *. cbn [negb andb] in Hbinds. by rewrite Hbinds. }
  subst w'. rewrite Register_decompose. fold p. rewrite Hsame.
  split; [done|]. split; [by destruct r|]. split; [by destruct r|]. split.
  - destruct r; cbn; apply Contains_insert.
  - rewrite UpdateTables_RouteVerbs. fold p. unfold MergeVerbs.
    destruct (RouteVerbs (Server w) !! p); rewrite lookup_insert_eq; eauto.
Qed.

(** X15.  A registration made while the server has a router, for a path
    that is not the root and that the transport accepts, is bound at once:
    it makes one [BindRoute] call, the route is the last one of the
    router's routes, under the handle the transport issued, and that
    handle is the last one of [CreatedRouteHandlers]. *)
Theorem registration_binds_at_once
    (r : Registration) (w : World) (Port : Z) (router : IHttpRouter) :
  HttpRouter (Server w) = Some Port ->
  Routers (HttpServerModule w) !! Port = Some router ->
  BindsRoute IsValidPath r = true ->
  let w' := Register IsValidPath r w in
  let route := {| Handle := NextHandle (HttpServerModule w);
                  Path := NormalizeHttpPath (RegistrationPath r);
                  Verbs := RegistrationVerbs r;
                  Handler := RegistrationLambda r |} in
  Calls (HttpServerModule w') = (Calls (HttpServerModule w) ++ [CallBindRoute Port route])%list /\
  RoutesAt (HttpServerModule w') Port = (Routes router ++ [route])%list /\
  PreprocessorsAt (HttpServerModule w') Port = RequestPreprocessors router /\
  CreatedRouteHandlers (Server w')
  = (CreatedRouteHandlers (Server w) ++ [NextHandle (HttpServerModule w)])%list /\
  NextHandle (HttpServerModule w') = S (NextHandle (HttpServerModule w)).
Proof.
  intros Hrouter Hlookup Hbinds w' route. subst w'.
  rewrite Register_decompose. unfold BindIntoRouter.
  assert (HttpRouter (Server (UpdateTables r w)) = Some Port) as -> by by destruct r.
  unfold BindsRoute in Hbinds. apply andb_prop in Hbinds as [Hroot Hvalid].
  apply negb_true_iff in Hroot. rewrite Hroot, Hvalid. cbn [negb].
  assert (HttpServerModule (UpdateTables r w) = HttpServerModule w) as Hm by by destruct r.
  assert (CreatedRouteHandlers (Server (UpdateTables r w))
          = CreatedRouteHandlers (Server w)) as Hc by by destruct r.
  unfold RoutesAt, PreprocessorsAt. cbn. rewrite ?Hm, ?Hc.
  rewrite lookup_alter_eq, Hlookup. subst route.
  destruct r; repeat split; reflexivity.
Qed.

(** X16.  The root preprocessor is registered once however often the root
    is registered: of two registrations of the root made while the server
    has a router, the first registers the preprocessor unless the flag says
    it is there already, and the second registers nothing.  Neither binds a
    route or creates a route handle. *)
Theorem root_preprocessor_registered_once
    (r1 r2 : Registration) (w : World) (Port : Z) (router : IHttpRouter) :
  HttpRouter (Server w) = Some Port ->
  Routers (HttpServerModule w) !! Port = Some router ->
  RegistersRoot r1 = true ->
  RegistersRoot r2 = true ->
  let w1 := Register IsValidPath r1 w in
  let w2 := Register IsValidPath r2 w1 in
  PreprocessorsAt (HttpServerModule w1) Port
  = (RequestPreprocessors router
     ++ (if bRootPreprocessorRegistered (Server w) then []
         else [(NextHandle (HttpServerModule w), RootPreprocessorLambda)]))%list /\
  HttpServerModule w2 = HttpServerModule w1 /\
  bRootPreprocessorRegistered (Server w2) = true /\
  RoutesAt (HttpServerModule w2) Port = Routes router /\
  CreatedRouteHandlers (Server w2) = CreatedRouteHandlers (Server w).
Proof.
  intros Hrouter Hlookup Hroot1 Hroot2 w1 w2.
  assert (forall r w0, HttpRouter (Server w0) = Some Port ->
            RegistersRoot r = true ->
            Register IsValidPath r w0
            = if bRootPreprocessorRegistered (Server w0) then UpdateTables r w0
              else {| Server := set_RootPreprocessor true (NextHandle (HttpServerModule w0))
                                  (Server (UpdateTables r w0));
                      HttpServerModule :=
                        (Transport.RegisterRequestPreprocessor Port RootPreprocessorLambda
                           (HttpServerModule w0)).2 |}) as Hreg.
  { intros r w0 Hr0 Hroot. rewrite Register_decompose. unfold BindIntoRouter.
    assert (HttpRouter (Server (UpdateTables r w0)) = Some Port) as -> by by destruct r.
    unfold RegistersRoot in Hroot. rewrite Hroot.
    assert (bRootPreprocessorRegistered (Server (UpdateTables r w0))
            = bRootPreprocessorRegistered (Server w0)) as -> by by destruct r.
    destruct (bRootPreprocessorRegistered (Server w0)); cbn [negb]; [done|].
    by destruct r. }
  assert (HttpRouter (Server w1) = Some Port /\
          bRootPreprocessorRegistered (Server w1) = true /\
          CreatedRouteHandlers (Server w1) = CreatedRouteHandlers (Server w) /\
          RoutesAt (HttpServerModule w1) Port = Routes router /\
          PreprocessorsAt (HttpServerModule w1) Port
          = (RequestPreprocessors router
             ++ (if bRootPreprocessorRegistered (Server w) then []
                 else [(NextHandle (HttpServerModule w), RootPreprocessorLambda)]))%list)
    as (Hr1 & Hf1 & Hc1 & Hroutes1 & Hpre1).
  { subst w1. rewrite (Hreg r1 w Hrouter Hroot1).
    unfold RoutesAt, PreprocessorsAt.
    destruct (bRootPreprocessorRegistered (Server w)) eqn:Hf.
    - destruct r1; cbn; rewrite Hlookup, ?app_nil_r; done.
    - destruct r1; cbn; rewrite lookup_alter_eq, Hlookup; done. }
  split; [exact Hpre1|].
  assert (w2 = UpdateTables r2 w1) as ->.
  { subst w2. by rewrite (Hreg r2 w1 Hr1 Hroot2), Hf1. }
  split; [by destruct r2|]. split; [by destruct r2|].
  split; [by destruct r2|]. by destruct r2.
Qed.

End TeardownMore.

Lemma Reachable_StartedOn8080 : Reachable AnyPath Only8080 StartedOn8080.
Proof.
  apply Reachable_StartServer, Reachable_new.
  repeat constructor; apply WellTyped_GET_POST.
Qed.

Lemma stop_after_failed_start_unbinds_nothing_witness :
  (0 < 9090)%Z /\
  Only8080 9090 = false /\
  let w' := StopServer (StartServer AnyPath Only8080 9090 StartedOn8080) in
  map RouteSignature (RoutesAt (HttpServerModule w') 8080)
  = [("/status", Verb.GET, RouteLambda "/status")] /\
  HttpRouter (Server w') = None.
Proof.
  split; [reflexivity|]. split; [reflexivity|].
  destruct (stop_after_failed_start_unbinds_nothing AnyPath Only8080 StartedOn8080 9090
              eq_refl eq_refl) as (Hrouters & _ & _ & Hnone).
  split; [|exact Hnone]. unfold RoutesAt. rewrite Hrouters. reflexivity.
Defined.

Lemma BeginDestroy_unbinds_every_route_witness :
  Reachable AnyPath Only8080 StartedOn8080 /\
  HttpRouter (Server StartedOn8080) = Some 8080%Z /\
  map RouteSignature (RoutesAt (HttpServerModule StartedOn8080) 8080)
  = [("/status", Verb.GET, RouteLambda "/status")] /\
  exists router,
    Routers (HttpServerModule (BeginDestroy StartedOn8080)) !! 8080%Z = Some router /\
    Routes router = [] /\
    ProcessRequest (Server (BeginDestroy StartedOn8080)) router
      (MakeRequest Verb.GET "/status") = (false, []).
Proof.
  split; [exact Reachable_StartedOn8080|]. split; [reflexivity|]. split; [reflexivity|].
  destruct (BeginDestroy_unbinds_every_route AnyPath Only8080 StartedOn8080 8080
              Reachable_StartedOn8080 eq_refl) as (router & Hl & Hroutes & Hserve).
  exists router. split; [exact Hl|]. split; [exact Hroutes|].
  by apply Hserve.
Defined.

Lemma registration_without_binding_witness :
  HttpRouter (Server (NewWorld [])) = None /\
  let w' := Register AnyPath (ViaBindRoute "/early" Verb.GET OkDelegate) (NewWorld []) in
  HttpServerModule w' = Transport.empty /\
  CreatedRouteHandlers (Server w') = [] /\
  Finds CallbackStyle (Server w') "/early" = true.
Proof.
  split; [reflexivity|].
  destruct (registration_without_binding AnyPath
              (ViaBindRoute "/early" Verb.GET OkDelegate) (NewWorld [])
              (or_introl eq_refl)) as (Hm & Hc & _ & Hfinds & _).
  split; [exact Hm|]. split; [exact Hc | exact Hfinds].
Defined.

Lemma registration_binds_at_once_witness :
  HttpRouter (Server EmptyStartedWorld) = Some 8080%Z /\
  Routers (HttpServerModule EmptyStartedWorld) !! 8080%Z
    = Some {| Routes := []; RequestPreprocessors := [] |} /\
  BindsRoute AnyPath (ViaBindRoute "late/" Verb.GET OkDelegate) = true /\
  let w' := Register AnyPath (ViaBindRoute "late/" Verb.GET OkDelegate) EmptyStartedWorld in
  RoutesAt (HttpServerModule w') 8080
  = [{| Handle := 1; Path := "/late"; Verbs := Verb.GET; Handler := RouteLambda "/late" |}] /\
  CreatedRouteHandlers (Server w') = [1%nat].
Proof.
  split; [reflexivity|]. split; [reflexivity|]. split; [reflexivity|].
  destruct (registration_binds_at_once AnyPath
              (ViaBindRoute "late/" Verb.GET OkDelegate) EmptyStartedWorld 8080
              {| Routes := []; RequestPreprocessors := [] |} eq_refl eq_refl eq_refl)
    as (_ & Hroutes & _ & Hcreated & _).
  split; [exact Hroutes | exact Hcreated].
Defined.

Lemma root_preprocessor_registered_once_witness :
  HttpRouter (Server EmptyStartedWorld) = Some 8080%Z /\
  RegistersRoot (ViaBindRoute "/" Verb.GET OkDelegate) = true /\
  RegistersRoot (ViaBindRouteNative "" Verb.POST DirectHandler) = true /\
  let w2 := Register AnyPath (ViaBindRouteNative "" Verb.POST DirectHandler)
              (Register AnyPath (ViaBindRoute "/" Verb.GET OkDelegate) EmptyStartedWorld) in
  PreprocessorsAt (HttpServerModule w2) 8080 = [(1%nat, RootPreprocessorLambda)] /\
  RoutesAt (HttpServerModule w2) 8080 = [].
Proof.
  split; [reflexivity|]. split; [reflexivity|]. split; [reflexivity|].
  destruct (root_preprocessor_registered_once AnyPath
              (ViaBindRoute "/" Verb.GET OkDelegate)
              (ViaBindRouteNative "" Verb.POST DirectHandler)
              EmptyStartedWorld 8080 {| Routes := []; RequestPreprocessors := [] |}
              eq_refl eq_refl eq_refl eq_refl)
    as (Hpre & Hsame & _ & Hroutes & _).
  split; [|exact Hroutes]. cbv zeta. rewrite Hsame. exact Hpre.
Defined.

(** ** More invariants of the reachable worlds *)

Section InvariantsMore.

Variable IsValidPath : string -> bool.
Variable RouterAvailable : Z -> bool.

Lemma KeepsPaths_refl this : KeepsPaths this this.
Proof. by intros p. Qed.

Lemma KeepsPaths_trans this1 this2 this3 :
  KeepsPaths this1 this2 -> KeepsPaths this2 this3 -> KeepsPaths this1 this3.
Proof.
  intros H12 H23 p. destruct (H12 p) as (? & ? & ?), (H23 p) as (? & ? & ?).
  repeat split; auto.
Qed.

Lemma KeepsPaths_same this this' :
  RouteDelegates this' = RouteDelegates this ->
  RouteHandlers this' = RouteHandlers this ->
  RouteVerbs this' = RouteVerbs this ->
  KeepsPaths this this'.
Proof. intros Hd Hh Hv p. by rewrite Hd, Hh, Hv. Qed.

Lemma is_Some_insert_mono {V} (m : gmap string V) (k p : string) (v : V) :
  is_Some (m !! p) -> is_Some (<[k := v]> m !! p).
Proof.
  intros Hp. destruct (decide (k = p)) as [->|Hne].
  - rewrite lookup_insert_eq. eauto.
  - by rewrite lookup_insert_ne.
Qed.

Lemma KeepsPaths_UpdateTables r w : KeepsPaths (Server w) (Server (UpdateTables r w)).
Proof.
  intros p. split; [|split].
  - destruct r; cbn; auto using is_Some_insert_mono.
  - destruct r; cbn; auto using is_Some_insert_mono.
  - rewrite UpdateTables_RouteVerbs. unfold MergeVerbs.
    destruct (RouteVerbs (Server w) !! NormalizeHttpPath (RegistrationPath r));
      apply is_Some_insert_mono.
Qed.

Lemma KeepsPaths_Register r w : KeepsPaths (Server w) (Server (Register IsValidPath r w)).
Proof.
  rewrite Register_decompose.
  eapply KeepsPaths_trans; [apply KeepsPaths_UpdateTables|].
  apply KeepsPaths_same; apply BindIntoRouter_tables.
Qed.

Lemma KeepsPaths_fold rs w :
  KeepsPaths (Server w)
    (Server (fold_left (fun w r => Register IsValidPath r w) rs w)).
Proof.
  revert w. induction rs as [|r rs IH]; intros w; cbn; [apply KeepsPaths_refl|].
  eapply KeepsPaths_trans; [apply KeepsPaths_Register | apply IH].
Qed.

Lemma KeepsPaths_StartServer ServerPort w :
  KeepsPaths (Server w) (Server (StartServer IsValidPath RouterAvailable ServerPort w)).
Proof.
  unfold StartServer. destruct (ServerPort <=? 0)%Z; [apply KeepsPaths_refl|].
  cbn [HttpRouter set_HttpRouter]. case_match; [|by apply KeepsPaths_same].
  unfold BindRoutes.
  eapply KeepsPaths_trans; [|apply KeepsPaths_same; reflexivity].
  eapply KeepsPaths_trans; [|apply KeepsPaths_fold]. by apply KeepsPaths_same.
Qed.

(** X17.  The tables only grow: no registration and no start takes a path
    out of [RouteDelegates], [RouteHandlers] or [RouteVerbs], and
    [StopServer] leaves the three tables exactly as they are. *)
Theorem tables_only_grow (w : World) (r : Registration) (ServerPort : Z) :
  KeepsPaths (Server w) (Server (Register IsValidPath r w)) /\
  KeepsPaths (Server w) (Server (StartServer IsValidPath RouterAvailable ServerPort w)) /\
  RouteDelegates (Server (StopServer w)) = RouteDelegates (Server w) /\
  RouteHandlers (Server (StopServer w)) = RouteHandlers (Server w) /\
  RouteVerbs (Server (StopServer w)) = RouteVerbs (Server w).
Proof.
  split; [apply KeepsPaths_Register|]. split; [apply KeepsPaths_StartServer|].
  rewrite StopServer_unfold. by repeat case_match.
Qed.

(** X18.  A start on a port that is greater than zero and has a router
    adds the routes of [ReceiveBindRoutes] to the ones the router of the
    port already has; it unbinds none.  Two starts in a row, without a stop
    between them, leave every route of the event bound twice. *)
Theorem start_without_stop_binds_again (w : World) (ServerPort : Z) :
  (0 < ServerPort)%Z ->
  RouterAvailable ServerPort = true ->
  let hook := HookRoutes IsValidPath (ReceiveBindRoutes (Server w)) in
  let w1 := StartServer IsValidPath RouterAvailable ServerPort w in
  let w2 := StartServer IsValidPath RouterAvailable ServerPort w1 in
  map RouteSignature (RoutesAt (HttpServerModule w1) ServerPort)
  = (map RouteSignature (RoutesAt (HttpServerModule w) ServerPort) ++ hook)%list /\
  map RouteSignature (RoutesAt (HttpServerModule w2) ServerPort)
  = (map RouteSignature (RoutesAt (HttpServerModule w) ServerPort) ++ hook ++ hook)%list.
Proof.
  intros Hpos Havail hook w1 w2.
  destruct (StartServer_live IsValidPath RouterAvailable ServerPort w Hpos Havail)
    as (_ & _ & _ & router1 & new1 & Hl1 & Hroutes1 & Hsig1 & _).
  destruct (StartServer_live IsValidPath RouterAvailable ServerPort w1 Hpos Havail)
    as (_ & _ & _ & router2 & new2 & Hl2 & Hroutes2 & Hsig2 & _).
  fold w1 in Hl1. fold w2 in Hl2.
  assert (map RouteSignature (RoutesAt (HttpServerModule w1) ServerPort)
          = (map RouteSignature (RoutesAt (HttpServerModule w) ServerPort) ++ hook)%list)
    as H1.
  { unfold RoutesAt at 1. rewrite Hl1, Hroutes1, map_app, Hsig1. done. }
  split; [exact H1|].
  unfold RoutesAt at 1. rewrite Hl2, Hroutes2, map_app, Hsig2, H1.
  subst w1. rewrite StartServer_hook, <- app_assoc. done.
Qed.

(** X19.  In every reachable world a request to the root never reaches a
    bound route: what a router answers is what its preprocessors answer,
    and a router without preprocessor leaves the request unmatched. *)
Theorem root_requests_bypass_routes
    (w : World) (Port : Z) (router : IHttpRouter) (Request : FHttpServerRequest.t) :
  Reachable IsValidPath RouterAvailable w ->
  Routers (HttpServerModule w) !! Port = Some router ->
  IsRoot (FHttpServerRequest.RelativePath Request) = true ->
  ProcessRequest (Server w) router Request
  = RunPreprocessors (Server w) (RequestPreprocessors router) Request /\
  (RequestPreprocessors router = [] ->
   ProcessRequest (Server w) router Request = (false, [])).
Proof.
  intros Hreach Hrouter Hroot.
  pose proof (Reachable_Inv _ _ _ Hreach) as I.
  assert (ProcessRequest (Server w) router Request
          = RunPreprocessors (Server w) (RequestPreprocessors router) Request) as Hpre.
  { unfold ProcessRequest.
    destruct (RunPreprocessors (Server w) (RequestPreprocessors router) Request)
      as [[|] evs]; cbn [fst snd]; [done|].
    rewrite find_none_intro; [done|]. intros br Hbr.
    unfold Transport.RouteMatches.
    destruct (String.eqb_spec (Path br) (FHttpServerRequest.RelativePath Request))
      as [Hp|]; [|done].
    apply IsRoot_true in Hroot. rewrite Hroot in Hp.
    destruct (inv_routes w I Port br) as (_ & _ & Hne & _); [eexists; eauto | done]. }
  split; [exact Hpre|]. intros Hnone. by rewrite Hpre, Hnone.
Qed.

End InvariantsMore.

Lemma start_without_stop_binds_again_witness :
  (0 < 8080)%Z /\
  AnyPort 8080 = true /\
  let w2 := StartServer AnyPath AnyPort 8080
              (StartServer AnyPath AnyPort 8080 (NewWorld StatusHook)) in
  map RouteSignature (RoutesAt (HttpServerModule w2) 8080)
  = [("/status", Verb.GET, RouteLambda "/status");
     ("/status", Verb.GET, RouteLambda "/status")].
Proof.
  split; [reflexivity|]. split; [reflexivity|].
  destruct (start_without_stop_binds_again AnyPath AnyPort (NewWorld StatusHook) 8080
              eq_refl eq_refl) as (_ & Htwice).
  exact Htwice.
Defined.

Lemma root_requests_bypass_routes_witness :
  Reachable AnyPath AnyPort BothKindsWorld /\
  exists router,
    Routers (HttpServerModule BothKindsWorld) !! 8080%Z = Some router /\
    RequestPreprocessors router = [] /\
    ProcessRequest (Server BothKindsWorld) router (MakeRequest Verb.GET "/") = (false, []).
Proof.
  assert (Reachable AnyPath AnyPort BothKindsWorld) as Hreach.
  { apply Reachable_StartServer, Reachable_new.
    repeat constructor; apply WellTyped_GET_POST. }
  split; [exact Hreach|].
  eexists. split; [reflexivity|]. split; [reflexivity|].
  by apply (root_requests_bypass_routes AnyPath AnyPort BothKindsWorld 8080 _
              (MakeRequest Verb.GET "/") Hreach eq_refl eq_refl).
Defined.

Section SecondInvariant.

Variable IsValidPath : string -> bool.
Variable RouterAvailable : Z -> bool.

Lemma Finds_is_Some kind this p :
  Finds kind this p = true <->
  match kind with
  | CallbackStyle => is_Some (RouteDelegates this !! p)
  | DirectStyle => is_Some (RouteHandlers this !! p)
  end.
Proof. destruct kind; apply Contains_true. Qed.

Lemma KeepsPaths_Finds this this' kind p :
  KeepsPaths this this' -> Finds kind this p = true -> Finds kind this' p = true.
Proof.
  intros Hk. rewrite !Finds_is_Some. destruct (Hk p) as (Hd & Hh & _).
  by destruct kind.
Qed.

Lemma RouteFinds_mono this this' br :
  KeepsPaths this this' -> RouteFinds this br -> RouteFinds this' br.
Proof.
  intros Hk (Hc & kind & HL & Hf). split; [done|]. exists kind.
  split; [done|]. by eapply KeepsPaths_Finds.
Qed.

Lemma Inv2_step (w w' : World) :
  Inv2 w ->
  KeepsPaths (Server w) (Server w') ->
  TablesAgree (Server w') ->
  NoDup (CreatedRouteHandlers (Server w')) ->
  (forall q br, RouteAt (HttpServerModule w') q br ->
                RouteAt (HttpServerModule w) q br \/ RouteFinds (Server w') br) ->
  Inv2 w'.
Proof.
  intros [Hr Ht Hc] Hk Ht' Hc' Hroutes. split; [|done|done].
  intros q br Hat. destruct (Hroutes q br Hat) as [Hold|]; [|done].
  eapply RouteFinds_mono; eauto.
Qed.

Lemma TablesAgree_same this this' :
  RouteDelegates this' = RouteDelegates this ->
  RouteHandlers this' = RouteHandlers this ->
  RouteVerbs this' = RouteVerbs this ->
  TablesAgree this -> TablesAgree this'.
Proof.
  intros Hd Hh Hv Ht p. unfold Finds. rewrite Hd, Hh, Hv. apply Ht.
Qed.

(** A change that touches neither the tables, nor the created handles,
    nor the routes. *)
Lemma Inv2_same (w w' : World) :
  Inv2 w ->
  RouteDelegates (Server w') = RouteDelegates (Server w) ->
  RouteHandlers (Server w') = RouteHandlers (Server w) ->
  RouteVerbs (Server w') = RouteVerbs (Server w) ->
  CreatedRouteHandlers (Server w') = CreatedRouteHandlers (Server w) ->
  (forall q br, RouteAt (HttpServerModule w') q br -> RouteAt (HttpServerModule w) q br) ->
  Inv2 w'.
Proof.
  intros I Hd Hh Hv Hc Hroutes. apply (Inv2_step w w' I).
  - by apply KeepsPaths_same.
  - apply (TablesAgree_same (Server w)); [done..|apply I].
  - rewrite Hc. apply I.
  - auto.
Qed.

Lemma Inv2_NewWorld hook : Inv2 (NewWorld hook).
Proof.
  split.
  - intros q br (router & Hl & _). cbn in Hl. by rewrite lookup_empty in Hl.
  - intros p. cbn. unfold Contains. rewrite !lookup_empty. split.
    + split; [by intros [? ?] | by intros [|]].
    + by intros [? ?].
  - constructor.
Qed.

Lemma is_Some_insert {V} (m : gmap string V) (k p : string) (v : V) :
  is_Some (<[k := v]> m !! p) <-> k = p \/ is_Some (m !! p).
Proof.
  destruct (decide (k = p)) as [->|Hne].
  - rewrite lookup_insert_eq. split; eauto.
  - rewrite lookup_insert_ne by done. split; [auto | by intros [|]].
Qed.

Lemma is_Some_MergeVerbs k v (V : gmap string Z) p :
  is_Some (MergeVerbs k v V !! p) <-> k = p \/ is_Some (V !! p).
Proof. unfold MergeVerbs. destruct (V !! k); apply is_Some_insert. Qed.

Lemma TablesAgree_UpdateTables r w :
  TablesAgree (Server w) -> TablesAgree (Server (UpdateTables r w)).
Proof.
  intros Ht p. destruct (Ht p) as [Hiff Hcan].
  rewrite UpdateTables_RouteVerbs, is_Some_MergeVerbs.
  rewrite !Finds_is_Some in *. split.
  - destruct r; cbn [UpdateTables Server RouteDelegates RouteHandlers
                       set_RouteDelegates set_RouteHandlers set_RouteVerbs
                       RegistrationPath];
      rewrite is_Some_insert; tauto.
  - intros [<-|Hp]; [apply NormalizeHttpPath_canonical | auto].
Qed.

Lemma Inv2_UpdateTables r w : Inv2 w -> Inv2 (UpdateTables r w).
Proof.
  intros I. apply (Inv2_step w _ I).
  - apply KeepsPaths_UpdateTables.
  - apply TablesAgree_UpdateTables, I.
  - destruct r; apply I.
  - auto.
Qed.

Lemma Inv2_BindIntoRouter p v L w :
  Inv w -> Inv2 w ->
  IsCanonicalPath p = true ->
  (exists kind, L = LambdaOfKind kind p /\ Finds kind (Server w) p = true) ->
  Inv2 (BindIntoRouter IsValidPath p v L w).
Proof.
  intros I I2 Hcan HL. unfold BindIntoRouter.
  destruct (HttpRouter (Server w)) as [Port|]; [|done].
  destruct (String.eqb p "/").
  - destruct (bRootPreprocessorRegistered (Server w)); cbn [negb]; [done|].
    apply (Inv2_same w _ I2); try done.
    intros q br Hat.
    exact (RouteAt_RegisterRequestPreprocessor Port RootPreprocessorLambda _ q br Hat).
  - destruct (IsValidPath (MakeHttpPathForRoute p)); cbn [negb]; [|done].
    apply (Inv2_step w _ I2); cbn.
    + by apply KeepsPaths_same.
    + apply I2.
    + apply NoDup_app. split; [apply I2|]. split; [|apply NoDup_singleton].
      intros h Hh ->%list_elem_of_singleton.
      pose proof (inv_created w I _ Hh). lia.
    + intros q br Hat.
      apply (RouteAt_BindRoute Port (MakeHttpPathForRoute p) v L) in Hat
        as [Hat|[-> ->]]; [by left|].
      right. by split.
Qed.

Lemma Inv2_Register r w :
  WellTyped r -> Inv w -> Inv2 w -> Inv2 (Register IsValidPath r w).
Proof.
  intros Hr I I2. rewrite Register_decompose. apply Inv2_BindIntoRouter.
  - by apply Inv_UpdateTables.
  - by apply Inv2_UpdateTables.
  - apply NormalizeHttpPath_canonical.
  - exists (RegistrationKind r). split; [by destruct r|].
    destruct r; cbn; apply Contains_insert.
Qed.

Lemma Inv2_fold_Register rs w :
  Forall WellTyped rs -> Inv w -> Inv2 w ->
  Inv2 (fold_left (fun w r => Register IsValidPath r w) rs w).
Proof.
  intros Hrs. revert w. induction Hrs as [|r rs Hr _ IH]; intros w I I2; cbn; [done|].
  apply IH; [by apply Inv_Register | by apply Inv2_Register].
Qed.

Lemma Inv_GetHttpRouter ServerPort w :
  Inv w ->
  Inv {| Server := set_HttpRouter
                     (Transport.GetHttpRouter RouterAvailable ServerPort
                        (HttpServerModule w)).1
                     (set_CurrentServerPort ServerPort (Server w));
         HttpServerModule :=
           (Transport.GetHttpRouter RouterAvailable ServerPort (HttpServerModule w)).2 |}.
Proof.
  intros I.
  assert (NextHandle (Transport.GetHttpRouter RouterAvailable ServerPort
                        (HttpServerModule w)).2 = NextHandle (HttpServerModule w)) as Hn.
  { unfold Transport.GetHttpRouter. by destruct (RouterAvailable ServerPort). }
  apply (Inv_mono w _ I); cbn [Server HttpServerModule CreatedRouteHandlers RouteVerbs
                                 set_HttpRouter set_CurrentServerPort ReceiveBindRoutes
                                 HttpRouter].
  - lia.
  - done.
  - rewrite Hn. apply I.
  - apply VerbsGrow_refl.
  - apply I.
  - done.
  - done.
  - intros q Hq. destruct (RouterAvailable ServerPort) eqn:Ha.
    + destruct (GetHttpRouter_Some RouterAvailable ServerPort (HttpServerModule w) Ha)
        as (H1 & H2 & _). rewrite H1 in Hq. by simplify_eq.
    + destruct (GetHttpRouter_None RouterAvailable ServerPort (HttpServerModule w) Ha)
        as (H1 & _). rewrite H1 in Hq. done.
  - intros q br Hat. left. by eapply RouteAt_GetHttpRouter.
  - intros q ph Hat. left. by eapply PreprocessorAt_GetHttpRouter.
Qed.

Lemma Inv2_StartServer ServerPort w :
  Inv w -> Inv2 w -> Inv2 (StartServer IsValidPath RouterAvailable ServerPort w).
Proof.
  intros I I2. unfold StartServer. destruct (ServerPort <=? 0)%Z; [done|].
  cbn [CurrentServerPort set_CurrentServerPort].
  pose proof (Inv_GetHttpRouter ServerPort w I) as I0.
  set (r := Transport.GetHttpRouter RouterAvailable ServerPort (HttpServerModule w)) in *.
  assert (Inv2 {| Server := set_HttpRouter r.1 (set_CurrentServerPort ServerPort (Server w));
                  HttpServerModule := r.2 |}) as I20.
  { apply (Inv2_same w _ I2); try done.
    intros q br Hat. by eapply RouteAt_GetHttpRouter. }
  cbn [HttpRouter set_HttpRouter]. destruct r.1 eqn:Hr1.
  - match goal with
    | |- Inv2 {| Server := set_bServerStarted true (Server ?w1); HttpServerModule := _ |} =>
        assert (Inv2 w1) as I21
    end.
    { unfold BindRoutes. apply Inv2_fold_Register; [apply I | exact I0 | exact I20]. }
    by apply (Inv2_same _ _ I21).
  - by apply (Inv2_same _ _ I20).
Qed.

Lemma Inv2_StopServer w : Inv2 w -> Inv2 (StopServer w).
Proof.
  intros I2. rewrite StopServer_unfold.
  destruct (HttpRouter (Server w)) as [Port|].
  - apply (Inv2_same w _ I2); cbn [Server HttpServerModule];
      try by destruct (bRootPreprocessorRegistered (Server w)).
    intros q br [Hat _]%RouteAt_UnbindAll.
    destruct (bRootPreprocessorRegistered (Server w)); [|done].
    by apply RouteAt_UnregisterRequestPreprocessor in Hat.
  - by apply (Inv2_same w _ I2).
Qed.

Lemma Reachable_Inv2 (w : World) :
  Reachable IsValidPath RouterAvailable w -> Inv2 w.
Proof.
  induction 1 as [hook Hh|r w Hr Hreach IH|ServerPort w Hreach IH|w Hreach IH].
  - apply Inv2_NewWorld.
  - apply Inv2_Register; [done | by eapply Reachable_Inv | done].
  - apply Inv2_StartServer; [by eapply Reachable_Inv | done].
  - by apply Inv2_StopServer.
Qed.

(** X20.  In every reachable world a bound route is well anchored: its
    path is canonical, its handle is one the server keeps, its lambda is
    the one of a kind for its own path, and the table has a handler of that
    kind for the path.  Invoking the route is dispatching by that kind on
    that path, and a route of the direct kind always reaches a direct
    handler, so that the dispatcher completes nothing for it. *)
Theorem bound_routes_find_their_handler
    (w : World) (Port : Z) (router : IHttpRouter) (br : FHttpRouteHandleInternal) :
  Reachable IsValidPath RouterAvailable w ->
  Routers (HttpServerModule w) !! Port = Some router ->
  br ∈ Routes router ->
  IsCanonicalPath (Path br) = true /\
  Handle br ∈ CreatedRouteHandlers (Server w) /\
  exists kind,
    Handler br = LambdaOfKind kind (Path br) /\
    Finds kind (Server w) (Path br) = true /\
    (forall Request,
        Invoke (Server w) (Handler br) Request
        = Dispatch kind (Server w) (Path br) Request) /\
    (kind = DirectStyle ->
     exists h, RouteHandlers (Server w) !! Path br = Some h /\
               forall Request,
                 Invoke (Server w) (Handler br) Request
                 = (true, [Called (HandlerId h)
                             (FillNativeRequst Request FNativeHttpServerRequest.empty)])).
Proof.
  intros Hreach Hrouter Hbr.
  pose proof (Reachable_Inv _ _ _ Hreach) as I.
  pose proof (Reachable_Inv2 _ Hreach) as I2.
  assert (RouteAt (HttpServerModule w) Port br) as Hat by (eexists; eauto).
  destruct (inv2_routes w I2 Port br Hat) as (Hcan & kind & HL & Hf).
  destruct (inv_routes w I Port br Hat) as (_ & Hc & _).
  split; [done|]. split; [done|]. exists kind.
  split; [done|]. split; [done|]. split.
  - intros Request. rewrite HL. by destruct kind.
  - intros ->. cbn in Hf, HL. apply Contains_true in Hf as [h Hh].
    exists h. split; [done|]. intros Request. rewrite HL. cbn.
    unfold HandleRequestNative. by rewrite Hh.
Qed.

(** X21.  In every reachable world the three tables go together: a path
    has a verb mask exactly when it has a delegate or a direct handler, the
    mask is a [uint8], and the path is a canonical one. *)
Theorem tables_agree_in_reachable_worlds (w : World) (p : string) :
  Reachable IsValidPath RouterAvailable w ->
  (is_Some (RouteVerbs (Server w) !! p) <->
   Finds CallbackStyle (Server w) p = true \/ Finds DirectStyle (Server w) p = true) /\
  (is_Some (RouteVerbs (Server w) !! p) -> IsCanonicalPath p = true) /\
  (forall mask, RouteVerbs (Server w) !! p = Some mask -> is_uint8 mask).
Proof.
  intros Hreach.
  pose proof (Reachable_Inv _ _ _ Hreach) as I.
  pose proof (Reachable_Inv2 _ Hreach) as I2.
  destruct (inv2_tables w I2 p) as [Hiff Hcan].
  split; [done|]. split; [done|]. intros mask. apply I.
Qed.

(** X22.  In every reachable world [CreatedRouteHandlers] holds no handle
    twice, and every handle in it was issued by the transport before. *)
Theorem created_handles_distinct (w : World) :
  Reachable IsValidPath RouterAvailable w ->
  NoDup (CreatedRouteHandlers (Server w)) /\
  forall h, h ∈ CreatedRouteHandlers (Server w) ->
            (h < NextHandle (HttpServerModule w))%nat.
Proof.
  intros Hreach. split.
  - apply (Reachable_Inv2 _ Hreach).
  - apply (Reachable_Inv _ _ _ Hreach).
Qed.

End SecondInvariant.

Lemma Reachable_BothKindsWorld : Reachable AnyPath AnyPort BothKindsWorld.
Proof.
  apply Reachable_StartServer, Reachable_new.
  repeat constructor; apply WellTyped_GET_POST.
Qed.

Lemma bound_routes_find_their_handler_witness :
  Reachable AnyPath AnyPort BothKindsWorld /\
  Routers (HttpServerModule BothKindsWorld) !! 8080%Z
  = Some {| Routes := [{| Handle := 1; Path := "/b"; Verbs := Verb.GET;
                          Handler := RouteLambda "/b" |};
                       {| Handle := 2; Path := "/b"; Verbs := Verb.POST;
                          Handler := RouteLambdaNative "/b" |}];
            RequestPreprocessors := [] |} /\
  IsCanonicalPath "/b" = true /\
  (2%nat ∈ CreatedRouteHandlers (Server BothKindsWorld)) /\
  Finds DirectStyle (Server BothKindsWorld) "/b" = true.
Proof.
  split; [exact Reachable_BothKindsWorld|]. split; [reflexivity|].
  destruct (bound_routes_find_their_handler AnyPath AnyPort BothKindsWorld 8080 _
              {| Handle := 2; Path := "/b"; Verbs := Verb.POST;
                 Handler := RouteLambdaNative "/b" |}
              Reachable_BothKindsWorld eq_refl
              (list_elem_of_further _ _ _ (list_elem_of_here _ _)))
    as (Hcan & Hcreated & kind & HL & Hfinds & _).
  split; [exact Hcan|]. split; [exact Hcreated|].
  destruct kind; [discriminate HL | exact Hfinds].
Defined.

Lemma tables_agree_in_reachable_worlds_witness :
  Reachable AnyPath AnyPort BothKindsWorld /\
  RouteVerbs (Server BothKindsWorld) !! "/b" = Some 3%Z /\
  IsCanonicalPath "/b" = true /\
  is_uint8 3.
Proof.
  split; [exact Reachable_BothKindsWorld|]. split; [reflexivity|].
  destruct (tables_agree_in_reachable_worlds AnyPath AnyPort BothKindsWorld "/b"
              Reachable_BothKindsWorld) as (_ & Hcan & Hu).
  split; [apply Hcan; by exists 3%Z | by apply Hu].
Defined.

Lemma created_handles_distinct_witness :
  Reachable AnyPath AnyPort BothKindsWorld /\
  CreatedRouteHandlers (Server BothKindsWorld) = [1; 2]%nat /\
  NoDup (CreatedRouteHandlers (Server BothKindsWorld)).
Proof.
  split; [exact Reachable_BothKindsWorld|]. split; [reflexivity|].
  apply (created_handles_distinct AnyPath AnyPort BothKindsWorld Reachable_BothKindsWorld).
Defined.

(** ** The calls a registration and a start make *)

Section CallOrder.

Variable IsValidPath : string -> bool.
Variable RouterAvailable : Z -> bool.

Lemma BindIntoRouter_Calls p v L w :
  exists mid,
    Calls (HttpServerModule (BindIntoRouter IsValidPath p v L w))
    = (Calls (HttpServerModule w) ++ mid)%list /\
    (length mid <= 1)%nat /\
    (forall c, c ∈ mid ->
               exists Port, HttpRouter (Server w) = Some Port /\
                            IsBindingCall Port c = true) /\
    HttpRouter (Server (BindIntoRouter IsValidPath p v L w)) = HttpRouter (Server w).
Proof.
  unfold BindIntoRouter.
  destruct (HttpRouter (Server w)) as [Port|] eqn:Hrouter.
  - destruct (String.eqb p "/").
    + destruct (bRootPreprocessorRegistered (Server w)); cbn [negb].
      * exists []. rewrite app_nil_r. split; [done|]. split; [cbn; lia|].
        split; [by intros c ?%elem_of_nil | done].
      * eexists [_]. cbn. split; [done|]. split; [lia|]. split; [|done].
        intros c ->%list_elem_of_singleton. exists Port. split; [done|].
        cbn. apply Z.eqb_refl.
    + destruct (IsValidPath (MakeHttpPathForRoute p)); cbn [negb].
      * eexists [_]. cbn. split; [done|]. split; [lia|]. split; [|done].
        intros c ->%list_elem_of_singleton. exists Port. split; [done|].
        cbn. apply Z.eqb_refl.
      * exists []. rewrite app_nil_r. split; [done|]. split; [cbn; lia|].
        split; [by intros c ?%elem_of_nil | done].
  - exists []. rewrite app_nil_r. split; [done|]. split; [cbn; lia|].
    split; [by intros c ?%elem_of_nil | done].
Qed.

Lemma Register_Calls r w :
  exists mid,
    Calls (HttpServerModule (Register IsValidPath r w))
    = (Calls (HttpServerModule w) ++ mid)%list /\
    (length mid <= 1)%nat /\
    (forall c, c ∈ mid ->
               exists Port, HttpRouter (Server w) = Some Port /\
                            IsBindingCall Port c = true) /\
    HttpRouter (Server (Register IsValidPath r w)) = HttpRouter (Server w).
Proof.
  rewrite Register_decompose.
  destruct (BindIntoRouter_Calls (NormalizeHttpPath (RegistrationPath r))
              (RegistrationVerbs r) (RegistrationLambda r) (UpdateTables r w))
    as (mid & Hcalls & Hlen & Hmid & Hrouter).
  assert (HttpRouter (Server (UpdateTables r w)) = HttpRouter (Server w)) as Hr
    by by destruct r.
  assert (HttpServerModule (UpdateTables r w) = HttpServerModule w) as Hm
    by by destruct r.
  rewrite Hr in Hmid, Hrouter. rewrite Hm in Hcalls. eauto.
Qed.

Lemma fold_Register_Calls rs w Port :
  HttpRouter (Server w) = Some Port ->
  exists mid,
    Calls (HttpServerModule (fold_left (fun w r => Register IsValidPath r w) rs w))
    = (Calls (HttpServerModule w) ++ mid)%list /\
    (length mid <= length rs)%nat /\
    forallb (IsBindingCall Port) mid = true.
Proof.
  revert w. induction rs as [|r rs IH]; intros w Hrouter; cbn [fold_left].
  - exists []. by rewrite app_nil_r.
  - destruct (Register_Calls r w) as (mid1 & Hc1 & Hl1 & Hb1 & Hr1).
    rewrite Hrouter in Hr1.
    destruct (IH _ Hr1) as (mid2 & Hc2 & Hl2 & Hb2).
    exists (mid1 ++ mid2)%list. split; [by rewrite Hc2, Hc1, <- app_assoc|].
    split; [rewrite length_app; cbn; lia|].
    rewrite forallb_app, Hb2, andb_true_r. apply forallb_forall.
    intros c Hc%list_elem_of_In. destruct (Hb1 c Hc) as (q & Hq & Hcall).
    rewrite Hrouter in Hq. by injection Hq as <-.
Qed.

(** X23.  A registration makes at most one call to the transport, and
    when it makes one it is a [BindRoute] or a
    [RegisterRequestPreprocessor] on the router the server has: it never
    unbinds, never unregisters and never starts or stops a listener. *)
Theorem registration_makes_one_binding_call (r : Registration) (w : World) :
  exists mid,
    Calls (HttpServerModule (Register IsValidPath r w))
    = (Calls (HttpServerModule w) ++ mid)%list /\
    (length mid <= 1)%nat /\
    (forall c, c ∈ mid ->
               exists Port, HttpRouter (Server w) = Some Port /\
                            IsBindingCall Port c = true) /\
    (HttpRouter (Server w) = None -> mid = []).
Proof.
  destruct (Register_Calls r w) as (mid & Hcalls & Hlen & Hmid & _).
  exists mid. split; [done|]. split; [done|]. split; [done|].
  intros Hnone. destruct mid as [|c mid]; [done|].
  destruct (Hmid c) as (Port & HPort & _); [left | congruence].
Qed.

(** X24.  A successful start talks to the transport in this order: it
    asks for the router of the port, then makes the binding calls of
    [ReceiveBindRoutes], at most one for each registration and all on that
    router, and only then starts the listeners. *)
Theorem start_binds_before_listening (w : World) (ServerPort : Z) :
  (0 < ServerPort)%Z ->
  RouterAvailable ServerPort = true ->
  let w1 := StartServer IsValidPath RouterAvailable ServerPort w in
  exists mid,
    Calls (HttpServerModule w1)
    = (Calls (HttpServerModule w)
       ++ [CallGetHttpRouter ServerPort] ++ mid ++ [CallStartAllListeners])%list /\
    (length mid <= length (ReceiveBindRoutes (Server w)))%nat /\
    forallb (IsBindingCall ServerPort) mid = true /\
    bListenersStarted (HttpServerModule w1) = true.
Proof.
  intros Hpos Havail w1. subst w1. unfold StartServer.
  destruct (Z.leb_spec ServerPort 0) as [|_]; [lia|].
  cbn [CurrentServerPort set_CurrentServerPort HttpRouter set_HttpRouter].
  destruct (GetHttpRouter_Some RouterAvailable ServerPort (HttpServerModule w) Havail)
    as (Hfst & _ & _).
  rewrite Hfst. unfold BindRoutes.
  cbn [Server ReceiveBindRoutes set_HttpRouter set_CurrentServerPort HttpServerModule].
  destruct (fold_Register_Calls (ReceiveBindRoutes (Server w))
              {| Server := set_HttpRouter (Some ServerPort)
                             (set_CurrentServerPort ServerPort (Server w));
                 HttpServerModule :=
                   (Transport.GetHttpRouter RouterAvailable ServerPort
                      (HttpServerModule w)).2 |} ServerPort eq_refl)
    as (mid & Hcalls & Hlen & Hb).
  exists mid. cbn [Transport.StartAllListeners Calls bListenersStarted].
  rewrite Hcalls. cbn [HttpServerModule].
  unfold Transport.GetHttpRouter. rewrite Havail. cbn [snd Calls].
  split; [by rewrite <- !app_assoc|]. by repeat split.
Qed.

End CallOrder.

Lemma start_binds_before_listening_witness :
  (0 < 8080)%Z /\
  AnyPort 8080 = true /\
  Calls (HttpServerModule (StartServer AnyPath AnyPort 8080 (NewWorld StatusHook)))
  = [CallGetHttpRouter 8080;
     CallBindRoute 8080 {| Handle := 1; Path := "/status"; Verbs := Verb.GET;
                           Handler := RouteLambda "/status" |};
     CallRegisterRequestPreprocessor 8080 2;
     CallStartAllListeners] /\
  exists mid,
    Calls (HttpServerModule (StartServer AnyPath AnyPort 8080 (NewWorld StatusHook)))
    = ([CallGetHttpRouter 8080] ++ mid ++ [CallStartAllListeners])%list /\
    forallb (IsBindingCall 8080) mid = true.
Proof.
  split; [reflexivity|]. split; [reflexivity|]. split; [reflexivity|].
  destruct (start_binds_before_listening AnyPath AnyPort (NewWorld StatusHook) 8080
              eq_refl eq_refl) as (mid & Hcalls & _ & Hb & _).
  exists mid. split; [exact Hcalls | exact Hb].
Defined.

(** ** The size and the fixed points of the normaliser *)

(** X25.  A normalised path has at least one character and at most one
    more than the trimmed input, hence at most one more than the input. *)
Theorem NormalizeHttpPath_length (s : string) :
  (1 <= Len (NormalizeHttpPath s))%nat /\
  (Len (NormalizeHttpPath s) <= Len (TrimStartAndEnd s) + 1)%nat /\
  (Len (TrimStartAndEnd s) <= Len s)%nat.
Proof.
  split; [|split].
  - destruct (NormalizeHttpPath_shape s) as (x & -> & _). unfold Len. cbn. lia.
  - rewrite NormalizeHttpPath_normalize_spec. unfold normalize_spec.
    destruct (TrimStartAndEnd s) as [|c r]; [unfold Len; cbn; lia|].
    destruct (Ascii.eqb c "/").
    + pose proof (strip_spec_Len (String c r)). lia.
    + pose proof (strip_spec_Len (String "/" (String c r))).
      unfold Len in *. cbn [String.length] in *. lia.
  - unfold TrimStartAndEnd.
    pose proof (TrimStart_Len (TrimEnd s)). pose proof (TrimEnd_Len s). lia.
Qed.

(** X26.  The paths the normaliser leaves as they are, are exactly the
    canonical paths that do not end in whitespace. *)
Theorem NormalizeHttpPath_fixed_points (p : string) :
  NormalizeHttpPath p = p <->
  IsCanonicalPath p = true /\ EndsWithWhitespace p = false.
Proof.
  split.
  - intros Hfix. split.
    + rewrite <- Hfix. apply NormalizeHttpPath_canonical.
    + destruct (EndsWithWhitespace p) eqn:Hws; [|done].
      assert (EndsWithWhitespace (NormalizeHttpPath p) = true) as Hws'
        by by rewrite Hfix.
      apply NormalizeHttpPath_shrinks_trailing_whitespace in Hws'.
      rewrite !Hfix in Hws'. done.
  - intros [Hcan Hws]. unfold IsCanonicalPath in Hcan.
    apply andb_prop in Hcan as [Hstart Hend].
    apply StartsWith_slash in Hstart as [x ->].
    apply NormalizeHttpPath_of_canonical; [|done].
    destruct x as [|c x]; [reflexivity|].
    apply drop_trailing_slashes_id.
    apply orb_prop in Hend as [Heq|Hend]; [by apply String.eqb_eq in Heq|].
    apply negb_true_iff, EndsWith_slash_false in Hend. exact Hend.
Qed.
